(** * Slot booking and availability of the Thrive Teams backend (server.js)

    A shallow embedding of the booking core of [server.js]: the time
    normaliser [convertTo24Hour], the booked-slot store ([addBookedSlot],
    [removeBookedSlot], [isSlotBooked], [getBookedSlots], [connectToMongoDB])
    and the handlers [GET /api/check-availability], [GET /api/available-slots],
    [GET /api/booked-slots] and [POST /api/schedule-discovery-call], with the
    normaliser of the first [server.js] beside the later one.

    Conventions of the embedding.
    - JavaScript strings are [string]s (the inputs of interest are ASCII).
    - A JavaScript number is a [jsnum := option Z]: the code computes with
      integers only, all far below 2^53, and [None] stands for [NaN]; every
      comparison with [NaN] is [false], as in the language.
    - A [Date] object is its time value, again a [jsnum] (milliseconds since
      the epoch, [None] for an invalid date).  The host's time zone is a fixed
      offset [tz], in minutes east of UTC, and Noida's is UTC+5:30; daylight
      saving and the history of the zones are not modelled.
      The engine's reading of date strings outside the standard format is a
      parameter, [legacy].
    - The requests to the outside (the token endpoint, the Graph API, the
      mailers) are oracles supplied by the environment; [createTeamsMeeting],
      which makes the Graph requests, is embedded with its fallback to a mock
      meeting.  The MongoDB collection is a list of documents with an
      optional unique index on [(date, time)]. *)

From Stdlib Require Import ZArith List Bool Lia Ascii String DecimalString.
From stdpp Require Import gmap strings.

Local Open Scope string_scope.
Local Open Scope Z_scope.

(** ** JavaScript values and string primitives *)

Module JS.

(** [NaN] is [None]. *)
Definition jsnum := option Z.

(** A completion: the normal result of a call, or the exception it throws. *)
Inductive error : Type :=
| DuplicateKey            (* MongoServerError E11000 *)
| RangeError (msg : string)
| Failure (msg : string). (* any other Error, with its message *)

Inductive completion (A : Type) : Type :=
| Normal (a : A)
| Throw (e : error).
Arguments Normal {A} a.
Arguments Throw {A} e.

Definition message (e : error) : string :=
  match e with
  | DuplicateKey => "E11000 duplicate key error"
  | RangeError m => m
  | Failure m => m
  end.

(** Relational operators on numbers. *)
Definition lt (a b : jsnum) : bool :=
  match a, b with Some x, Some y => x <? y | _, _ => false end.
Definition le (a b : jsnum) : bool :=
  match a, b with Some x, Some y => x <=? y | _, _ => false end.
Definition gt (a b : jsnum) : bool := lt b a.
Definition ge (a b : jsnum) : bool := le b a.
(** [a === n] for a literal [n]. *)
Definition strictEq (a : jsnum) (n : Z) : bool :=
  match a with Some x => x =? n | None => false end.

(** [s.includes(sub)]. *)
Fixpoint includes (s sub : string) : bool :=
  if String.prefix sub s then true
  else match s with
       | EmptyString => false
       | String _ s' => includes s' sub
       end.

(** [s.split(sep)] for a one-character separator; never empty. *)
Fixpoint split (s : string) (sep : ascii) : list string :=
  match s with
  | EmptyString => [EmptyString]
  | String c s' =>
      if Ascii.eqb c sep then EmptyString :: split s' sep
      else match split s' sep with
           | w :: ws => String c w :: ws
           | [] => [String c EmptyString]
           end
  end.

Definition digitVal (c : ascii) : option Z :=
  let n := Z.of_N (N_of_ascii c) in
  if (48 <=? n) && (n <=? 57) then Some (n - 48) else None.

(** White space skipped by [parseInt]: TAB, LF, VT, FF, CR and SP. *)
Definition isWhite (c : ascii) : bool :=
  let n := Z.of_N (N_of_ascii c) in
  ((9 <=? n) && (n <=? 13)) || (n =? 32).

Fixpoint trimStart (s : string) : string :=
  match s with
  | String c s' => if isWhite c then trimStart s' else s
  | EmptyString => s
  end.

(** Value of a character as a digit of a radix up to 36. *)
Definition digitOf (c : ascii) : option Z :=
  let n := Z.of_N (N_of_ascii c) in
  if (48 <=? n) && (n <=? 57) then Some (n - 48)
  else if (97 <=? n) && (n <=? 122) then Some (n - 87)
  else if (65 <=? n) && (n <=? 90) then Some (n - 55)
  else None.

(** The longest prefix of digits of the radix, read as a number; [None] when
    the prefix is empty. *)
Fixpoint digitsPrefix (radix : Z) (acc : option Z) (s : string) : option Z :=
  match s with
  | String c s' =>
      match digitOf c with
      | Some d =>
          if d <? radix
          then digitsPrefix radix
                 (Some (radix * (match acc with Some a => a | None => 0 end) + d)) s'
          else acc
      | None => acc
      end
  | EmptyString => acc
  end.

(** [parseInt(s, radix)]; [parseInt(s)] is [parseInt s None]. *)
Definition parseInt (s : string) (radix : option Z) : jsnum :=
  let '(negative, r) :=
    match trimStart s with
    | String "-" r => (true, r)
    | String "+" r => (false, r)
    | r => (false, r)
    end in
  let '(R, hex) :=
    match radix with
    | None | Some 0 => (10, true)
    | Some n => (n, n =? 16)
    end in
  if (R <? 2) || (36 <? R) then None
  else
    let '(R, r) :=
      match r with
      | String "0" (String x r') =>
          if hex && (Ascii.eqb x "x" || Ascii.eqb x "X") then (16, r') else (R, r)
      | _ => (R, r)
      end in
    option_map (fun n => if negative then - n else n) (digitsPrefix R None r).

(** [n.toString()] for an integral number. *)
Definition numToString (n : jsnum) : string :=
  match n with
  | None => "NaN"
  | Some z => NilZero.string_of_int (Z.to_int z)
  end.

Fixpoint repeat (c : ascii) (n : nat) : string :=
  match n with
  | O => EmptyString
  | S k => String c (repeat c k)
  end.

(** [s.padStart(n, c)] for a one-character filler. *)
Definition padStart (s : string) (n : nat) (c : ascii) : string :=
  repeat c (n - String.length s) +:+ s.

(** A string spliced into a template literal; [undefined] prints as such. *)
Definition interpolate (o : option string) : string :=
  match o with Some s => s | None => "undefined" end.

(** Truthiness of an optional string ([undefined] and [""] are falsy). *)
Definition truthy (o : option string) : bool :=
  match o with
  | None | Some EmptyString => false
  | Some _ => true
  end.

End JS.

(** ** Time normaliser *)

(** The variable [hours] of [convertTo24Hour] holds a string until the [PM]
    branch overwrites it with a number. *)
Inductive hoursValue : Type :=
| HStr (s : string)
| HNum (n : JS.jsnum).

Definition hoursToString (h : hoursValue) : string :=
  match h with
  | HStr s => s
  | HNum n => JS.numToString n
  end.

Definition convertTo24Hour (timeInput : string) : string :=
  if negb (JS.includes timeInput "AM") && negb (JS.includes timeInput "PM")
  then timeInput
  else
    let parts := JS.split timeInput " " in
    let time := hd EmptyString parts in
    let modifier := nth_error parts 1 in
    let hm := JS.split time ":" in
    let hours := hd EmptyString hm in
    let minutes := nth_error hm 1 in
    let hours1 := if String.eqb hours "12" then "00" else hours in
    let hours2 :=
      match modifier with
      | Some "PM" => HNum (option_map (fun n => n + 12) (JS.parseInt hours1 (Some 10)))
      | _ => HStr hours1
      end in
    let hoursStr := JS.padStart (hoursToString hours2) 2 "0" in
    hoursStr +:+ ":" +:+ JS.interpolate minutes.

(** The inverse rendering used for the mails, [formatTimeForEmail]. *)
Definition formatTimeForEmail (time24h : string) : string :=
  let hm := JS.split time24h ":" in
  let hours := hd EmptyString hm in
  let minutes := nth_error hm 1 in
  let h := JS.parseInt hours None in
  let hour12 :=
    match option_map (fun n => Z.rem n 12) h with
    | Some 0 | None => Some 12        (* [x % 12 || 12] *)
    | r => r
    end in
  let ampm := if JS.ge h (Some 12) then "PM" else "AM" in
  JS.numToString hour12 +:+ ":" +:+ JS.interpolate minutes +:+ " " +:+ ampm.

(** ** Renderings of civil dates and times

    How a caller writes the date [y-m-d] and the time [h:mi] of a request:
    [isoDate 2025 9 8 = "2025-09-08"], [time24 14 0 = "14:00"],
    [time12 false 2 0 true = "2:00 PM"]. *)

Definition digitChar (d : Z) : ascii := ascii_of_N (Z.to_N (48 + d)).

Definition pad2 (n : Z) : string :=
  String (digitChar (n / 10)) (String (digitChar (n mod 10)) EmptyString).

Definition pad4 (n : Z) : string :=
  String (digitChar (n / 1000)) (String (digitChar (n / 100 mod 10)) (pad2 (n mod 100))).

Definition isoDate (y m d : Z) : string :=
  pad4 y +:+ "-" +:+ pad2 m +:+ "-" +:+ pad2 d.

Definition time24 (h mi : Z) : string := pad2 h +:+ ":" +:+ pad2 mi.

(** The hour of the day named by a 12-hour clock reading: 12 AM is hour 0,
    PM adds 12 except at 12. *)
Definition hour24 (h12 : Z) (pm : bool) : Z :=
  if pm then (if h12 =? 12 then 12 else h12 + 12)
  else (if h12 =? 12 then 0 else h12).

(** [H:MM AM] or [H:MM PM]; with [padded] the hour is written with two
    digits ([09:05 AM]). *)
Definition time12 (padded : bool) (h12 mi : Z) (pm : bool) : string :=
  (if padded then pad2 h12 else JS.numToString (Some h12))
  +:+ ":" +:+ pad2 mi +:+ " " +:+ (if pm then "PM" else "AM").

(** ** The [Date] object

    Time values follow ECMA-262 (sections "Time Values and Time Range" to
    "Date Time String Format").  [parse] reads the interchange format
    [YYYY-MM-DDTHH:mm:ss.sssZ] and its shorter forms (without the six-digit
    years); what the engine does with any other string is left to a
    parameter, [legacy].  As in V8, the day field may be 01 to 31 in any month
    and overflows into the next month. *)

Module JSDate.
Import JS.

Definition msPerDay : Z := 86400000.
Definition msPerHour : Z := 3600000.
Definition msPerMinute : Z := 60000.
Definition msPerSecond : Z := 1000.

Definition Day (t : Z) : Z := t / msPerDay.

Definition DayFromYear (y : Z) : Z :=
  365 * (y - 1970) + (y - 1969) / 4 - (y - 1901) / 100 + (y - 1601) / 400.

Definition InLeapYear (y : Z) : bool :=
  (y mod 4 =? 0) && (negb (y mod 100 =? 0) || (y mod 400 =? 0)).

(** Days of the year before month [m] (0 is January). *)
Definition DayWithinYearOfMonth (leap : bool) (m : Z) : Z :=
  let l := if leap then 1 else 0 in
  match m with
  | 0 => 0 | 1 => 31 | 2 => 59 + l | 3 => 90 + l | 4 => 120 + l
  | 5 => 151 + l | 6 => 181 + l | 7 => 212 + l | 8 => 243 + l
  | 9 => 273 + l | 10 => 304 + l | _ => 334 + l
  end.

(** Number of the day [date] of month [month] (0 is January) of [year],
    counted from 1 January 1970; [date] may run past the month's end. *)
Definition MakeDay (year month date : Z) : Z :=
  let ym := year + month / 12 in
  let mn := month mod 12 in
  DayFromYear ym + DayWithinYearOfMonth (InLeapYear ym) mn + date - 1.

Definition MakeTime (hour min sec ms : Z) : Z :=
  hour * msPerHour + min * msPerMinute + sec * msPerSecond + ms.

Definition MakeDate (day time : Z) : Z := day * msPerDay + time.

Definition TimeClip (t : Z) : jsnum :=
  if Z.abs t <=? 8640000000000000 then Some t else None.

Definition WeekDay (t : Z) : Z := (Day t + 4) mod 7.
Definition HourFromTime (t : Z) : Z := (t / msPerHour) mod 24.
Definition MinFromTime (t : Z) : Z := (t / msPerMinute) mod 60.

Definition num2 (a b : ascii) : option Z :=
  x ← digitVal a; y ← digitVal b; Some (10 * x + y).

Definition num3 (a b c : ascii) : option Z :=
  x ← digitVal a; y ← num2 b c; Some (100 * x + y).

Definition num4 (a b c d : ascii) : option Z :=
  x ← num2 a b; y ← num2 c d; Some (100 * x + y).

(** The date part, [YYYY], [YYYY-MM] or [YYYY-MM-DD], and what follows it. *)
Definition parseDatePart (s : string) : option (Z * Z * Z * string) :=
  match s with
  | String y1 (String y2 (String y3 (String y4 r))) =>
      y ← num4 y1 y2 y3 y4;
      match r with
      | String "-" (String m1 (String m2 r1)) =>
          mo ← num2 m1 m2;
          match r1 with
          | String "-" (String d1 (String d2 r2)) =>
              d ← num2 d1 d2; Some (y, mo, d, r2)
          | _ => Some (y, mo, 1, r1)
          end
      | _ => Some (y, 1, 1, r)
      end
  | _ => None
  end.

(** Optional [:ss] and [.sss] after [HH:mm]. *)
Definition parseSeconds (s : string) : option (Z * Z * string) :=
  match s with
  | String ":" (String s1 (String s2 r)) =>
      sec ← num2 s1 s2;
      match r with
      | String "." (String f1 (String f2 (String f3 r1))) =>
          ms ← num3 f1 f2 f3; Some (sec, ms, r1)
      | _ => Some (sec, 0, r)
      end
  | _ => Some (0, 0, s)
  end.

(** The UTC offset closing a date-time: none, [Z] or [+HH:mm], [-HH:mm];
    in minutes east of UTC. *)
Definition parseOffset (s : string) : option (option Z) :=
  match s with
  | EmptyString => Some None
  | String "Z" EmptyString => Some (Some 0)
  | String sg (String h1 (String h2 (String ":" (String m1 (String m2 EmptyString))))) =>
      h ← num2 h1 h2;
      m ← num2 m1 m2;
      if (h <=? 23) && (m <=? 59) then
        if Ascii.eqb sg "+" then Some (Some (h * 60 + m))
        else if Ascii.eqb sg "-" then Some (Some (- (h * 60 + m)))
        else None
      else None
  | _ => None
  end.

Definition validDate (mo d : Z) : bool :=
  (1 <=? mo) && (mo <=? 12) && (1 <=? d) && (d <=? 31).

Definition validTime (h mi sec ms : Z) : bool :=
  ((h <=? 23) && (mi <=? 59) && (sec <=? 59))
  || ((h =? 24) && (mi =? 0) && (sec =? 0) && (ms =? 0)).

Definition kolkata : Z := 330.

Section Host.

(** Offset of the host's zone, minutes east of UTC. *)
Variable tz : Z.

Definition LocalTZA : Z := tz * msPerMinute.
Definition LocalTime (t : Z) : Z := t + LocalTZA.
Definition UTC (t : Z) : Z := t - LocalTZA.

(** The time value of a string in the interchange format: a date alone is
    UTC, a date-time without offset is local time.  [None] when the string is
    outside the format or a field is out of range. *)
Definition readISO (s : string) : option jsnum :=
  '(y, mo, d, r) ← parseDatePart s;
  if validDate mo d then
    match r with
    | EmptyString => Some (TimeClip (MakeDate (MakeDay y (mo - 1) d) 0))
    | String "T" (String h1 (String h2 (String ":" (String m1 (String m2 r1))))) =>
        h ← num2 h1 h2;
        mi ← num2 m1 m2;
        '(sec, ms, r2) ← parseSeconds r1;
        off ← parseOffset r2;
        if validTime h mi sec ms then
          let t := MakeDate (MakeDay y (mo - 1) d) (MakeTime h mi sec ms) in
          match off with
          | Some o => Some (TimeClip (t - o * msPerMinute))
          | None => Some (TimeClip (UTC t))
          end
        else None
    | _ => None
    end
  else None.

(** What the engine makes of a string that [readISO] does not read: "any
    implementation-specific heuristics" in the words of ECMA-262. *)
Variable legacy : string -> jsnum.

(** [new Date(s)] for a string [s]. *)
Definition parse (s : string) : jsnum :=
  match readISO s with
  | Some t => t
  | None => legacy s
  end.

Definition getDay (d : jsnum) : jsnum :=
  option_map (fun t => WeekDay (LocalTime t)) d.

Definition getHours (d : jsnum) : jsnum :=
  option_map (fun t => HourFromTime (LocalTime t)) d.

(** [new Date(d.toLocaleString("en-US", {timeZone}))] for a zone at [zone]
    minutes east of UTC: the text, [M/D/YYYY, h:mm:ss AM], carries the
    wall-clock reading of [d] in that zone to the second, and the constructor
    of Node reads this notation back as a wall-clock reading of the host. *)
Definition relocate (zone : Z) (d : jsnum) : jsnum :=
  t ← d;
  let wall := t + zone * msPerMinute in
  TimeClip (UTC (wall - wall mod msPerSecond)).

End Host.

(** [d.toLocaleTimeString('en-US', {hour: 'numeric', minute: '2-digit',
    hour12: true, timeZone})] for a zone at [zone] minutes east of UTC. *)
Definition toLocaleTimeString (zone : Z) (d : jsnum) : string :=
  match d with
  | None => "Invalid Date"
  | Some t =>
      let wall := t + zone * msPerMinute in
      let h := HourFromTime wall in
      let h12 := if h mod 12 =? 0 then 12 else h mod 12 in
      numToString (Some h12) +:+ ":" +:+ pad2 (MinFromTime wall)
      +:+ " " +:+ (if h <? 12 then "AM" else "PM")
  end.

(** [d.toISOString()] throws on an invalid date; the text it returns
    determines the time value and is represented by it. *)
Definition toISOString (d : jsnum) : completion Z :=
  match d with
  | Some t => Normal t
  | None => Throw (RangeError "Invalid time value")
  end.

(** *** The text of an instant

    Where the text itself is needed, [isoText] writes a time value the way
    [toISOString] does, [YYYY-MM-DDTHH:mm:ss.sssZ], with a sign and six
    digits for a year outside 0 to 9999. *)

(** The year of a time value, the [y] with
    [DayFromYear y <= Day t < DayFromYear (y + 1)]: the estimate from the
    mean length of a year is off by one at most. *)
Definition YearFromTime (t : Z) : Z :=
  let d := Day t in
  let y := 1970 + 400 * d / 146097 in
  if d <? DayFromYear y then y - 1
  else if DayFromYear (y + 1) <=? d then y + 1
  else y.

Definition DayWithinYear (t : Z) : Z := Day t - DayFromYear (YearFromTime t).

Definition MonthFromTime (t : Z) : Z :=
  let d := DayWithinYear t in
  let l := if InLeapYear (YearFromTime t) then 1 else 0 in
  if d <? 31 then 0
  else if d <? 59 + l then 1
  else if d <? 90 + l then 2
  else if d <? 120 + l then 3
  else if d <? 151 + l then 4
  else if d <? 181 + l then 5
  else if d <? 212 + l then 6
  else if d <? 243 + l then 7
  else if d <? 273 + l then 8
  else if d <? 304 + l then 9
  else if d <? 334 + l then 10
  else 11.

(** Day of the month, from 1: the day within the year less the days of the
    months before. *)
Definition DateFromTime (t : Z) : Z :=
  DayWithinYear t - DayWithinYearOfMonth (InLeapYear (YearFromTime t)) (MonthFromTime t) + 1.

Definition SecFromTime (t : Z) : Z := (t / msPerSecond) mod 60.
Definition msFromTime (t : Z) : Z := t mod msPerSecond.

Definition pad3 (n : Z) : string := String (digitChar (n / 100)) (pad2 (n mod 100)).

Definition isoText (t : Z) : string :=
  let y := YearFromTime t in
  (if (0 <=? y) && (y <=? 9999) then pad4 y
   else (if y <? 0 then "-" else "+") +:+ pad2 (Z.abs y / 10000) +:+ pad4 (Z.abs y mod 10000))
  +:+ "-" +:+ pad2 (MonthFromTime t + 1) +:+ "-" +:+ pad2 (DateFromTime t)
  +:+ "T" +:+ pad2 (HourFromTime t) +:+ ":" +:+ pad2 (MinFromTime t)
  +:+ ":" +:+ pad2 (SecFromTime t) +:+ "." +:+ pad3 (msFromTime t) +:+ "Z".

End JSDate.

(** The instant at which the host's clocks read [y-m-d h:mi]. *)
Definition instant (tz y m d h mi : Z) : Z :=
  JSDate.UTC tz (JSDate.MakeDate (JSDate.MakeDay y (m - 1) d) (JSDate.MakeTime h mi 0 0)).

(** Day of the week of the civil date [y-m-d], 0 for Sunday. *)
Definition dayOfWeekOf (y m d : Z) : Z := (JSDate.MakeDay y (m - 1) d + 4) mod 7.

Definition daysInMonth (y m : Z) : Z :=
  match m with
  | 2 => if JSDate.InLeapYear y then 29 else 28
  | 4 | 6 | 9 | 11 => 30
  | _ => 31
  end.

(** [y-m-d] is a date of the calendar, from 1970 on and with a four-digit
    year (the zones are taken with their present offsets). *)
Definition civil (y m d : Z) : Prop :=
  1970 <= y <= 9999 /\ 1 <= m <= 12 /\ 1 <= d <= daysInMonth y m.

(** The day after [y-m-d]. *)
Definition nextDay (y m d : Z) : Z * Z * Z :=
  if d <? daysInMonth y m then (y, m, d + 1)
  else if m <? 12 then (y, m + 1, 1)
  else (y + 1, 1, 1).

(** Offsets of real zones are well within a day. *)
Definition zone (tz : Z) : Prop := -1440 < tz < 1440.

(** The weekday check of the slot listing reads the calendar of Noida at the
    host's midnight.  That is the date asked for as long as the host's clocks
    are not ahead of Noida's (UTC and Asia/Kolkata itself qualify). *)
Definition notAheadOfNoida (tz : Z) : Prop := -1110 < tz <= JSDate.kolkata.

(** ** The booked-slot store *)

Module Store.
Import JS.

(** A document of the [bookedSlots] collection. *)
Record BookedSlot : Type := {
  date : string;
  time : string;
  createdAt : Z;
  updatedAt : Z
}.

Definition key (doc : BookedSlot) : string * string := (date doc, time doc).

(** The filter [{date: d, time: t}]. *)
Definition matches (d t : string) (doc : BookedSlot) : bool :=
  String.eqb (date doc) d && String.eqb (time doc) t.

(** The collection: its documents in insertion order, and whether the unique
    index on [{date: 1, time: 1}] is in place. *)
Record Collection : Type := {
  docs : list BookedSlot;
  uniqueDateTime : bool
}.

(** [insertOne(doc)]: refused with a duplicate-key error when the unique
    index is in place and a document of the same date and time exists.  (A
    failure of the connection is not modelled.) *)
Definition insertOne (c : Collection) (doc : BookedSlot) : completion Collection :=
  if uniqueDateTime c && existsb (matches (date doc) (time doc)) (docs c)
  then Throw DuplicateKey
  else Normal {| docs := (docs c ++ [doc])%list; uniqueDateTime := uniqueDateTime c |}.

Fixpoint removeFirst (p : BookedSlot -> bool) (l : list BookedSlot) : list BookedSlot :=
  match l with
  | [] => []
  | x :: l' => if p x then l' else x :: removeFirst p l'
  end.

(** [deleteOne({date: d, time: t})]: the first match goes, if there is one. *)
Definition deleteOne (c : Collection) (d t : string) : Collection :=
  {| docs := removeFirst (matches d t) (docs c); uniqueDateTime := uniqueDateTime c |}.

Definition findOne (c : Collection) (d t : string) : option BookedSlot :=
  List.find (matches d t) (docs c).

Fixpoint distinctKeys (l : list BookedSlot) : bool :=
  match l with
  | [] => true
  | x :: l' => negb (existsb (matches (date x) (time x)) l') && distinctKeys l'
  end.

(** [createIndex({date: 1, time: 1}, {unique: true})]: the server refuses to
    build the index over documents that already collide. *)
Definition createIndex (c : Collection) : completion Collection :=
  if distinctKeys (docs c)
  then Normal {| docs := docs c; uniqueDateTime := true |}
  else Throw DuplicateKey.

(** Lines the store functions write to the console. *)
Inductive LogLine : Type :=
| Connected
| IndexesCreated
| ConnectionError (e : error)
| FallingBack
| AddedToMongoDB (d t : string)
| AddedToMemory (d t : string)
| ErrorAdding (e : error)
| RemovedFromMongoDB (d t : string)
| RemovedFromMemory (d t : string).

(** The module-level variable [bookedSlotsCollection], the fallback
    [global.bookedSlots] (a [Map] from dates to [Set]s of times) and the
    console. *)
Record World : Type := {
  bookedSlotsCollection : option Collection;
  bookedSlots : option (gmap string (gset string));
  console : list LogLine
}.

Definition start : World :=
  {| bookedSlotsCollection := None; bookedSlots := None; console := [] |}.

Definition setCollection (c : Collection) (w : World) : World :=
  {| bookedSlotsCollection := Some c; bookedSlots := bookedSlots w; console := console w |}.

Definition setBookedSlots (m : gmap string (gset string)) (w : World) : World :=
  {| bookedSlotsCollection := bookedSlotsCollection w; bookedSlots := Some m;
     console := console w |}.

Definition log (l : LogLine) (w : World) : World :=
  {| bookedSlotsCollection := bookedSlotsCollection w; bookedSlots := bookedSlots w;
     console := (console w ++ [l])%list |}.

(** The MongoDB deployment named by [MONGO_URI]: whether it accepts the
    connection, and the [bookedSlots] collection it holds. *)
Record Server : Type := {
  accepts : bool;
  stored : Collection
}.

(** Start-up.  [bookedSlotsCollection] is assigned before the index is
    created, so when [createIndex] throws the [catch] announces the fallback
    while the collection, without its index, stays in use. *)
Definition connectToMongoDB (srv : Server) (w : World) : World :=
  if accepts srv then
    let w1 := log Connected (setCollection (stored srv) w) in
    match createIndex (stored srv) with
    | Normal c => log IndexesCreated (setCollection c w1)
    | Throw e => log FallingBack (log (ConnectionError e) w1)
    end
  else log FallingBack (log (ConnectionError (Failure "connect")) w).

(** [if (!global.bookedSlots) global.bookedSlots = new Map()]. *)
Definition ensureMap (w : World) : gmap string (gset string) :=
  match bookedSlots w with
  | Some m => m
  | None => ∅
  end.

(** The four store functions wrap their bodies in [try]/[catch] and log what
    they caught: they always return normally.  [now] is the clock read for
    [createdAt] and [updatedAt]. *)
Definition addBookedSlot (now : Z) (date time : string) (w : World)
  : completion unit * World :=
  match bookedSlotsCollection w with
  | Some c =>
      match insertOne c {| date := date; time := time; createdAt := now; updatedAt := now |} with
      | Normal c' => (Normal tt, log (AddedToMongoDB date time) (setCollection c' w))
      | Throw e => (Normal tt, log (ErrorAdding e) w)
      end
  | None =>
      let m := ensureMap w in
      let m1 := match m !! date with
                | Some _ => m
                | None => <[date := ∅]> m
                end in
      let m2 := alter (fun s => {[time]} ∪ s) date m1 in
      (Normal tt, log (AddedToMemory date time) (setBookedSlots m2 w))
  end.

Definition removeBookedSlot (date time : string) (w : World)
  : completion unit * World :=
  match bookedSlotsCollection w with
  | Some c =>
      (Normal tt, log (RemovedFromMongoDB date time) (setCollection (deleteOne c date time) w))
  | None =>
      match bookedSlots w with
      | Some m =>
          match m !! date with
          | Some _ =>
              (Normal tt, log (RemovedFromMemory date time)
                              (setBookedSlots (alter (fun s => s ∖ {[time]}) date m) w))
          | None => (Normal tt, w)
          end
      | None => (Normal tt, w)
      end
  end.

Definition isSlotBooked (date time : string) (w : World) : bool * World :=
  match bookedSlotsCollection w with
  | Some c =>
      (match findOne c date time with Some _ => true | None => false end, w)
  | None =>
      let m := ensureMap w in
      (match m !! date with
       | Some s => bool_decide (time ∈ s)
       | None => false
       end, setBookedSlots m w)
  end.

(** What [isSlotBooked] answers in a world. *)
Definition booked (w : World) (date time : string) : bool :=
  fst (isSlotBooked date time w).

(** Number of records the store holds for a slot. *)
Definition records (w : World) (d t : string) : nat :=
  match bookedSlotsCollection w with
  | Some c => length (filter (fun doc => matches d t doc = true) (docs c))
  | None =>
      match ensureMap w !! d with
      | Some s => if bool_decide (t ∈ s) then 1%nat else 0%nat
      | None => 0%nat
      end
  end.

(** One operation of the store. *)
Inductive op : Type :=
| Reserve (now : Z) (date time : string)
| Release (date time : string)
| Query (date time : string).

Definition run (o : op) (w : World) : World :=
  match o with
  | Reserve now d t => snd (addBookedSlot now d t w)
  | Release d t => snd (removeBookedSlot d t w)
  | Query d t => snd (isSlotBooked d t w)
  end.

Definition runAll (os : list op) (w : World) : World :=
  fold_left (fun w o => run o w) os w.

(** A reserve that the store accepted: its last console line reports the
    record as added. *)
Definition accepted (w' : World) (d t : string) : Prop :=
  last (console w') = Some (AddedToMongoDB d t)
  \/ last (console w') = Some (AddedToMemory d t).

(** Two calls of [addBookedSlot] in flight at once.  A call has a single
    suspension point, the [await] of [insertOne], which the server executes
    atomically; the fallback branch has none.  The runs of two concurrent
    calls are therefore the two orders in which the store serves them. *)
Definition concurrently (now1 now2 : Z) (d1 t1 d2 t2 : string) (w : World)
  : list (completion unit * completion unit * World) :=
  [ (let '(r1, w1) := addBookedSlot now1 d1 t1 w in
     let '(r2, w2) := addBookedSlot now2 d2 t2 w1 in (r1, r2, w2));
    (let '(r2, w1) := addBookedSlot now2 d2 t2 w in
     let '(r1, w2) := addBookedSlot now1 d1 t1 w1 in (r1, r2, w2)) ].

(** [isSlotBooked] leaves at most an empty [Map] behind. *)
Definition settle (w : World) : World :=
  match bookedSlotsCollection w with
  | Some _ => w
  | None => setBookedSlots (ensureMap w) w
  end.

(** Where the collection is in use, it carries the unique index and its
    documents do not collide. *)
Definition sound (w : World) : Prop :=
  match bookedSlotsCollection w with
  | Some c => uniqueDateTime c = true /\ distinctKeys (docs c) = true
  | None => True
  end.

End Store.

(** ** The HTTP handlers *)

Module Api.
Import JS.
Export Store.

(** A response: [res.status(n).json(body)]; [res.json(body)] has status 200. *)
Record Reply (B : Type) : Type := { status : Z; body : B }.
Arguments status {B} r.
Arguments body {B} r.

Definition noidaTimezone : string := "Asia/Kolkata".

Definition dayNames : list string :=
  ["Sunday"; "Monday"; "Tuesday"; "Wednesday"; "Thursday"; "Friday"; "Saturday"].

(** [dayNames[dayOfWeek]], [undefined] off the array. *)
Definition dayName (dayOfWeek : jsnum) : option string :=
  i ← dayOfWeek; if 0 <=? i then nth_error dayNames (Z.to_nat i) else None.

Definition weekdaysOnly : string :=
  "Meetings can only be scheduled on weekdays (Monday-Friday)".
Definition businessHoursOnly : string :=
  "Meetings can only be scheduled between 9:00 AM and 6:00 PM (Noida time)".
Definition inThePast : string := "Cannot schedule meetings in the past".
Definition alreadyBooked : string := "This time slot is already booked".
Definition slotAvailable : string := "Time slot is available".

(** *** GET /api/check-availability *)

Inductive CheckBody : Type :=
| CheckMissing (required : list string)
| Checked (available : bool) (message date time timezone businessHours : string)
    (dayOfWeek : option string) (hour : jsnum)
    (isWeekday isBusinessHours isFuture : bool).

Definition checkAvailability
  (tz : Z) (legacy : string -> jsnum) (now : Z) (date time : option string) (w : World)
  : Reply CheckBody * World :=
  match date, time with
  | Some date, Some time =>
      if negb (truthy (Some date)) || negb (truthy (Some time))
      then ({| status := 400; body := CheckMissing ["date"; "time"] |}, w)
      else
        let time24h := convertTo24Hour time in
        let selectedDateTime := JSDate.parse tz legacy (date +:+ "T" +:+ time24h +:+ ":00") in
        let dateOnly := JSDate.parse tz legacy (date +:+ "T00:00:00") in
        let dayOfWeek := JSDate.getDay tz dateOnly in
        let hour := JSDate.getHours tz selectedDateTime in
        let isWeekday := ge dayOfWeek (Some 1) && le dayOfWeek (Some 5) in
        let isBusinessHours := ge hour (Some 9) && lt hour (Some 18) in
        let isFuture := gt selectedDateTime (Some now) in
        let '(isBooked, w1) := isSlotBooked date time24h w in
        let available := isWeekday && isBusinessHours && isFuture && negb isBooked in
        let message :=
          if negb isWeekday then weekdaysOnly
          else if negb isBusinessHours then businessHoursOnly
          else if negb isFuture then inThePast
          else if isBooked then alreadyBooked
          else slotAvailable in
        ({| status := 200;
            body := Checked available message date time noidaTimezone
                      "9:00 AM - 6:00 PM (Monday-Friday)" (dayName dayOfWeek) hour
                      isWeekday isBusinessHours isFuture |}, w1)
  | _, _ => ({| status := 400; body := CheckMissing ["date"; "time"] |}, w)
  end.

(** *** GET /api/available-slots *)

Record TimeSlot : Type := {
  time : string;
  displayTime : string;
  available : bool;
  reason : string
}.

Inductive SlotsBody : Type :=
| SlotsMissing (required : list string)
| Closed (date timezone : string) (dayOfWeek : option string) (available : bool)
    (message : string) (slots : list TimeSlot)
| Listing (date timezone : string) (dayOfWeek : option string) (businessHours : string)
    (totalSlots availableSlots : Z) (slots : list TimeSlot).

(** Values of the loop variable of [for (i = lo; i < hi; i += step)]. *)
Definition countUp (lo hi step : Z) : list Z :=
  (fun k => lo + step * k) <$> seqZ 0 ((hi - lo + step - 1) / step).

(** A loop body run for each value in turn, the world threaded through. *)
Fixpoint forEach {A B : Type} (f : A -> World -> B * World) (l : list A) (w : World)
  : list B * World :=
  match l with
  | [] => ([], w)
  | a :: l' =>
      let '(b, w1) := f a w in
      let '(bs, w2) := forEach f l' w1 in
      (b :: bs, w2)
  end.

(** The body of the two nested loops, for one [hour] and [minute]. *)
Definition slotAt
  (tz : Z) (legacy : string -> jsnum) (now : Z) (date : string) (hm : Z * Z) (w : World)
  : TimeSlot * World :=
  let '(hour, minute) := hm in
  let slotTime := padStart (numToString (Some hour)) 2 "0" +:+ ":"
                  +:+ padStart (numToString (Some minute)) 2 "0" in
  let slotDateTime := JSDate.parse tz legacy (date +:+ "T" +:+ slotTime +:+ ":00") in
  let isPast := le slotDateTime (Some now) in
  let '(isBooked, w1) := isSlotBooked date slotTime w in
  let isAvailable := negb isPast && negb isBooked in
  let displayTime := JSDate.toLocaleTimeString JSDate.kolkata slotDateTime in
  let reason := if isPast then "Past time slot"
                else if isBooked then "Already booked"
                else "Available" in
  ({| time := slotTime; displayTime := displayTime;
      available := isAvailable; reason := reason |}, w1).

Definition availableSlots
  (tz : Z) (legacy : string -> jsnum) (now : Z) (date : option string) (w : World)
  : Reply SlotsBody * World :=
  match date with
  | Some date =>
      if negb (truthy (Some date))
      then ({| status := 400; body := SlotsMissing ["date"] |}, w)
      else
        let selectedDate := JSDate.parse tz legacy (date +:+ "T00:00:00") in
        let noidaDate := JSDate.relocate tz JSDate.kolkata selectedDate in
        let dayOfWeek := JSDate.getDay tz noidaDate in
        if strictEq dayOfWeek 0 || strictEq dayOfWeek 6
        then ({| status := 200;
                 body := Closed date noidaTimezone (dayName dayOfWeek) false
                           weekdaysOnly [] |}, w)
        else
          let '(timeSlots, w1) :=
            forEach (slotAt tz legacy now date)
              (hour ← countUp 9 18 1; minute ← countUp 0 60 30; [(hour, minute)]) w in
          ({| status := 200;
              body := Listing date noidaTimezone (dayName dayOfWeek)
                        "9:00 AM - 6:00 PM (Monday-Friday)"
                        (Z.of_nat (length timeSlots))
                        (Z.of_nat (length (filter (fun s => available s = true) timeSlots)))
                        timeSlots |}, w1)
  | None => ({| status := 400; body := SlotsMissing ["date"] |}, w)
  end.

Definition slotsOf (b : SlotsBody) : option (list TimeSlot) :=
  match b with
  | SlotsMissing _ => None
  | Closed _ _ _ _ _ s => Some s
  | Listing _ _ _ _ _ _ s => Some s
  end.

(** The top-level [available] field, present in the weekend answer only. *)
Definition availableOf (b : SlotsBody) : option bool :=
  match b with
  | Closed _ _ _ a _ _ => Some a
  | _ => None
  end.

(** *** POST /api/schedule-discovery-call *)

Record UserDetails : Type := {
  firstName : string;
  lastName : string;
  email : string;
  companyName : option string;
  revenue : option string
}.

(** The request body. *)
Record Booking : Type := {
  selectedDate : option string;
  selectedTime : option string;
  userDetails : option UserDetails;
  guestEmails : option (list string);
  organizerEmail : option string
}.

(** What the meeting provider returns. *)
Record Meeting : Type := {
  id : string;
  joinUrl : option string;
  onlineMeetingJoinUrl : option string;   (* [onlineMeeting?.joinUrl] *)
  onlineMeetingUrl : option string;
  startDateTime : string;
  endDateTime : string
}.

Inductive MailData : Type :=
| Mail (subject date time timezone duration : string) (meetingLink : option string).

Inductive NoticeData : Type :=
| Notice (subject date time timezone duration : string) (meetingLink : option string)
    (userDetails : UserDetails) (guestEmails : list string)
    (organizerEmail : option string).

(** The five requests by which [createTeamsMeeting] tries to create the
    meeting, in the order it tries them. *)
Inductive Approach : Type :=
| UserOnlineMeetings        (* POST /v1.0/users/{userId}/onlineMeetings *)
| PrincipalOnlineMeetings   (* POST /v1.0/users/{organizerEmail}/onlineMeetings *)
| BetaOnlineMeetings        (* POST /beta/users/{userId}/onlineMeetings *)
| CalendarEvent             (* POST /v1.0/users/{userId}/events *)
| CommunicationsCall.       (* POST /v1.0/communications/calls *)

(** The process environment and what the outside answers.  A request made
    with [axios] either returns the part of the response the code reads or
    throws.  [requestToken] is the request to the token endpoint, read at
    [data.access_token]; [getUser] the look-up of the organizer, given the
    token and the organizer's address, read at [data.id]; [postMeeting] one of
    the five requests, given the token, the user the path names, the subject,
    start, end and attendees, read at [data].  [random] is
    [Math.random().toString(36).substring(2, 15)]. *)
Record Env : Type := {
  tz : Z;
  legacyParse : string -> jsnum;
  ORGANIZER_EMAIL : option string;
  ADMIN_EMAIL : option string;
  TENANT_ID : option string;
  CLIENT_ID : option string;
  CLIENT_SECRET : option string;
  requestToken : completion string;
  getUser : string -> string -> completion string;
  postMeeting : Approach -> string -> string -> string -> Z -> Z -> list string
                -> completion Meeting;
  random : string;
  sendEmailNotification : MailData -> UserDetails -> completion bool;
  sendOrganizerNotification : NoticeData -> string -> completion bool;
  sendAdminNotification : NoticeData -> string -> completion bool
}.

(** [getAccessToken]: without the three credentials, or when the request
    throws, the token is ['mock-token']. *)
Definition getAccessToken (env : Env) : string :=
  if negb (truthy (TENANT_ID env)) || negb (truthy (CLIENT_ID env))
     || negb (truthy (CLIENT_SECRET env))
  then "mock-token"
  else match requestToken env with
       | Normal access_token => access_token
       | Throw _ => "mock-token"
       end.

(** The double quote. *)
Definition quote : string := String "034" EmptyString.

(** The meeting returned in mock mode.  Its [subject] is not read by the
    handler and has no field in [Meeting]. *)
Definition mockMeeting (env : Env) (startTime endTime : Z) (organizerEmail : string)
  : Meeting :=
  let meetingId := random env in
  {| id := meetingId;
     joinUrl := Some ("https://teams.microsoft.com/l/meetup-join/19:meeting_" +:+ meetingId
                      +:+ "@thread.v2/0?context={" +:+ quote +:+ "Tid" +:+ quote +:+ ":"
                      +:+ quote +:+ "mock-tenant" +:+ quote +:+ "," +:+ quote +:+ "Oid"
                      +:+ quote +:+ ":" +:+ quote +:+ organizerEmail +:+ quote +:+ "}");
     onlineMeetingJoinUrl := None; onlineMeetingUrl := None;
     startDateTime := JSDate.isoText startTime;
     endDateTime := JSDate.isoText endTime |}.

(** [createTeamsMeeting].  In mock mode it returns the mock meeting at once.
    Otherwise it looks the organizer up and tries the five requests in turn,
    each in the [catch] of the one before; the [catch] around them rethrows
    what they threw as [Failed to create meeting. ...], and the outermost
    [catch] answers any error with the mock meeting.  (The look-up of the
    user's licenses, whose outcome is only logged, is left out.) *)
Definition createTeamsMeeting
  (env : Env) (subject : string) (startTime endTime : Z) (attendees : list string)
  (organizerEmail : string) : completion Meeting :=
  let token := getAccessToken env in
  if String.eqb token "mock-token"
  then Normal (mockMeeting env startTime endTime organizerEmail)
  else
    let post approach user :=
      postMeeting env approach token user subject startTime endTime attendees in
    let created :=
      match getUser env token organizerEmail with
      | Throw userError => Throw userError
      | Normal userId =>
          match post UserOnlineMeetings userId with
          | Normal meeting => Normal meeting
          | Throw _ =>
          match post PrincipalOnlineMeetings organizerEmail with
          | Normal meeting => Normal meeting
          | Throw _ =>
          match post BetaOnlineMeetings userId with
          | Normal meeting => Normal meeting
          | Throw _ =>
          match post CalendarEvent userId with
          | Normal meeting => Normal meeting
          | Throw _ =>
          match post CommunicationsCall userId with
          | Normal meeting => Normal meeting
          | Throw error5 => Throw error5
          end end end end end
      end in
    let guarded :=
      match created with
      | Normal meeting => Normal meeting
      | Throw userError =>
          Throw (Failure ("Failed to create meeting. " +:+ message userError))
      end in
    match guarded with
    | Normal meeting => Normal meeting
    | Throw _ => Normal (mockMeeting env startTime endTime organizerEmail)
    end.

Inductive EmailResult : Type :=
| Result (recipient : string) (success : bool) (error : option string)
    (type : option string).

Definition succeeded (r : EmailResult) : bool :=
  match r with Result _ s _ _ => s end.

Inductive BookingBody : Type :=
| MissingFields (required : list string)
| NotAWeekday (error selectedDate : string) (dayOfWeek : option string)
| OutsideBusinessHours (error selectedTime : string) (hour : jsnum) (businessHours : string)
| MeetingCreationFailed (error details : string)
| Scheduled (message : string) (meeting : Meeting) (emailSent : bool)
    (emailResults : list EmailResult)
| ServerError (error : string).

(** Calls that leave the handler. *)
Inductive Effect : Type :=
| CreateTeamsMeeting (subject : string) (startTime endTime : Z)
    (attendees : list string) (organizerEmail : string)
| AddBookedSlot (date time : string)
| SendMail (recipient : string).

Record Outcome : Type := {
  reply : Reply BookingBody;
  world : World;
  effects : list Effect
}.

(** [a || b] on optional strings. *)
Definition orElse (a b : option string) : option string :=
  if truthy a then a else b.

(** [[...new Set(l)]]: first occurrences, in order. *)
Fixpoint distinct (seen l : list string) : list string :=
  match l with
  | [] => []
  | x :: l' =>
      if existsb (String.eqb x) seen then distinct seen l'
      else x :: distinct (x :: seen) l'
  end.

(** One mail with its [try]/[catch]: the entry pushed on [emailResults]. *)
Definition mailed (recipient : string) (type : option string) (r : completion bool)
  : EmailResult :=
  match r with
  | Normal ok => Result recipient ok None type
  | Throw e => Result recipient false (Some (message e)) type
  end.

Definition scheduleDiscoveryCall (env : Env) (now : Z) (req : Booking) (w : World)
  : Outcome :=
  let guestEmails := match guestEmails req with Some g => g | None => [] end in
  let organizerEmail :=
    match organizerEmail req with
    | Some e => Some e
    | None => orElse (ORGANIZER_EMAIL env) (Some "Swati.Nawani@thrivebrands.ai")
    end in
  match selectedDate req, selectedTime req, userDetails req with
  | Some selectedDate, Some selectedTime, Some userDetails =>
      if negb (truthy (Some selectedDate)) || negb (truthy (Some selectedTime))
         || negb (truthy organizerEmail)
      then {| reply := {| status := 400;
                          body := MissingFields ["selectedDate"; "selectedTime";
                                                 "userDetails"; "organizerEmail"] |};
              world := w; effects := [] |}
      else
        let time24h := convertTo24Hour selectedTime in
        let selectedDateTime :=
          JSDate.parse (tz env) (legacyParse env) (selectedDate +:+ "T" +:+ time24h +:+ ":00") in
        let dateOnly := JSDate.parse (tz env) (legacyParse env) (selectedDate +:+ "T00:00:00") in
        let dayOfWeek := JSDate.getDay (tz env) dateOnly in
        let hour := JSDate.getHours (tz env) selectedDateTime in
        if strictEq dayOfWeek 0 || strictEq dayOfWeek 6
        then {| reply := {| status := 400;
                            body := NotAWeekday weekdaysOnly selectedDate (dayName dayOfWeek) |};
                world := w; effects := [] |}
        else if lt hour (Some 9) || ge hour (Some 18)
        then {| reply := {| status := 400;
                            body := OutsideBusinessHours businessHoursOnly selectedTime hour
                                      "9:00 AM - 6:00 PM (Asia/Kolkata timezone)" |};
                world := w; effects := [] |}
        else
          let noidaDateTime :=
            JSDate.parse (tz env) (legacyParse env)
              (selectedDate +:+ "T" +:+ time24h +:+ ":00+05:30") in
          match JSDate.toISOString noidaDateTime with
          | Throw e => {| reply := {| status := 500; body := ServerError (message e) |};
                          world := w; effects := [] |}
          | Normal startTime =>
          let endDateTime := JSDate.TimeClip (startTime + 30 * 60000) in
          match JSDate.toISOString endDateTime with
          | Throw e => {| reply := {| status := 500; body := ServerError (message e) |};
                          world := w; effects := [] |}
          | Normal endTime =>
          let selectedOrganizerEmail :=
            interpolate (orElse (ORGANIZER_EMAIL env) (Some "admin@thrivebrands.ai")) in
          let subject := "Discovery Call - Thrive" in
          let attendees := email userDetails :: guestEmails in
          let called :=
            CreateTeamsMeeting subject startTime endTime attendees selectedOrganizerEmail in
          match createTeamsMeeting env subject startTime endTime attendees
                  selectedOrganizerEmail with
          | Throw e =>
              {| reply := {| status := 500;
                             body := MeetingCreationFailed "Failed to create Teams meeting"
                                       (message e) |};
                 world := w; effects := [called] |}
          | Normal meeting =>
              let '(_, w1) := addBookedSlot now selectedDate time24h w in
              let emailDate := selectedDate in
              let emailTime := formatTimeForEmail time24h in
              let zone := "Asia/Kolkata (GMT+5:30)" in
              let link := orElse (orElse (joinUrl meeting) (onlineMeetingJoinUrl meeting))
                            (onlineMeetingUrl meeting) in
              let emailData := Mail subject emailDate emailTime zone "30 minutes" link in
              let toUser :=
                mailed (email userDetails) None (sendEmailNotification env emailData userDetails) in
              let allAttendees := distinct [] (attendees ++ [email userDetails])%list in
              let others :=
                filter (fun a => String.eqb a (email userDetails) = false) allAttendees in
              let toAttendee (attendeeEmail : string) :=
                let name := split (hd EmptyString (split attendeeEmail "@")) "." in
                let attendeeDetails :=
                  {| firstName := hd EmptyString name;
                     lastName := interpolate (orElse (nth_error name 1) (Some EmptyString));
                     email := attendeeEmail; companyName := None; revenue := None |} in
                mailed attendeeEmail None (sendEmailNotification env emailData attendeeDetails) in
              let notice := "New Discovery Call Booked" in
              let toOrganizer :=
                mailed selectedOrganizerEmail (Some "organizer_notification")
                  (sendOrganizerNotification env
                     (Notice notice emailDate emailTime zone "30 minutes" link userDetails
                        guestEmails None)
                     selectedOrganizerEmail) in
              let adminEmail :=
                interpolate (orElse (ADMIN_EMAIL env) (Some "admin@thrivebrands.ai")) in
              let toAdmin :=
                if String.eqb adminEmail selectedOrganizerEmail then []
                else [mailed adminEmail (Some "admin_notification")
                        (sendAdminNotification env
                           (Notice notice emailDate emailTime zone "30 minutes" link
                              userDetails guestEmails (Some selectedOrganizerEmail))
                           adminEmail)] in
              let emailResults :=
                ([toUser] ++ map toAttendee others ++ [toOrganizer] ++ toAdmin)%list in
              {| reply := {| status := 200;
                             body := Scheduled "Discovery call scheduled successfully" meeting
                                       (existsb succeeded emailResults) emailResults |};
                 world := w1;
                 effects := ([called; AddBookedSlot selectedDate time24h]
                             ++ map (fun r => match r with Result rcpt _ _ _ => SendMail rcpt end)
                                  emailResults)%list |}
          end
          end
          end
  | _, _, _ =>
      {| reply := {| status := 400;
                     body := MissingFields ["selectedDate"; "selectedTime";
                                            "userDetails"; "organizerEmail"] |};
         world := w; effects := [] |}
  end.

(** *** The conditions of an availability query, as propositions *)

(** The date is a Monday to Friday. *)
Definition onWeekday (tz : Z) (legacy : string -> jsnum) (date : string) : Prop :=
  exists dow, JSDate.getDay tz (JSDate.parse tz legacy (date +:+ "T00:00:00")) = Some dow
              /\ 1 <= dow <= 5.

(** The hour of the date-time is one of 9 to 17. *)
Definition inBusinessHours (tz : Z) (legacy : string -> jsnum) (date time24h : string) : Prop :=
  exists hour,
    JSDate.getHours tz (JSDate.parse tz legacy (date +:+ "T" +:+ time24h +:+ ":00")) = Some hour
    /\ 9 <= hour < 18.

(** The date-time is an instant after [now]. *)
Definition inFuture (tz : Z) (legacy : string -> jsnum) (now : Z) (date time24h : string) : Prop :=
  exists t, JSDate.parse tz legacy (date +:+ "T" +:+ time24h +:+ ":00") = Some t /\ now < t.

(** *** The slots of a day, as the listing should give them *)

(** The half hours from 09:00 up to, and without, 18:00. *)
Definition halfHours : list (Z * Z) :=
  (fun k => let minutes := 9 * 60 + 30 * k in (minutes / 60, minutes mod 60))
    <$> seqZ 0 ((18 - 9) * 2).

(** The slot of [y-m-d] starting at [h:mi]: past when it starts at or before
    [now], taken when the store has it booked. *)
Definition slotFor (tz now y m d : Z) (w : World) (hm : Z * Z) : TimeSlot :=
  let '(h, mi) := hm in
  let past := instant tz y m d h mi <=? now in
  let taken := booked w (isoDate y m d) (time24 h mi) in
  {| time := time24 h mi;
     displayTime := JSDate.toLocaleTimeString JSDate.kolkata (Some (instant tz y m d h mi));
     available := negb past && negb taken;
     reason := if past then "Past time slot"
               else if taken then "Already booked" else "Available" |}.

End Api.

(** ** Checks run over every time of the day *)

Definition fixed24 (h mi : Z) : bool :=
  String.eqb (convertTo24Hour (time24 h mi)) (time24 h mi).

Definition fixed12 (padded pm : bool) (h12 mi : Z) : bool :=
  String.eqb (convertTo24Hour (time12 padded h12 mi pm)) (time24 (hour24 h12 pm) mi).

Definition mailRoundTrip (h mi : Z) : bool :=
  String.eqb (convertTo24Hour (formatTimeForEmail (time24 h mi))) (time24 h mi).

(** ** Sample worlds and requests *)

Module Samples.
Import JS Api.

(** An engine that reads the standard format and nothing else. *)
Definition strict : string -> jsnum := fun _ => None.

(** A reachable MongoDB with an empty collection and no index yet. *)
Definition emptyServer : Server :=
  {| accepts := true; stored := {| docs := []; uniqueDateTime := false |} |}.

(** The server after start-up against [emptyServer]. *)
Definition connected : World := connectToMongoDB emptyServer start.

(** The same with Tuesday 2025-09-09, 10:00 booked. *)
Definition reserved : World := snd (addBookedSlot 0 "2025-09-09" "10:00" connected).

Definition teamsMeeting : Meeting :=
  {| id := "meeting-1";
     joinUrl := Some "https://teams.microsoft.com/l/meetup-join/meeting-1";
     onlineMeetingJoinUrl := None; onlineMeetingUrl := None;
     startDateTime := "2025-09-09T04:30:00.000Z";
     endDateTime := "2025-09-09T05:00:00.000Z" |}.

(** A host in Noida whose meeting provider and mailers work. *)
Definition working : Env :=
  {| tz := 330; legacyParse := strict; ORGANIZER_EMAIL := None; ADMIN_EMAIL := None;
     TENANT_ID := Some "tenant"; CLIENT_ID := Some "client"; CLIENT_SECRET := Some "secret";
     requestToken := Normal "token";
     getUser := fun _ _ => Normal "user-1";
     postMeeting := fun _ _ _ _ _ _ _ => Normal teamsMeeting;
     random := "k3v9x1q7z2m";
     sendEmailNotification := fun _ _ => Normal true;
     sendOrganizerNotification := fun _ _ => Normal true;
     sendAdminNotification := fun _ _ => Normal true |}.

(** The same host when the Graph API refuses every request. *)
Definition refused : Env :=
  {| tz := 330; legacyParse := strict; ORGANIZER_EMAIL := None; ADMIN_EMAIL := None;
     TENANT_ID := Some "tenant"; CLIENT_ID := Some "client"; CLIENT_SECRET := Some "secret";
     requestToken := Normal "token";
     getUser := fun _ _ => Throw (Failure "Request failed with status code 403");
     postMeeting := fun _ _ _ _ _ _ _ => Throw (Failure "Request failed with status code 403");
     random := "k3v9x1q7z2m";
     sendEmailNotification := fun _ _ => Normal true;
     sendOrganizerNotification := fun _ _ => Normal true;
     sendAdminNotification := fun _ _ => Normal true |}.

Definition caller : UserDetails :=
  {| firstName := "John"; lastName := "Doe"; email := "john.doe@example.com";
     companyName := Some "Test Company"; revenue := Some "500,000 - 1M" |}.

(** A booking of Tuesday 2025-09-09 at 10:00. *)
Definition request : Booking :=
  {| selectedDate := Some "2025-09-09"; selectedTime := Some "10:00";
     userDetails := Some caller; guestEmails := None; organizerEmail := None |}.

End Samples.

(** ** More of the store: [getBookedSlots] *)

Module Reads.
Import JS Store.

(** [find({date: d}).toArray()], the documents of a date in insertion order. *)
Definition find (c : Collection) (d : string) : list BookedSlot :=
  filter (fun doc => String.eqb (date doc) d = true) (docs c).

(** The times booked on a date.  [Array.from] lists a [Set] in the order of
    insertion, which the finite sets of the embedding do not keep: in the
    fallback branch the list is a permutation of the array. *)
Definition getBookedSlots (date : string) (w : World) : list string * World :=
  match bookedSlotsCollection w with
  | Some c => (map time (find c date), w)
  | None =>
      let m := ensureMap w in
      (match m !! date with
       | Some s => elements s
       | None => []
       end, setBookedSlots m w)
  end.

(** What the store answers depends on the collection, when it is in use, and
    on the fallback map read through [ensureMap]. *)
Definition view (w : World) : option Collection * gmap string (gset string) :=
  (bookedSlotsCollection w, ensureMap w).

Definition isQuery (o : op) : bool :=
  match o with
  | Query _ _ => true
  | _ => false
  end.

(** A sequence of operations without its queries. *)
Definition updates (os : list op) : list op :=
  filter (fun o => isQuery o = false) os.

End Reads.

(** ** GET /api/booked-slots *)

Module BookedSlotsApi.
Import JS Api Reads.

(** [\d] *)
Definition isDigit (c : ascii) : bool :=
  match digitVal c with
  | Some _ => true
  | None => false
  end.

(** [/^\d{4}-\d{2}-\d{2}$/.test(s)] *)
Definition dateRegex (s : string) : bool :=
  match s with
  | String y1 (String y2 (String y3 (String y4 (String "-" (String m1 (String m2
      (String "-" (String d1 (String d2 EmptyString))))))))) =>
      isDigit y1 && isDigit y2 && isDigit y3 && isDigit y4
      && isDigit m1 && isDigit m2 && isDigit d1 && isDigit d2
  | _ => false
  end.

Inductive Entry : Type :=
| Slot (time displayTime : string) (booked : bool).

Inductive BookedBody : Type :=
| DateRequired (error example : string)
| InvalidFormat (error provided example : string)
| BookedOn (date timezone : string) (bookedSlots : list Entry) (totalBookedSlots : Z)
    (message : string).

(** The handler.  The arrow function that renders a time for display has the
    body of [formatTimeForEmail], which stands for it. *)
Definition listBookedSlots (date : option string) (w : World) : Reply BookedBody * World :=
  match date with
  | Some date =>
      if negb (truthy (Some date))
      then ({| status := 400;
               body := DateRequired "Date parameter is required"
                         "/api/booked-slots?date=2025-09-30" |}, w)
      else if negb (dateRegex date)
      then ({| status := 400;
               body := InvalidFormat "Invalid date format. Use YYYY-MM-DD format" date
                         "2025-09-30" |}, w)
      else
        let '(bookedSlotsForDate, w1) := getBookedSlots date w in
        let bookedSlotsWithDisplay :=
          map (fun time24h => Slot time24h (formatTimeForEmail time24h) true)
            bookedSlotsForDate in
        let n := Z.of_nat (length bookedSlotsForDate) in
        ({| status := 200;
            body := BookedOn date "Asia/Kolkata" bookedSlotsWithDisplay n
                      (if 0 <? n
                       then numToString (Some n)
                            +:+ " slot(s) are already booked for this date"
                       else "No slots are booked for this date") |}, w1)
  | None =>
      ({| status := 400;
          body := DateRequired "Date parameter is required"
                    "/api/booked-slots?date=2025-09-30" |}, w)
  end.

End BookedSlotsApi.

(** ** Readers of a booking outcome *)

Module Bookings.
Import JS Api.

(** [r.recipient] *)
Definition recipient (r : EmailResult) : string :=
  match r with Result rcpt _ _ _ => rcpt end.

(** [guestEmails = []] of the destructuring. *)
Definition guestsOf (req : Booking) : list string :=
  match guestEmails req with Some g => g | None => [] end.

(** [process.env.ORGANIZER_EMAIL || "admin@thrivebrands.ai"] *)
Definition organizerOf (env : Env) : string :=
  interpolate (orElse (ORGANIZER_EMAIL env) (Some "admin@thrivebrands.ai")).

(** [process.env.ADMIN_EMAIL || "admin@thrivebrands.ai"] *)
Definition adminOf (env : Env) : string :=
  interpolate (orElse (ADMIN_EMAIL env) (Some "admin@thrivebrands.ai")).

End Bookings.

(** ** Further sample worlds and requests *)

Module Cases.
Import JS Api Samples.

(** A MongoDB whose collection holds two documents for one slot. *)
Definition collided : Server :=
  {| accepts := true;
     stored := {| docs := [ {| date := "2025-09-09"; Store.time := "10:00"; createdAt := 1;
                                updatedAt := 1 |};
                             {| date := "2025-09-09"; Store.time := "10:00"; createdAt := 2;
                                updatedAt := 2 |} ];
                  uniqueDateTime := false |} |}.

(** A request with the requester's own address and a repeated guest among
    the guests. *)
Definition crowded : Booking :=
  {| selectedDate := Some "2025-09-09"; selectedTime := Some "10:00";
     userDetails := Some caller;
     guestEmails := Some ["ann@example.com"; "john.doe@example.com"; "ann@example.com"];
     organizerEmail := None |}.

(** A request whose date no engine reads. *)
Definition someday : Booking :=
  {| selectedDate := Some "someday"; selectedTime := Some "10:00";
     userDetails := Some caller; guestEmails := None; organizerEmail := None |}.

End Cases.

(** ** The time shown in the mails, checked over every time of the day *)

(** The hour of the 12-hour clock at hour [h] of the day. *)
Definition hour12 (h : Z) : Z := if h mod 12 =? 0 then 12 else h mod 12.

Definition shown12 (h mi : Z) : bool :=
  String.eqb (formatTimeForEmail (time24 h mi)) (time12 false (hour12 h) mi (12 <=? h)).

(** ** The first server.js *)

Module Earlier.

(** [convertTo24Hour] as the first server.js has it, for 12-hour input only:
    the later one puts the test for [AM] and [PM] in front of this body. *)
Definition convertTo24Hour (time12h : string) : string :=
  let parts := JS.split time12h " " in
  let time := hd EmptyString parts in
  let modifier := nth_error parts 1 in
  let hm := JS.split time ":" in
  let hours := hd EmptyString hm in
  let minutes := nth_error hm 1 in
  let hours1 := if String.eqb hours "12" then "00" else hours in
  let hours2 :=
    match modifier with
    | Some "PM" => HNum (option_map (fun n => n + 12) (JS.parseInt hours1 (Some 10)))
    | _ => HStr hours1
    end in
  let hoursStr := JS.padStart (hoursToString hours2) 2 "0" in
  hoursStr +:+ ":" +:+ JS.interpolate minutes.

Definition kept24 (h mi : Z) : bool :=
  String.eqb (convertTo24Hour (time24 h mi)) (time24 (if h =? 12 then 0 else h) mi).

Definition read12 (padded pm : bool) (h12 mi : Z) : bool :=
  String.eqb (convertTo24Hour (time12 padded h12 mi pm)) (time24 (hour24 h12 pm) mi).

End Earlier.

(** * Facts *)

(** Linear arithmetic with division and remainder by constants. *)
Ltac dlia := Z.div_mod_to_equations; lia.

(** Ranges are checked by evaluation: a property of every number of a range
    is a [forallb] over [seqZ]. *)
Lemma forallb_seqZ (f : Z -> bool) (lo len : Z) :
  forallb f (seqZ lo len) = true ->
  forall x, lo <= x < lo + len -> f x = true.
Proof.
  intros Hall x Hx. rewrite forallb_forall in Hall. apply Hall.
  apply list_elem_of_In, elem_of_seqZ. lia.
Qed.

(** ** The time normaliser *)

Module NormaliserFacts.
Import JS.

Example renderings :
  isoDate 2025 9 8 = "2025-09-08" /\ time24 14 0 = "14:00" /\ time24 9 30 = "09:30"
  /\ time12 false 2 0 true = "2:00 PM" /\ time12 true 9 5 false = "09:05 AM"
  /\ time12 false 12 30 false = "12:30 AM".
Proof. repeat split; reflexivity. Qed.

Example convertTo24Hour_samples :
  convertTo24Hour "2:00 PM" = "14:00" /\ convertTo24Hour "12:30 AM" = "00:30"
  /\ convertTo24Hour "12:30 PM" = "12:30" /\ convertTo24Hour "9:05 AM" = "09:05"
  /\ convertTo24Hour "14:00" = "14:00" /\ convertTo24Hour "x PM" = "NaN:undefined".
Proof. repeat split; reflexivity. Qed.

Lemma convertTo24Hour_24 (h mi : Z) :
  0 <= h < 24 -> 0 <= mi < 60 -> convertTo24Hour (time24 h mi) = time24 h mi.
Proof.
  intros Hh Hmi. apply String.eqb_eq. change (fixed24 h mi = true).
  assert (Hall : forallb (fun h => forallb (fixed24 h) (seqZ 0 60)) (seqZ 0 24) = true)
    by (vm_compute; reflexivity).
  apply (forallb_seqZ (fixed24 h) 0 60); [|lia].
  apply (forallb_seqZ (fun h => forallb (fixed24 h) (seqZ 0 60)) 0 24 Hall); lia.
Qed.

Lemma convertTo24Hour_12 (padded pm : bool) (h12 mi : Z) :
  1 <= h12 <= 12 -> 0 <= mi < 60 ->
  convertTo24Hour (time12 padded h12 mi pm) = time24 (hour24 h12 pm) mi.
Proof.
  intros Hh Hmi. apply String.eqb_eq. change (fixed12 padded pm h12 mi = true).
  assert (Hall : forallb (fun p => forallb (fun q =>
            forallb (fun h => forallb (fixed12 p q h) (seqZ 0 60)) (seqZ 1 12))
            [true; false]) [true; false] = true)
    by (vm_compute; reflexivity).
  rewrite forallb_forall in Hall.
  specialize (Hall padded ltac:(destruct padded; simpl; auto)).
  rewrite forallb_forall in Hall.
  specialize (Hall pm ltac:(destruct pm; simpl; auto)).
  apply (forallb_seqZ (fixed12 padded pm h12) 0 60); [|lia].
  apply (forallb_seqZ (fun h => forallb (fixed12 padded pm h) (seqZ 0 60)) 1 12 Hall); lia.
Qed.

(** The mails show the time in the 12-hour notation; normalising what they
    show gives the booked time back. *)
Lemma convertTo24Hour_formatTimeForEmail (h mi : Z) :
  0 <= h < 24 -> 0 <= mi < 60 ->
  convertTo24Hour (formatTimeForEmail (time24 h mi)) = time24 h mi.
Proof.
  intros Hh Hmi. apply String.eqb_eq. change (mailRoundTrip h mi = true).
  assert (Hall : forallb (fun h => forallb (mailRoundTrip h) (seqZ 0 60)) (seqZ 0 24) = true)
    by (vm_compute; reflexivity).
  apply (forallb_seqZ (mailRoundTrip h) 0 60); [|lia].
  apply (forallb_seqZ (fun h => forallb (mailRoundTrip h) (seqZ 0 60)) 0 24 Hall); lia.
Qed.

Lemma hour24_onto (h : Z) :
  0 <= h < 24 -> exists h12 pm, 1 <= h12 <= 12 /\ hour24 h12 pm = h.
Proof.
  intros Hh. destruct (Z.eq_dec h 0) as [->|].
  - exists 12, false. split; [lia | reflexivity].
  - destruct (Z_lt_le_dec h 12).
    + exists h, false. split; [lia|]. unfold hour24.
      destruct (h =? 12) eqn:E; lia.
    + destruct (Z.eq_dec h 12) as [->|].
      * exists 12, true. split; [lia | reflexivity].
      * exists (h - 12), true. split; [lia|]. unfold hour24.
        destruct (h - 12 =? 12) eqn:E; lia.
Qed.

(** C7.  A time of the day written [HH:MM] is left as it is by
    [convertTo24Hour], and every 12-hour writing of the same time, [H:MM AM]
    or [H:MM PM] (12 AM being hour 0, and PM adding 12 except at 12), with or
    without a leading zero in the hour, is normalised to that [HH:MM]; every
    time of the day has such a 12-hour writing. *)
Theorem convertTo24Hour_normalises (h mi : Z) :
  0 <= h < 24 -> 0 <= mi < 60 ->
  convertTo24Hour (time24 h mi) = time24 h mi
  /\ (forall padded h12 pm,
         1 <= h12 <= 12 -> hour24 h12 pm = h ->
         convertTo24Hour (time12 padded h12 mi pm) = time24 h mi)
  /\ (exists h12 pm, 1 <= h12 <= 12 /\ hour24 h12 pm = h).
Proof.
  intros Hh Hmi. split; [apply convertTo24Hour_24; assumption|]. split.
  - intros padded h12 pm H12 <-. apply convertTo24Hour_12; assumption.
  - apply hour24_onto, Hh.
Qed.

(** The theorem at 14:00, written "14:00" and "2:00 PM". *)
Lemma convertTo24Hour_normalises_witness :
  convertTo24Hour "14:00" = "14:00" /\ convertTo24Hour "2:00 PM" = "14:00".
Proof.
  destruct (convertTo24Hour_normalises 14 0 ltac:(lia) ltac:(lia)) as (H24 & H12 & _).
  split; [exact H24|].
  exact (H12 false 2 true ltac:(lia) eq_refl).
Defined.

End NormaliserFacts.

(** ** Dates *)

Module DateFacts.
Import JS JSDate.

Example dayOfWeekOf_samples :
  dayOfWeekOf 1970 1 1 = 4 /\ dayOfWeekOf 2000 2 29 = 2 /\ dayOfWeekOf 2025 9 7 = 0
  /\ dayOfWeekOf 2025 9 8 = 1 /\ dayOfWeekOf 2025 9 13 = 6.
Proof. repeat split; reflexivity. Qed.

Example parse_samples :
  parse 0 Samples.strict "2025-09-08T14:00:00" = Some 1757340000000
  /\ parse 330 Samples.strict "2025-09-08T14:00:00" = Some 1757320200000
  /\ parse 0 Samples.strict "2025-09-08T14:00:00+05:30" = Some 1757320200000
  /\ parse 0 Samples.strict "2025-09-08" = Some 1757289600000
  /\ parse 0 Samples.strict "2025-09-08T9:00:00" = None
  /\ parse 0 Samples.strict "tomorrowT10:00:00" = None.
Proof. repeat split; reflexivity. Qed.

Lemma digitVal_digitChar (d : Z) : 0 <= d <= 9 -> digitVal (digitChar d) = Some d.
Proof.
  intros H.
  assert (Hd : d = 0 \/ d = 1 \/ d = 2 \/ d = 3 \/ d = 4 \/ d = 5 \/ d = 6 \/ d = 7
               \/ d = 8 \/ d = 9) by lia.
  repeat (destruct Hd as [-> | Hd]; [reflexivity|]). subst d. reflexivity.
Qed.

Lemma num2_pad2 (n : Z) :
  0 <= n <= 99 -> num2 (digitChar (n / 10)) (digitChar (n mod 10)) = Some n.
Proof.
  intros H. unfold num2.
  rewrite !digitVal_digitChar by dlia.
  simpl. f_equal. dlia.
Qed.

Lemma num4_pad4 (n : Z) :
  0 <= n <= 9999 ->
  num4 (digitChar (n / 1000)) (digitChar (n / 100 mod 10))
       (digitChar (n mod 100 / 10)) (digitChar (n mod 100 mod 10)) = Some n.
Proof.
  intros H. unfold num4, num2.
  rewrite !digitVal_digitChar by dlia.
  simpl. f_equal. dlia.
Qed.

Lemma MakeDay_bounds (y m d : Z) :
  0 <= y <= 9999 -> 1 <= m <= 12 -> 1 <= d <= 31 ->
  -720000 <= MakeDay y (m - 1) d <= 2933000.
Proof.
  intros Hy Hm Hd. unfold MakeDay.
  assert (E1 : (m - 1) / 12 = 0) by (apply Z.div_small; lia).
  assert (E2 : (m - 1) mod 12 = m - 1) by (apply Z.mod_small; lia).
  rewrite E1, E2, Z.add_0_r.
  assert (0 <= DayWithinYearOfMonth (InLeapYear y) (m - 1) <= 335).
  { unfold DayWithinYearOfMonth.
    assert (Hc : m - 1 = 0 \/ m - 1 = 1 \/ m - 1 = 2 \/ m - 1 = 3 \/ m - 1 = 4 \/ m - 1 = 5
                 \/ m - 1 = 6 \/ m - 1 = 7 \/ m - 1 = 8 \/ m - 1 = 9 \/ m - 1 = 10
                 \/ m - 1 = 11) by lia.
    destruct (InLeapYear y);
      repeat (destruct Hc as [-> | Hc]; [lia|]); rewrite Hc; lia. }
  unfold DayFromYear. dlia.
Qed.

Lemma instant_clip (tz y m d h mi : Z) :
  zone tz -> 0 <= y <= 9999 -> 1 <= m <= 12 -> 1 <= d <= 31 ->
  0 <= h <= 24 -> 0 <= mi <= 59 ->
  TimeClip (instant tz y m d h mi) = Some (instant tz y m d h mi).
Proof.
  intros Hz Hy Hm Hd Hh Hmi. unfold TimeClip.
  pose proof (MakeDay_bounds y m d Hy Hm Hd) as Hb.
  unfold instant, UTC, LocalTZA, MakeDate, MakeTime, msPerDay, msPerHour, msPerMinute,
    msPerSecond, zone in *.
  destruct (Z.abs _ <=? _) eqn:E; [reflexivity|]. lia.
Qed.

Lemma validDate_true (m d : Z) : 1 <= m <= 12 -> 1 <= d <= 31 -> validDate m d = true.
Proof.
  intros Hm Hd. unfold validDate.
  repeat (apply andb_true_intro; split); apply Z.leb_le; lia.
Qed.

Lemma validTime_true (h mi : Z) : h <= 23 -> mi <= 59 -> validTime h mi 0 0 = true.
Proof.
  intros Hh Hmi. unfold validTime. apply orb_true_iff. left.
  repeat (apply andb_true_intro; split); apply Z.leb_le; lia.
Qed.

Lemma parse_local (tz : Z) (legacy : string -> jsnum) (y m d h mi : Z) :
  zone tz -> 0 <= y <= 9999 -> 1 <= m <= 12 -> 1 <= d <= 31 ->
  0 <= h <= 23 -> 0 <= mi <= 59 ->
  parse tz legacy (isoDate y m d +:+ "T" +:+ time24 h mi +:+ ":00")
  = Some (instant tz y m d h mi).
Proof.
  intros Hz Hy Hm Hd Hh Hmi.
  unfold isoDate, time24, pad4, pad2, parse, readISO, parseDatePart. cbv [String.append].
  rewrite num4_pad4 by lia. cbn [mbind option_bind].
  rewrite !num2_pad2 by lia. cbn [mbind option_bind].
  rewrite validDate_true by lia.
  rewrite !num2_pad2 by lia. cbn [mbind option_bind].
  change (parseSeconds ":00") with (Some (0, 0, EmptyString)). cbn [mbind option_bind].
  change (parseOffset EmptyString) with (Some (@None Z)). cbn [mbind option_bind].
  rewrite validTime_true by lia.
  apply instant_clip; auto; lia.
Qed.

(** The same reading with the offset of Noida spelt out. *)
Lemma parse_noida (tz : Z) (legacy : string -> jsnum) (y m d h mi : Z) :
  0 <= y <= 9999 -> 1 <= m <= 12 -> 1 <= d <= 31 ->
  0 <= h <= 23 -> 0 <= mi <= 59 ->
  parse tz legacy (isoDate y m d +:+ "T" +:+ time24 h mi +:+ ":00+05:30")
  = Some (instant kolkata y m d h mi).
Proof.
  intros Hy Hm Hd Hh Hmi.
  unfold isoDate, time24, pad4, pad2, parse, readISO, parseDatePart. cbv [String.append].
  rewrite num4_pad4 by lia. cbn [mbind option_bind].
  rewrite !num2_pad2 by lia. cbn [mbind option_bind].
  rewrite validDate_true by lia.
  rewrite !num2_pad2 by lia. cbn [mbind option_bind].
  change (parseSeconds ":00+05:30") with (Some (0, 0, "+05:30")). cbn [mbind option_bind].
  change (parseOffset "+05:30") with (Some (Some 330)). cbn [mbind option_bind].
  rewrite validTime_true by lia.
  rewrite <- (instant_clip kolkata y m d h mi); unfold zone, kolkata; try lia.
  reflexivity.
Qed.

Lemma getDay_midnight (tz y m d : Z) :
  getDay tz (Some (instant tz y m d 0 0)) = Some (dayOfWeekOf y m d).
Proof.
  unfold getDay, option_map, instant, LocalTime, UTC, WeekDay, dayOfWeekOf. do 3 f_equal.
  unfold Day, MakeDate, MakeTime, msPerDay, msPerHour, msPerMinute, msPerSecond.
  generalize (MakeDay y (m - 1) d). intros D. dlia.
Qed.

Lemma getHours_instant (tz y m d h mi : Z) :
  0 <= h <= 23 -> 0 <= mi <= 59 ->
  getHours tz (Some (instant tz y m d h mi)) = Some h.
Proof.
  intros Hh Hmi. unfold getHours, option_map, instant, LocalTime, UTC, HourFromTime. f_equal.
  unfold MakeDate, MakeTime, msPerDay, msPerHour, msPerMinute, msPerSecond.
  generalize (MakeDay y (m - 1) d). intros D. dlia.
Qed.

Lemma getDay_relocate (tz y m d : Z) :
  notAheadOfNoida tz -> 0 <= y <= 9999 -> 1 <= m <= 12 -> 1 <= d <= 31 ->
  getDay tz (relocate tz kolkata (Some (instant tz y m d 0 0)))
  = Some (dayOfWeekOf y m d).
Proof.
  intros Hz Hy Hm Hd. unfold relocate. cbn [mbind option_bind].
  pose proof (MakeDay_bounds y m d Hy Hm Hd) as Hb.
  unfold TimeClip.
  destruct (Z.abs _ <=? _) eqn:E.
  - unfold getDay, option_map. f_equal. unfold LocalTime, UTC, WeekDay, dayOfWeekOf. f_equal. f_equal.
    unfold instant, UTC, LocalTZA, Day, MakeDate, MakeTime, msPerDay, msPerHour, msPerMinute,
      msPerSecond, notAheadOfNoida, kolkata in *.
    revert Hb. generalize (MakeDay y (m - 1) d). intros D Hb. dlia.
  - exfalso. apply Z.leb_gt in E.
    unfold instant, UTC, LocalTZA, Day, MakeDate, MakeTime, msPerDay, msPerHour, msPerMinute,
      msPerSecond, notAheadOfNoida, kolkata in *.
    revert E Hb. generalize (MakeDay y (m - 1) d). intros D E Hb. dlia.
Qed.

Lemma dayOfWeekOf_range (y m d : Z) : 0 <= dayOfWeekOf y m d <= 6.
Proof. unfold dayOfWeekOf. dlia. Qed.

Lemma civil_day (y m d : Z) : civil y m d -> 1 <= d <= 31.
Proof.
  intros (_ & _ & Hd).
  assert (daysInMonth y m <= 31); [|lia].
  unfold daysInMonth.
  repeat match goal with
         | |- context [match ?x with _ => _ end] => destruct x
         end; lia.
Qed.

(** *** The day numbers run through the calendar *)

Lemma InLeapYear_spec (y : Z) :
  InLeapYear y = true <-> (y mod 4 = 0 /\ (y mod 100 <> 0 \/ y mod 400 = 0)).
Proof.
  unfold InLeapYear. rewrite andb_true_iff, orb_true_iff, negb_true_iff, !Z.eqb_eq, Z.eqb_neq.
  tauto.
Qed.

Lemma DayFromYear_succ (y : Z) :
  DayFromYear (y + 1) = DayFromYear y + (if InLeapYear y then 366 else 365).
Proof.
  destruct (InLeapYear y) eqn:E.
  - apply InLeapYear_spec in E. unfold DayFromYear. dlia.
  - assert (H : ~ (y mod 4 = 0 /\ (y mod 100 <> 0 \/ y mod 400 = 0))).
    { intros H. apply InLeapYear_spec in H. congruence. }
    unfold DayFromYear. dlia.
Qed.

Lemma MakeDay_nextDay (y m d : Z) :
  1 <= m <= 12 -> 1 <= d <= daysInMonth y m ->
  let '(y', m', d') := nextDay y m d in
  MakeDay y' (m' - 1) d' = MakeDay y (m - 1) d + 1.
Proof.
  intros Hm Hd. unfold nextDay.
  destruct (d <? daysInMonth y m) eqn:E1.
  - unfold MakeDay. lia.
  - apply Z.ltb_ge in E1. assert (d = daysInMonth y m) by lia. subst d.
    destruct (m <? 12) eqn:E2.
    + apply Z.ltb_lt in E2. unfold MakeDay.
      replace ((m + 1 - 1) / 12) with 0 by dlia.
      replace ((m - 1) / 12) with 0 by dlia.
      replace ((m + 1 - 1) mod 12) with m by dlia.
      replace ((m - 1) mod 12) with (m - 1) by dlia.
      rewrite !Z.add_0_r. unfold daysInMonth, DayWithinYearOfMonth.
      assert (Hc : m = 1 \/ m = 2 \/ m = 3 \/ m = 4 \/ m = 5 \/ m = 6 \/ m = 7 \/ m = 8
                   \/ m = 9 \/ m = 10 \/ m = 11) by lia.
      destruct (InLeapYear y);
        repeat (destruct Hc as [-> | Hc]; [simpl; lia|]); subst m; simpl; lia.
    + apply Z.ltb_ge in E2. assert (m = 12) by lia. subst m.
      unfold MakeDay. simpl Z.sub. 
      change (0 / 12) with 0. change (0 mod 12) with 0.
      change (11 / 12) with 0. change (11 mod 12) with 11.
      rewrite !Z.add_0_r, DayFromYear_succ. unfold daysInMonth, DayWithinYearOfMonth.
      destruct (InLeapYear y), (InLeapYear (y + 1)); lia.
Qed.

Lemma dayOfWeekOf_nextDay (y m d : Z) :
  1 <= m <= 12 -> 1 <= d <= daysInMonth y m ->
  let '(y', m', d') := nextDay y m d in
  dayOfWeekOf y' m' d' = (dayOfWeekOf y m d + 1) mod 7.
Proof.
  intros Hm Hd. pose proof (MakeDay_nextDay y m d Hm Hd) as H.
  destruct (nextDay y m d) as [[y' m'] d']. unfold dayOfWeekOf. rewrite H. dlia.
Qed.

(** *** The text of an instant *)

Lemma YearFromTime_spec (t : Z) :
  DayFromYear (YearFromTime t) <= Day t < DayFromYear (YearFromTime t + 1).
Proof.
  unfold YearFromTime. generalize (Day t). intros d.
  destruct (d <? DayFromYear (1970 + 400 * d / 146097)) eqn:E1;
    [apply Z.ltb_lt in E1 | apply Z.ltb_ge in E1].
  - unfold DayFromYear in *. dlia.
  - destruct (DayFromYear (1970 + 400 * d / 146097 + 1) <=? d) eqn:E2;
      [apply Z.leb_le in E2 | apply Z.leb_gt in E2].
    + unfold DayFromYear in *. dlia.
    + lia.
Qed.

Example isoText_samples :
  isoText 0 = "1970-01-01T00:00:00.000Z"
  /\ isoText 1757392200000 = "2025-09-09T04:30:00.000Z"
  /\ isoText 1709251199999 = "2024-02-29T23:59:59.999Z"
  /\ isoText 951782400000 = "2000-02-29T00:00:00.000Z"
  /\ isoText (-1) = "1969-12-31T23:59:59.999Z"
  /\ isoText 253402300800000 = "+010000-01-01T00:00:00.000Z"
  /\ isoText (-62198755200000) = "-000001-01-01T00:00:00.000Z".
Proof. repeat split; vm_compute; reflexivity. Qed.

(** Year, month and day of the month are those of the calendar: they give
    the day back, and the day of the month is one of 1 to 31. *)
Lemma calendar_round_trip (t : Z) :
  MakeDay (YearFromTime t) (MonthFromTime t) (DateFromTime t) = Day t
  /\ 0 <= MonthFromTime t <= 11 /\ 1 <= DateFromTime t <= 31.
Proof.
  pose proof (YearFromTime_spec t) as Hy. rewrite DayFromYear_succ in Hy.
  assert (Hm : 0 <= MonthFromTime t <= 11).
  { unfold MonthFromTime.
    repeat match goal with |- context [?a <? ?b] => destruct (a <? b) end; lia. }
  split; [|split; [exact Hm|]].
  - unfold MakeDay, DateFromTime, DayWithinYear.
    rewrite Z.div_small, Z.mod_small, Z.add_0_r by lia. lia.
  - clear Hm. unfold DateFromTime, MonthFromTime, DayWithinYear.
    destruct (InLeapYear (YearFromTime t));
      repeat match goal with
             | |- context [?a <? ?b] =>
                 destruct (Z.ltb_spec a b); cbn [DayWithinYearOfMonth]
             end;
      lia.
Qed.

End DateFacts.

(** ** The store *)

Module StoreFacts.
Import JS Store Samples.

Lemma matches_key (d t : string) (doc : BookedSlot) :
  matches d t doc = true <-> key doc = (d, t).
Proof.
  unfold matches, key. rewrite andb_true_iff, !String.eqb_eq.
  split; [intros [-> ->]; reflexivity | intros [= -> ->]; auto].
Qed.

Lemma matches_other (d t d' t' : string) (doc : BookedSlot) :
  (d, t) <> (d', t') -> matches d t doc = true -> matches d' t' doc = false.
Proof.
  intros Hne H. apply matches_key in H.
  destruct (matches d' t' doc) eqn:E; [|reflexivity].
  apply matches_key in E. congruence.
Qed.

Lemma matches_self (doc : BookedSlot) : matches (date doc) (time doc) doc = true.
Proof. unfold matches. rewrite !String.eqb_refl. reflexivity. Qed.

Lemma matches_sym (x y : BookedSlot) :
  matches (date x) (time x) y = matches (date y) (time y) x.
Proof. unfold matches. rewrite (String.eqb_sym (date y)), (String.eqb_sym (time y)). reflexivity. Qed.

Lemma isSlotBooked_settle (d t : string) (w : World) :
  isSlotBooked d t w = (booked w d t, settle w).
Proof.
  unfold booked, settle, isSlotBooked. destruct (bookedSlotsCollection w); reflexivity.
Qed.

Lemma booked_settle (w : World) (d t : string) : booked (settle w) d t = booked w d t.
Proof.
  unfold booked, settle, isSlotBooked.
  destruct (bookedSlotsCollection w) eqn:E; simpl; [rewrite E; reflexivity|].
  rewrite E. reflexivity.
Qed.

Lemma settle_idem (w : World) : settle (settle w) = settle w.
Proof.
  unfold settle. destruct (bookedSlotsCollection w) eqn:E; simpl; rewrite ?E; reflexivity.
Qed.

Lemma find_removeFirst_other (p q : BookedSlot -> bool) (l : list BookedSlot) :
  (forall x, p x = true -> q x = false) ->
  find q (removeFirst p l) = find q l.
Proof.
  intros Hpq. induction l as [|x l IH]; simpl; [reflexivity|].
  destruct (p x) eqn:Hp; simpl.
  - rewrite (Hpq x Hp). reflexivity.
  - rewrite IH. reflexivity.
Qed.

Lemma find_snoc (q : BookedSlot -> bool) (l : list BookedSlot) (x : BookedSlot) :
  find q (l ++ [x]) = match find q l with Some y => Some y | None => if q x then Some x else None end.
Proof.
  induction l as [|a l IH]; simpl; [reflexivity|].
  destruct (q a); [reflexivity | exact IH].
Qed.

Lemma ensureMap_set (m : gmap string (gset string)) (w : World) (l : LogLine) :
  ensureMap (log l (setBookedSlots m w)) = m.
Proof. reflexivity. Qed.

Lemma addBookedSlot_normal (now : Z) (d t : string) (w : World) :
  fst (addBookedSlot now d t w) = Normal tt.
Proof.
  unfold addBookedSlot. destruct (bookedSlotsCollection w); [|reflexivity].
  destruct (insertOne _ _); reflexivity.
Qed.

Lemma booked_after_add (now : Z) (d t : string) (w : World) :
  booked (snd (addBookedSlot now d t w)) d t = true.
Proof.
  unfold booked, isSlotBooked, addBookedSlot.
  destruct (bookedSlotsCollection w) as [c|] eqn:Ec.
  - unfold insertOne. simpl.
    destruct (uniqueDateTime c && existsb (matches d t) (docs c)) eqn:Eu; simpl.
    + rewrite Ec. apply andb_true_iff in Eu as [_ Hex].
      unfold findOne. apply existsb_exists in Hex as (x & Hin & Hx).
      destruct (find (matches d t) (docs c)) eqn:Ef; [reflexivity|].
      eapply find_none in Ef; eauto; congruence.
    + unfold findOne. simpl. rewrite find_snoc.
      destruct (find (matches d t) (docs c)); [reflexivity|].
      unfold matches. simpl. rewrite !String.eqb_refl. reflexivity.
  - simpl. rewrite Ec. simpl. rewrite ensureMap_set.
    destruct (ensureMap w !! d) as [s|] eqn:Em.
    + rewrite lookup_alter_eq, Em. simpl. apply bool_decide_eq_true.
      apply elem_of_union_l, elem_of_singleton. reflexivity.
    + rewrite lookup_alter_eq, lookup_insert_eq. simpl. apply bool_decide_eq_true.
      apply elem_of_union_l, elem_of_singleton. reflexivity.
Qed.

(** *** The frame of [addBookedSlot] and [removeBookedSlot] *)

Lemma booked_add_other (now : Z) (d t d' t' : string) (w : World) :
  (d, t) <> (d', t') ->
  booked (snd (addBookedSlot now d t w)) d' t' = booked w d' t'.
Proof.
  intros Hne. unfold booked, isSlotBooked, addBookedSlot.
  destruct (bookedSlotsCollection w) as [c|] eqn:Ec.
  - unfold insertOne. simpl.
    destruct (uniqueDateTime c && existsb (matches d t) (docs c)); simpl.
    + rewrite Ec. reflexivity.
    + unfold findOne. simpl. rewrite find_snoc.
      destruct (find (matches d' t') (docs c)); [reflexivity|].
      rewrite (matches_other d t d' t'); [reflexivity | exact Hne |].
      apply (matches_self {| date := d; time := t; createdAt := now; updatedAt := now |}).
  - simpl. rewrite Ec. simpl. rewrite ensureMap_set.
    destruct (decide (d = d')) as [<-|Hd].
    + assert (Ht : t <> t') by congruence.
      destruct (ensureMap w !! d) as [s|] eqn:Em.
      * rewrite lookup_alter_eq, Em. simpl. apply bool_decide_ext.
        rewrite elem_of_union, elem_of_singleton. intuition congruence.
      * rewrite lookup_alter_eq, lookup_insert_eq. simpl.
        apply bool_decide_eq_false.
        rewrite elem_of_union, elem_of_singleton, elem_of_empty. intuition congruence.
    + rewrite lookup_alter_ne by exact Hd.
      destruct (ensureMap w !! d); [reflexivity|].
      rewrite lookup_insert_ne by exact Hd. reflexivity.
Qed.

Lemma booked_remove_other (d t d' t' : string) (w : World) :
  (d, t) <> (d', t') ->
  booked (snd (removeBookedSlot d t w)) d' t' = booked w d' t'.
Proof.
  intros Hne. unfold booked, isSlotBooked, removeBookedSlot.
  destruct (bookedSlotsCollection w) as [c|] eqn:Ec.
  - simpl. unfold findOne. simpl.
    rewrite find_removeFirst_other; [reflexivity|].
    intros x. apply matches_other. exact Hne.
  - unfold ensureMap. destruct (bookedSlots w) as [m|] eqn:Eg; simpl.
    + destruct (m !! d) as [s|] eqn:Em; simpl; rewrite Ec, ?Eg; [|reflexivity].
      simpl. destruct (decide (d = d')) as [<-|Hd].
      * assert (Ht : t <> t') by congruence.
        rewrite lookup_alter_eq, Em. simpl. apply bool_decide_ext.
        rewrite elem_of_difference, elem_of_singleton. intuition congruence.
      * rewrite lookup_alter_ne by exact Hd. reflexivity.
    + rewrite Ec, Eg. reflexivity.
Qed.

(** C10.  Reserving or releasing the slot [(d, t)] leaves the answer of
    [isSlotBooked] for every other slot [(d', t')] as it was. *)
Theorem other_slots_untouched (now : Z) (d t d' t' : string) (w : World) :
  (d, t) <> (d', t') ->
  booked (snd (addBookedSlot now d t w)) d' t' = booked w d' t'
  /\ booked (snd (removeBookedSlot d t w)) d' t' = booked w d' t'.
Proof.
  intros H. split; [apply booked_add_other | apply booked_remove_other]; exact H.
Qed.

(** The theorem for 10:30 against 10:00 of the same day. *)
Lemma other_slots_untouched_witness :
  booked (snd (addBookedSlot 1 "2025-09-09" "10:30" reserved)) "2025-09-09" "10:00"
  = booked reserved "2025-09-09" "10:00"
  /\ booked (snd (removeBookedSlot "2025-09-09" "10:30" reserved)) "2025-09-09" "10:00"
     = booked reserved "2025-09-09" "10:00".
Proof.
  apply (other_slots_untouched 1 "2025-09-09" "10:30" "2025-09-09" "10:00" reserved).
  discriminate.
Defined.

(** *** One record per slot *)

Lemma existsb_matches_snoc (d t : string) (l : list BookedSlot) (x : BookedSlot) :
  existsb (matches d t) (l ++ [x]) = existsb (matches d t) l || matches d t x.
Proof. rewrite existsb_app. simpl. rewrite orb_false_r. reflexivity. Qed.

Lemma distinctKeys_snoc (l : list BookedSlot) (x : BookedSlot) :
  distinctKeys (l ++ [x]) = distinctKeys l && negb (existsb (matches (date x) (time x)) l).
Proof.
  induction l as [|a l IH]; simpl; [reflexivity|].
  rewrite IH, existsb_matches_snoc, (matches_sym a x).
  destruct (existsb (matches (date a) (time a)) l), (matches (date x) (time x) a),
    (distinctKeys l), (existsb (matches (date x) (time x)) l); reflexivity.
Qed.

Lemma existsb_removeFirst (p q : BookedSlot -> bool) (l : list BookedSlot) :
  existsb q (removeFirst p l) = true -> existsb q l = true.
Proof.
  induction l as [|a l IH]; simpl; [auto|].
  destruct (p a); simpl.
  - intros ->. apply orb_true_r.
  - destruct (q a); simpl; auto.
Qed.

Lemma distinctKeys_removeFirst (p : BookedSlot -> bool) (l : list BookedSlot) :
  distinctKeys l = true -> distinctKeys (removeFirst p l) = true.
Proof.
  induction l as [|a l IH]; simpl; [auto|].
  intros [Ha Hl]%andb_true_iff. destruct (p a); [exact Hl|].
  simpl. rewrite (IH Hl), andb_true_r.
  destruct (existsb (matches (date a) (time a)) (removeFirst p l)) eqn:E; [|reflexivity].
  apply existsb_removeFirst in E. rewrite E in Ha. discriminate.
Qed.

Lemma sound_run (o : op) (w : World) : sound w -> sound (run o w).
Proof.
  unfold sound. destruct o as [now d t|d t|d t]; simpl.
  - unfold addBookedSlot. destruct (bookedSlotsCollection w) as [c|] eqn:Ec.
    + intros [Hu Hd]. unfold insertOne. simpl. rewrite Hu. simpl.
      destruct (existsb (matches d t) (docs c)) eqn:Ex; simpl.
      * rewrite Ec. auto.
      * split; [reflexivity|]. rewrite distinctKeys_snoc. simpl. rewrite Hd, Ex. reflexivity.
    + simpl. rewrite Ec. auto.
  - unfold removeBookedSlot. destruct (bookedSlotsCollection w) as [c|] eqn:Ec.
    + intros [Hu Hd]. simpl. split; [exact Hu|]. apply distinctKeys_removeFirst, Hd.
    + destruct (bookedSlots w) as [m|]; [destruct (m !! d)|]; simpl; rewrite Ec; auto.
  - unfold isSlotBooked. destruct (bookedSlotsCollection w) as [c|] eqn:Ec; simpl;
      rewrite Ec; auto.
Qed.

Lemma sound_runAll (os : list op) (w : World) : sound w -> sound (runAll os w).
Proof.
  unfold runAll. revert w. induction os as [|o os IH]; simpl; [auto|].
  intros w Hw. apply IH, sound_run, Hw.
Qed.

Lemma sound_connect (srv : Server) :
  distinctKeys (docs (stored srv)) = true -> sound (connectToMongoDB srv start).
Proof.
  intros Hd. unfold sound, connectToMongoDB, createIndex.
  destruct (accepts srv); simpl; [|exact I].
  rewrite Hd. simpl. auto.
Qed.

Lemma filter_matches_none (d t : string) (l : list BookedSlot) :
  existsb (matches d t) l = false ->
  filter (fun doc => matches d t doc = true) l = [].
Proof.
  induction l as [|a l IH]; simpl; [reflexivity|].
  intros [Ha Hl]%orb_false_iff. rewrite filter_cons.
  destruct (decide (matches d t a = true)) as [Hm|Hm]; [congruence | exact (IH Hl)].
Qed.

Lemma distinct_count (d t : string) (l : list BookedSlot) :
  distinctKeys l = true ->
  (length (filter (fun doc => matches d t doc = true) l) <= 1)%nat.
Proof.
  induction l as [|a l IH]; simpl; [lia|].
  intros [Ha Hl]%andb_true_iff. specialize (IH Hl).
  rewrite filter_cons. destruct (decide (matches d t a = true)) as [Hm|Hm]; [|exact IH].
  simpl. apply matches_key in Hm. unfold key in Hm. injection Hm as <- <-.
  apply negb_true_iff in Ha. rewrite (filter_matches_none _ _ _ Ha). simpl. lia.
Qed.

Lemma sound_records (w : World) (d t : string) : sound w -> (records w d t <= 1)%nat.
Proof.
  unfold sound, records. destruct (bookedSlotsCollection w) as [c|].
  - intros [_ Hd]. apply distinct_count, Hd.
  - intros _. destruct (ensureMap w !! d); [case_bool_decide|]; lia.
Qed.

(** A slot is booked exactly when the store holds a record for it. *)
Lemma booked_records (w : World) (d t : string) :
  booked w d t = true <-> (1 <= records w d t)%nat.
Proof.
  unfold booked, isSlotBooked, records. destruct (bookedSlotsCollection w) as [c|]; simpl.
  - unfold findOne. induction (docs c) as [|a l IH]; simpl; [split; [discriminate | lia]|].
    rewrite filter_cons. destruct (matches d t a) eqn:E.
    + rewrite decide_True by reflexivity. simpl. split; [lia | reflexivity].
    + rewrite decide_False by discriminate. exact IH.
  - destruct (ensureMap w !! d); [case_bool_decide|]; simpl;
      split; first [reflexivity | discriminate | lia].
Qed.

(** C8.  Start the server against a database whose [bookedSlots] collection
    holds no two documents for one slot; then after any sequence of reserve,
    release and query operations the store holds at most one record for each
    [(date, time)] pair. *)
Theorem one_record_per_slot (srv : Server) (os : list op) (d t : string) :
  distinctKeys (docs (stored srv)) = true ->
  (records (runAll os (connectToMongoDB srv start)) d t <= 1)%nat.
Proof.
  intros H. apply sound_records, sound_runAll, sound_connect, H.
Qed.

(** The theorem for an empty database and a slot reserved twice. *)
Lemma one_record_per_slot_witness :
  (records (runAll [Reserve 0 "2025-09-09" "10:00"; Reserve 1 "2025-09-09" "10:00";
                    Release "2025-09-09" "11:00"]
              (connectToMongoDB emptyServer start)) "2025-09-09" "10:00" <= 1)%nat.
Proof. apply (one_record_per_slot emptyServer); reflexivity. Defined.

(** *** Reserving twice *)

(** C2, as the code has it.  After a reserve that the store accepted, the
    slot is booked; a further reserve of the same slot does not fail: it
    returns normally, and the slot stays booked. *)
Theorem reserve_then_booked (now now' : Z) (d t : string) (w : World) :
  accepted (snd (addBookedSlot now d t w)) d t ->
  booked (snd (addBookedSlot now d t w)) d t = true
  /\ fst (addBookedSlot now' d t (snd (addBookedSlot now d t w))) = Normal tt
  /\ booked (snd (addBookedSlot now' d t (snd (addBookedSlot now d t w)))) d t = true.
Proof.
  intros _. split; [apply booked_after_add|].
  split; [apply addBookedSlot_normal | apply booked_after_add].
Qed.

(** The theorem for Tuesday 2025-09-09, 10:00 on the sample database. *)
Lemma reserve_then_booked_witness :
  booked reserved "2025-09-09" "10:00" = true
  /\ fst (addBookedSlot 1 "2025-09-09" "10:00" reserved) = Normal tt
  /\ booked (snd (addBookedSlot 1 "2025-09-09" "10:00" reserved)) "2025-09-09" "10:00" = true.
Proof.
  apply (reserve_then_booked 0 1 "2025-09-09" "10:00" connected). left. reflexivity.
Defined.

(** Against C2 as stated: on the sample database the first reserve of
    2025-09-09 10:00 is accepted, and the second one returns normally; the
    duplicate-key error of the collection only reaches the console. *)
Lemma second_reserve_returns_normally :
  accepted reserved "2025-09-09" "10:00"
  /\ fst (addBookedSlot 1 "2025-09-09" "10:00" reserved) = Normal tt
  /\ ~ (exists e, fst (addBookedSlot 1 "2025-09-09" "10:00" reserved) = Throw e)
  /\ console (snd (addBookedSlot 1 "2025-09-09" "10:00" reserved))
     = (console reserved ++ [ErrorAdding DuplicateKey])%list.
Proof.
  split; [left; reflexivity|]. split; [reflexivity|]. split; [|reflexivity].
  intros [e H]. discriminate H.
Qed.

(** *** Two reserves at once *)

(** C9, as the code has it.  In a sound store, whichever of two concurrent
    reserves of one slot is served first, both calls return normally and the
    store ends with the slot booked by exactly one record. *)
Theorem concurrent_reserves_leave_one_record (now1 now2 : Z) (d t : string) (w : World) :
  sound w ->
  Forall (fun run => fst (fst run) = Normal tt /\ snd (fst run) = Normal tt
                     /\ booked (snd run) d t = true /\ records (snd run) d t = 1%nat)
         (concurrently now1 now2 d t d t w).
Proof.
  intros Hw. unfold concurrently.
  assert (Hrun : forall a b,
             let w2 := snd (addBookedSlot b d t (snd (addBookedSlot a d t w))) in
             booked w2 d t = true /\ records w2 d t = 1%nat).
  { intros a b w2. assert (Hb : booked w2 d t = true) by apply booked_after_add.
    split; [exact Hb|]. apply booked_records in Hb.
    assert (Hs : sound w2).
    { apply (sound_run (Reserve b d t)), (sound_run (Reserve a d t)), Hw. }
    pose proof (sound_records w2 d t Hs). lia. }
  constructor; [|constructor; [|constructor]].
  - pose proof (addBookedSlot_normal now1 d t w) as H1.
    pose proof (addBookedSlot_normal now2 d t (snd (addBookedSlot now1 d t w))) as H2.
    pose proof (Hrun now1 now2) as [Hb Hr].
    destruct (addBookedSlot now1 d t w) as [r1 w1]; cbn [fst snd] in *.
    destruct (addBookedSlot now2 d t w1) as [r2 w2]; cbn [fst snd] in *. auto.
  - pose proof (addBookedSlot_normal now2 d t w) as H1.
    pose proof (addBookedSlot_normal now1 d t (snd (addBookedSlot now2 d t w))) as H2.
    pose proof (Hrun now2 now1) as [Hb Hr].
    destruct (addBookedSlot now2 d t w) as [r2 w1]; cbn [fst snd] in *.
    destruct (addBookedSlot now1 d t w1) as [r1 w2]; cbn [fst snd] in *. auto.
Qed.

(** The theorem for two reserves of 2025-09-09 10:00 on the sample database. *)
Lemma concurrent_reserves_leave_one_record_witness :
  Forall (fun run => fst (fst run) = Normal tt /\ snd (fst run) = Normal tt
                     /\ booked (snd run) "2025-09-09" "10:00" = true
                     /\ records (snd run) "2025-09-09" "10:00" = 1%nat)
         (concurrently 0 1 "2025-09-09" "10:00" "2025-09-09" "10:00" connected).
Proof.
  apply (concurrent_reserves_leave_one_record 0 1 "2025-09-09" "10:00" connected).
  split; reflexivity.
Defined.

(** Against C9 as stated: in both runs of two concurrent reserves of
    2025-09-09 10:00 on the sample database, both calls return normally and
    neither sees an error. *)
Lemma concurrent_reserves_both_return :
  Forall (fun run => fst (fst run) = Normal tt /\ snd (fst run) = Normal tt)
         (concurrently 0 1 "2025-09-09" "10:00" "2025-09-09" "10:00" connected)
  /\ ~ Exists (fun run => exists e, fst (fst run) = Throw e \/ snd (fst run) = Throw e)
         (concurrently 0 1 "2025-09-09" "10:00" "2025-09-09" "10:00" connected).
Proof.
  split.
  - repeat constructor.
  - intros H. apply Exists_exists in H as (run & Hin & e & He).
    apply list_elem_of_In in Hin. simpl in Hin.
    destruct Hin as [<-|[<-|[]]]; destruct He; discriminate.
Qed.

End StoreFacts.

(** ** The handlers *)

Module ApiFacts.
Import JS Api Samples StoreFacts DateFacts NormaliserFacts.

Lemma weekday_flag (dow : jsnum) :
  ge dow (Some 1) && le dow (Some 5) = true <-> exists n, dow = Some n /\ 1 <= n <= 5.
Proof.
  unfold ge, le. destruct dow as [n|]; simpl.
  - rewrite andb_true_iff, !Z.leb_le. split.
    + intros H. exists n. split; [reflexivity | lia].
    + intros (k & [= <-] & H). lia.
  - split; [discriminate | intros (k & [=] & _)].
Qed.

Lemma hours_flag (hour : jsnum) :
  ge hour (Some 9) && lt hour (Some 18) = true <-> exists n, hour = Some n /\ 9 <= n < 18.
Proof.
  unfold ge, le, lt. destruct hour as [n|]; simpl.
  - rewrite andb_true_iff, Z.leb_le, Z.ltb_lt. split.
    + intros H. exists n. split; [reflexivity | lia].
    + intros (k & [= <-] & H). lia.
  - split; [discriminate | intros (k & [=] & _)].
Qed.

Lemma future_flag (t : jsnum) (now : Z) :
  gt t (Some now) = true <-> exists n, t = Some n /\ now < n.
Proof.
  unfold gt, lt. destruct t as [n|]; simpl.
  - rewrite Z.ltb_lt. split.
    + intros H. exists n. auto.
    + intros (k & [= <-] & H). lia.
  - split; [discriminate | intros (k & [=] & _)].
Qed.

Lemma truthy_nonempty (s : string) : s <> EmptyString -> truthy (Some s) = true.
Proof. destruct s; [congruence | reflexivity]. Qed.

(** C1.  A query with a date and a time is answered with status 200, and its
    [available] flag is true exactly when the date is a Monday to Friday, the
    hour of the normalised time is one of 9 to 17, the date-time lies after
    [now] and the store has the slot (date, normalised time) not booked.  The
    message is chosen in this order: not a weekday, outside business hours,
    in the past, already booked, available. *)
Theorem check_availability_verdict
  (tz : Z) (legacy : string -> jsnum) (now : Z) (date time : string) (w : World) :
  date <> EmptyString -> time <> EmptyString ->
  exists available message dayOfWeek hour isWeekday isBusinessHours isFuture,
    fst (checkAvailability tz legacy now (Some date) (Some time) w)
    = {| status := 200;
         body := Checked available message date time noidaTimezone
                   "9:00 AM - 6:00 PM (Monday-Friday)" dayOfWeek hour
                   isWeekday isBusinessHours isFuture |}
    /\ (available = true <->
        onWeekday tz legacy date /\ inBusinessHours tz legacy date (convertTo24Hour time)
        /\ inFuture tz legacy now date (convertTo24Hour time)
        /\ booked w date (convertTo24Hour time) = false)
    /\ (~ onWeekday tz legacy date -> message = weekdaysOnly)
    /\ (onWeekday tz legacy date -> ~ inBusinessHours tz legacy date (convertTo24Hour time) ->
        message = businessHoursOnly)
    /\ (onWeekday tz legacy date -> inBusinessHours tz legacy date (convertTo24Hour time) ->
        ~ inFuture tz legacy now date (convertTo24Hour time) -> message = inThePast)
    /\ (onWeekday tz legacy date -> inBusinessHours tz legacy date (convertTo24Hour time) ->
        inFuture tz legacy now date (convertTo24Hour time) ->
        booked w date (convertTo24Hour time) = true -> message = alreadyBooked)
    /\ (onWeekday tz legacy date -> inBusinessHours tz legacy date (convertTo24Hour time) ->
        inFuture tz legacy now date (convertTo24Hour time) ->
        booked w date (convertTo24Hour time) = false -> message = slotAvailable).
Proof.
  intros Hd Ht. unfold checkAvailability.
  rewrite (truthy_nonempty date Hd), (truthy_nonempty time Ht). cbn [negb orb].
  rewrite isSlotBooked_settle. cbn [fst].
  set (t24 := convertTo24Hour time).
  set (wk := ge _ (Some 1) && le _ (Some 5)).
  set (bh := ge _ (Some 9) && lt _ (Some 18)).
  set (fu := gt _ (Some now)).
  assert (Hwk : wk = true <-> onWeekday tz legacy date) by apply weekday_flag.
  assert (Hbh : bh = true <-> inBusinessHours tz legacy date t24) by apply hours_flag.
  assert (Hfu : fu = true <-> inFuture tz legacy now date t24) by apply future_flag.
  do 7 eexists. split; [reflexivity|].
  rewrite <- Hwk, <- Hbh, <- Hfu.
  destruct wk, bh, fu, (booked w date t24); cbn;
    repeat split; try tauto; try congruence; intuition congruence.
Qed.

(** The theorem for Monday 2025-09-08 at "2:00 PM", asked in Noida against a
    store without bookings. *)
Lemma check_availability_verdict_witness :
  exists available,
    (available = true <->
     onWeekday 330 strict "2025-09-08" /\ inBusinessHours 330 strict "2025-09-08" "14:00"
     /\ inFuture 330 strict 0 "2025-09-08" "14:00" /\ booked start "2025-09-08" "14:00" = false).
Proof.
  destruct (check_availability_verdict 330 strict 0 "2025-09-08" "2:00 PM" start)
    as (available & _ & _ & _ & _ & _ & _ & _ & Hiff & _); [discriminate.. |].
  exists available. exact Hiff.
Defined.

(** *** The three conditions on a date and a time of the calendar *)

Lemma midnight_text (date : string) :
  date +:+ "T00:00:00" = date +:+ "T" +:+ time24 0 0 +:+ ":00".
Proof. reflexivity. Qed.

Lemma onWeekday_civil (tz : Z) (legacy : string -> jsnum) (y m d : Z) :
  zone tz -> civil y m d ->
  onWeekday tz legacy (isoDate y m d) <-> 1 <= dayOfWeekOf y m d <= 5.
Proof.
  intros Hz Hc. pose proof (civil_day y m d Hc) as Hd. destruct Hc as (Hy & Hm & _).
  unfold onWeekday. rewrite midnight_text, parse_local, getDay_midnight by (auto; lia).
  split.
  - intros (dow & [= <-] & H). exact H.
  - intros H. eexists. split; [reflexivity | exact H].
Qed.

Lemma inBusinessHours_civil (tz : Z) (legacy : string -> jsnum) (y m d h mi : Z) :
  zone tz -> civil y m d -> 0 <= h <= 23 -> 0 <= mi <= 59 ->
  inBusinessHours tz legacy (isoDate y m d) (time24 h mi) <-> 9 <= h < 18.
Proof.
  intros Hz Hc Hh Hmi. pose proof (civil_day y m d Hc) as Hd. destruct Hc as (Hy & Hm & _).
  unfold inBusinessHours. rewrite parse_local, getHours_instant by (auto; lia).
  split.
  - intros (hour & [= <-] & H). exact H.
  - intros H. eexists. split; [reflexivity | exact H].
Qed.

Lemma inFuture_civil (tz : Z) (legacy : string -> jsnum) (now y m d h mi : Z) :
  zone tz -> civil y m d -> 0 <= h <= 23 -> 0 <= mi <= 59 ->
  inFuture tz legacy now (isoDate y m d) (time24 h mi) <-> now < instant tz y m d h mi.
Proof.
  intros Hz Hc Hh Hmi. pose proof (civil_day y m d Hc) as Hd. destruct Hc as (Hy & Hm & _).
  unfold inFuture. rewrite parse_local by (auto; lia).
  split.
  - intros (t & [= <-] & H). exact H.
  - intros H. eexists. split; [reflexivity | exact H].
Qed.

(** Monday 2025-09-08 at 14:00, asked for as "14:00" and as "2:00 PM" before
    that instant, is available; the Sunday before is not. *)
Example check_availability_samples :
  fst (checkAvailability 330 strict 1757000000000 (Some "2025-09-08") (Some "14:00") start)
  = {| status := 200;
       body := Checked true slotAvailable "2025-09-08" "14:00" noidaTimezone
                 "9:00 AM - 6:00 PM (Monday-Friday)" (Some "Monday") (Some 14)
                 true true true |}
  /\ fst (checkAvailability 330 strict 1757000000000 (Some "2025-09-08") (Some "2:00 PM") start)
     = {| status := 200;
          body := Checked true slotAvailable "2025-09-08" "2:00 PM" noidaTimezone
                    "9:00 AM - 6:00 PM (Monday-Friday)" (Some "Monday") (Some 14)
                    true true true |}
  /\ fst (checkAvailability 330 strict 1757000000000 (Some "2025-09-07") (Some "20:00") start)
     = {| status := 200;
          body := Checked false weekdaysOnly "2025-09-07" "20:00" noidaTimezone
                    "9:00 AM - 6:00 PM (Monday-Friday)" (Some "Sunday") (Some 20)
                    false false true |}
  /\ fst (checkAvailability 330 strict 1757000000000 (Some "2025-09-09") (Some "10:00") reserved)
     = {| status := 200;
          body := Checked false alreadyBooked "2025-09-09" "10:00" noidaTimezone
                    "9:00 AM - 6:00 PM (Monday-Friday)" (Some "Tuesday") (Some 10)
                    true true true |}.
Proof. repeat split; vm_compute; reflexivity. Qed.

(** *** The slot listing *)

Lemma padStart_pad2 (n : Z) :
  0 <= n <= 99 -> padStart (numToString (Some n)) 2 "0" = pad2 n.
Proof.
  intros H. apply String.eqb_eq.
  apply (forallb_seqZ (fun n => String.eqb (padStart (numToString (Some n)) 2 "0") (pad2 n))
           0 100); [vm_compute; reflexivity | lia].
Qed.

Lemma slotAt_civil
  (tz : Z) (legacy : string -> jsnum) (now y m d h mi : Z) (w : World) :
  zone tz -> civil y m d -> 0 <= h <= 23 -> 0 <= mi <= 59 ->
  slotAt tz legacy now (isoDate y m d) (h, mi) w = (slotFor tz now y m d w (h, mi), settle w).
Proof.
  intros Hz Hc Hh Hmi. pose proof (civil_day y m d Hc) as Hd. destruct Hc as (Hy & Hm & _).
  unfold slotAt, slotFor.
  rewrite !padStart_pad2 by lia. fold (time24 h mi).
  rewrite parse_local by (auto; lia).
  rewrite isSlotBooked_settle. reflexivity.
Qed.

Lemma slotFor_settle (tz now y m d : Z) (w : World) (hm : Z * Z) :
  slotFor tz now y m d (settle w) hm = slotFor tz now y m d w hm.
Proof. destruct hm as [h mi]. unfold slotFor. rewrite booked_settle. reflexivity. Qed.

Lemma forEach_slotAt
  (tz : Z) (legacy : string -> jsnum) (now y m d : Z) (l : list (Z * Z)) (w : World) :
  zone tz -> civil y m d ->
  Forall (fun hm => 0 <= fst hm <= 23 /\ 0 <= snd hm <= 59) l ->
  forEach (slotAt tz legacy now (isoDate y m d)) l w
  = (slotFor tz now y m d w <$> l, match l with [] => w | _ => settle w end).
Proof.
  intros Hz Hc Hl. revert w. induction Hl as [|[h mi] l [Hh Hmi] Hl IH]; intros w.
  - reflexivity.
  - cbn [forEach]. rewrite slotAt_civil by assumption. rewrite IH.
    rewrite fmap_cons. f_equal.
    + f_equal. apply list_fmap_ext. intros _ hm _. apply slotFor_settle.
    + destruct l; [reflexivity | apply settle_idem].
Qed.

Lemma notAhead_zone (tz : Z) : notAheadOfNoida tz -> zone tz.
Proof. unfold notAheadOfNoida, zone, JSDate.kolkata. lia. Qed.

Lemma truthy_isoDate (y m d : Z) : truthy (Some (isoDate y m d)) = true.
Proof. reflexivity. Qed.

Lemma listing_dayOfWeek (tz : Z) (legacy : string -> jsnum) (y m d : Z) :
  notAheadOfNoida tz -> civil y m d ->
  JSDate.getDay tz (JSDate.relocate tz JSDate.kolkata
                      (JSDate.parse tz legacy (isoDate y m d +:+ "T00:00:00")))
  = Some (dayOfWeekOf y m d).
Proof.
  intros Hz Hc. pose proof (civil_day y m d Hc) as Hd. destruct Hc as (Hy & Hm & _).
  rewrite midnight_text, parse_local by (auto using notAhead_zone; lia).
  apply getDay_relocate; auto; lia.
Qed.





(** Where the host is ahead of Noida the listing reads the weekday of the day
    before: in Tokyo (UTC+9) Saturday 2025-09-06 is listed as a Friday, and
    Monday 2025-09-08 is refused as a Sunday. *)
Example listing_ahead_of_noida :
  (exists availableCount slots w',
      availableSlots 540 strict 0 (Some "2025-09-06") start
      = ({| status := 200;
            body := Listing "2025-09-06" noidaTimezone (Some "Friday")
                      "9:00 AM - 6:00 PM (Monday-Friday)" 18 availableCount slots |}, w'))
  /\ fst (availableSlots 540 strict 0 (Some "2025-09-08") start)
     = {| status := 200;
          body := Closed "2025-09-08" noidaTimezone (Some "Sunday") false weekdaysOnly [] |}.
Proof.
  split; [|vm_compute; reflexivity].
  destruct (availableSlots 540 strict 0 (Some "2025-09-06") start) as [r w'] eqn:E.
  vm_compute in E. injection E as <- <-. do 3 eexists. reflexivity.
Qed.

(** *** The booking handler *)

Lemma mails_reserve_nothing (date time : string) (rs : list EmailResult) :
  ~ In (AddBookedSlot date time)
      (map (fun r => match r with Result rcpt _ _ _ => SendMail rcpt end) rs).
Proof.
  intros ([rcpt ok err ty] & H & _)%in_map_iff. discriminate.
Qed.

Lemma createTeamsMeeting_returns
  (env : Env) (subject : string) (startTime endTime : Z) (attendees : list string)
  (organizer : string) :
  exists meeting,
    createTeamsMeeting env subject startTime endTime attendees organizer = Normal meeting.
Proof.
  unfold createTeamsMeeting.
  destruct (String.eqb (getAccessToken env) "mock-token"); [eexists; reflexivity|].
  destruct (getUser env _ _) as [userId|e]; [|eexists; reflexivity].
  repeat (destruct (postMeeting env _ _ _ _ _ _ _); [eexists; reflexivity|]).
  eexists. reflexivity.
Qed.

Lemma createTeamsMeeting_mock
  (env : Env) (subject : string) (startTime endTime : Z) (attendees : list string)
  (organizer : string) :
  (forall token user, exists e, getUser env token user = Throw e) ->
  createTeamsMeeting env subject startTime endTime attendees organizer
  = Normal (mockMeeting env startTime endTime organizer).
Proof.
  intros Hfail. unfold createTeamsMeeting.
  destruct (String.eqb (getAccessToken env) "mock-token"); [reflexivity|].
  destruct (Hfail (getAccessToken env) organizer) as [e ->]. reflexivity.
Qed.

(** The paths of the booking handler that end before it has a meeting, and
    the one that reserves. *)
Lemma booking_paths (env : Env) (now : Z) (req : Booking) (w : World) :
  let o := scheduleDiscoveryCall env now req w in
  (forall error selectedDate dayOfWeek,
      body (reply o) = NotAWeekday error selectedDate dayOfWeek ->
      status (reply o) = 400 /\ world o = w /\ effects o = [])
  /\ (forall error selectedTime hour businessHours,
      body (reply o) = OutsideBusinessHours error selectedTime hour businessHours ->
      status (reply o) = 400 /\ world o = w /\ effects o = [])
  /\ (forall error details, body (reply o) <> MeetingCreationFailed error details)
  /\ (forall date time,
      In (AddBookedSlot date time) (effects o) ->
      exists subject startTime endTime attendees organizer meeting rest,
        createTeamsMeeting env subject startTime endTime attendees organizer = Normal meeting
        /\ effects o = CreateTeamsMeeting subject startTime endTime attendees organizer
                       :: AddBookedSlot date time :: rest
        /\ ~ In (AddBookedSlot date time) rest
        /\ world o = snd (addBookedSlot now date time w))
  /\ (world o = w \/ exists date time, In (AddBookedSlot date time) (effects o)).
Proof.
  cbv zeta. unfold scheduleDiscoveryCall.
  destruct (selectedDate req) as [sd|], (selectedTime req) as [st|], (userDetails req) as [ud|];
    cbn [reply world effects body status];
    try (repeat split; intros; try discriminate; try contradiction; auto; fail).
  destruct (negb (truthy (Some sd)) || negb (truthy (Some st)) || negb (truthy _));
    cbn [reply world effects body status];
    [repeat split; intros; try discriminate; try contradiction; auto|].
  destruct (strictEq _ 0 || strictEq _ 6); cbn [reply world effects body status];
    [repeat split; intros; try discriminate; try contradiction; auto|].
  destruct (lt _ (Some 9) || ge _ (Some 18)); cbn [reply world effects body status];
    [repeat split; intros; try discriminate; try contradiction; auto|].
  destruct (JSDate.toISOString _) as [startTime|e]; cbn [reply world effects body status];
    [|repeat split; intros; try discriminate; try contradiction; auto].
  destruct (JSDate.toISOString (JSDate.TimeClip _)) as [endTime|e];
    cbn [reply world effects body status];
    [|repeat split; intros; try discriminate; try contradiction; auto].
  destruct (createTeamsMeeting env _ _ _ _ _) as [meeting|e] eqn:Ecreate;
    cbn [reply world effects body status].
  - destruct (addBookedSlot now sd (convertTo24Hour st) w) as [r w1] eqn:Eadd.
    cbn [reply world effects body status app].
    repeat split; intros; try discriminate.
    + destruct H as [H|[H|H]]; [discriminate | | destruct (mails_reserve_nothing _ _ _ H)].
      injection H as <- <-.
      do 7 eexists. split; [exact Ecreate|]. split; [reflexivity|].
      split; [apply mails_reserve_nothing | rewrite Eadd; reflexivity].
    + right. exists sd, (convertTo24Hour st). right. left. reflexivity.
  - exfalso.
    match type of Ecreate with
    | createTeamsMeeting _ ?s ?a ?b ?l ?o = _ =>
        destruct (createTeamsMeeting_returns env s a b l o) as [meeting Hm]
    end.
    congruence.
Qed.

(** C5, as the code has it.  A booking answered with the weekday error or
    the business-hours error has status 400, leaves the world as it was and
    has made no call at all.  [createTeamsMeeting] always returns a meeting:
    when the look-up of the organizer is refused it returns the mock meeting,
    so no booking is answered with the meeting-creation failure.
    [addBookedSlot] is called only right after a call of [createTeamsMeeting]
    that returned a meeting, and once; and the world changes in no other
    way. *)
Theorem booking_failures_reserve_nothing (env : Env) (now : Z) (req : Booking) (w : World) :
  let o := scheduleDiscoveryCall env now req w in
  (forall error selectedDate dayOfWeek,
      body (reply o) = NotAWeekday error selectedDate dayOfWeek ->
      status (reply o) = 400 /\ world o = w /\ effects o = [])
  /\ (forall error selectedTime hour businessHours,
      body (reply o) = OutsideBusinessHours error selectedTime hour businessHours ->
      status (reply o) = 400 /\ world o = w /\ effects o = [])
  /\ (forall subject startTime endTime attendees organizer,
      (exists meeting,
          createTeamsMeeting env subject startTime endTime attendees organizer
          = Normal meeting)
      /\ ((forall token user, exists e, getUser env token user = Throw e) ->
          createTeamsMeeting env subject startTime endTime attendees organizer
          = Normal (mockMeeting env startTime endTime organizer)))
  /\ (forall error details, body (reply o) <> MeetingCreationFailed error details)
  /\ (forall date time,
      In (AddBookedSlot date time) (effects o) ->
      exists subject startTime endTime attendees organizer meeting rest,
        createTeamsMeeting env subject startTime endTime attendees organizer = Normal meeting
        /\ effects o = CreateTeamsMeeting subject startTime endTime attendees organizer
                       :: AddBookedSlot date time :: rest
        /\ ~ In (AddBookedSlot date time) rest
        /\ world o = snd (addBookedSlot now date time w))
  /\ (world o = w \/ exists date time, In (AddBookedSlot date time) (effects o)).
Proof.
  cbv zeta. destruct (booking_paths env now req w) as (H1 & H2 & H3 & H4 & H5).
  split; [exact H1|]. split; [exact H2|]. split; [|split; [exact H3|split; [exact H4|exact H5]]].
  intros subject startTime endTime attendees organizer.
  split; [apply createTeamsMeeting_returns | apply createTeamsMeeting_mock].
Qed.

(** Against C5 as stated: with the Graph API refusing every request the
    creation of the meeting fails, yet the booking of the free slot Tuesday
    2025-09-09, 10:00 is answered with 200, with the mock meeting, and the
    slot is reserved. *)
Lemma failed_creation_is_reserved :
  (forall token user, exists e, getUser refused token user = Throw e)
  /\ (forall approach token user subject startTime endTime attendees,
         exists e,
           postMeeting refused approach token user subject startTime endTime attendees
           = Throw e)
  /\ booked start "2025-09-09" "10:00" = false
  /\ status (reply (scheduleDiscoveryCall refused 1 request start)) = 200
  /\ (exists sent results,
         body (reply (scheduleDiscoveryCall refused 1 request start))
         = Scheduled "Discovery call scheduled successfully"
             (mockMeeting refused 1757392200000 1757394000000 "admin@thrivebrands.ai")
             sent results)
  /\ In (AddBookedSlot "2025-09-09" "10:00")
        (effects (scheduleDiscoveryCall refused 1 request start))
  /\ booked (world (scheduleDiscoveryCall refused 1 request start)) "2025-09-09" "10:00"
     = true.
Proof.
  split; [intros; eexists; reflexivity|]. split; [intros; eexists; reflexivity|].
  split; [vm_compute; reflexivity|]. split; [vm_compute; reflexivity|].
  split; [do 2 eexists; vm_compute; reflexivity|].
  split; [vm_compute; tauto | vm_compute; reflexivity].
Qed.

(** C6, as the code has it.  The handler never asks the store: the reply and
    the calls made are the same whatever is booked, so a request for a booked
    slot is answered as if the slot were free.  Status 400 is given for
    missing fields, a weekend date or an hour outside business hours only. *)
Theorem booking_ignores_the_store (env : Env) (now : Z) (req : Booking) (w w' : World) :
  reply (scheduleDiscoveryCall env now req w) = reply (scheduleDiscoveryCall env now req w')
  /\ effects (scheduleDiscoveryCall env now req w)
     = effects (scheduleDiscoveryCall env now req w')
  /\ (status (reply (scheduleDiscoveryCall env now req w)) = 400 ->
      (exists required,
          body (reply (scheduleDiscoveryCall env now req w)) = MissingFields required)
      \/ (exists error selectedDate dayOfWeek,
          body (reply (scheduleDiscoveryCall env now req w))
          = NotAWeekday error selectedDate dayOfWeek)
      \/ (exists error selectedTime hour businessHours,
          body (reply (scheduleDiscoveryCall env now req w))
          = OutsideBusinessHours error selectedTime hour businessHours)).
Proof.
  unfold scheduleDiscoveryCall.
  destruct (selectedDate req) as [sd|], (selectedTime req) as [st|], (userDetails req) as [ud|];
    cbn [reply world effects body status]; try (repeat split; eauto; fail).
  destruct (negb (truthy (Some sd)) || negb (truthy (Some st)) || negb (truthy _));
    cbn [reply world effects body status]; [repeat split; eauto|].
  destruct (strictEq _ 0 || strictEq _ 6); cbn [reply world effects body status];
    [repeat split; eauto 7|].
  destruct (lt _ (Some 9) || ge _ (Some 18)); cbn [reply world effects body status];
    [repeat split; eauto 8|].
  destruct (JSDate.toISOString _) as [startTime|e]; cbn [reply world effects body status];
    [|repeat split; intros; discriminate].
  destruct (JSDate.toISOString (JSDate.TimeClip _)) as [endTime|e];
    cbn [reply world effects body status]; [|repeat split; intros; discriminate].
  destruct (createTeamsMeeting env _ _ _ _ _) as [meeting|e];
    cbn [reply world effects body status]; [|repeat split; intros; discriminate].
  destruct (addBookedSlot now sd (convertTo24Hour st) w) as [r w1].
  destruct (addBookedSlot now sd (convertTo24Hour st) w') as [r' w1'].
  cbn [reply world effects body status]. repeat split; intros; discriminate.
Qed.

Lemma orElse_truthy (a : option string) (s : string) :
  s <> EmptyString -> truthy (orElse a (Some s)) = true.
Proof.
  intros Hs. unfold orElse. destruct (truthy a) eqn:E; [exact E|].
  apply truthy_nonempty, Hs.
Qed.

Lemma truthy_time24 (h mi : Z) : truthy (Some (time24 h mi)) = true.
Proof. reflexivity. Qed.

(** What the booking handler does with a date and a time of the calendar. *)
Lemma booking_of_civil_request
  (env : Env) (now y m d h mi : Z) (ud : UserDetails) (guests : list string) (w : World) :
  zone (tz env) -> civil y m d -> 0 <= h <= 23 -> 0 <= mi <= 59 ->
  let req := {| selectedDate := Some (isoDate y m d); selectedTime := Some (time24 h mi);
                userDetails := Some ud; guestEmails := Some guests;
                organizerEmail := None |} in
  let o := scheduleDiscoveryCall env now req w in
  let organizer := interpolate (orElse (ORGANIZER_EMAIL env) (Some "admin@thrivebrands.ai")) in
  let begins := instant JSDate.kolkata y m d h mi in
  (dayOfWeekOf y m d = 0 \/ dayOfWeekOf y m d = 6 ->
   exists name, reply o = {| status := 400;
                             body := NotAWeekday weekdaysOnly (isoDate y m d) name |})
  /\ (1 <= dayOfWeekOf y m d <= 5 -> ~ 9 <= h < 18 ->
      reply o = {| status := 400;
                   body := OutsideBusinessHours businessHoursOnly (time24 h mi) (Some h)
                             "9:00 AM - 6:00 PM (Asia/Kolkata timezone)" |})
  /\ (1 <= dayOfWeekOf y m d <= 5 -> 9 <= h < 18 ->
      match createTeamsMeeting env "Discovery Call - Thrive" begins (begins + 30 * 60000)
              (email ud :: guests) organizer with
      | Normal meeting =>
          status (reply o) = 200
          /\ world o = snd (addBookedSlot now (isoDate y m d) (time24 h mi) w)
      | Throw e =>
          reply o = {| status := 500;
                       body := MeetingCreationFailed "Failed to create Teams meeting"
                                 (message e) |}
          /\ world o = w
      end).
Proof.
  intros Hz Hc Hh Hmi. pose proof (civil_day y m d Hc) as Hd.
  pose proof Hc as (Hy & Hm & _).
  cbv zeta. unfold scheduleDiscoveryCall.
  cbn [selectedDate selectedTime userDetails guestEmails organizerEmail].
  rewrite truthy_isoDate, truthy_time24, orElse_truthy by discriminate. cbn [negb orb].
  rewrite convertTo24Hour_24 by lia.
  rewrite midnight_text, !parse_local, getDay_midnight, getHours_instant by (auto; lia).
  rewrite parse_noida by (auto; lia).
  unfold strictEq, lt, ge, le.
  repeat split.
  - intros Hw. replace ((dayOfWeekOf y m d =? 0) || (dayOfWeekOf y m d =? 6)) with true
      by (symmetry; apply orb_true_iff; rewrite !Z.eqb_eq; exact Hw).
    eexists. reflexivity.
  - intros Hw Hout.
    replace ((dayOfWeekOf y m d =? 0) || (dayOfWeekOf y m d =? 6)) with false
      by (symmetry; apply orb_false_iff; split; apply Z.eqb_neq; lia).
    replace ((h <? 9) || (18 <=? h)) with true
      by (symmetry; apply orb_true_iff; rewrite Z.ltb_lt, Z.leb_le; lia).
    reflexivity.
  - intros Hw Hin.
    replace ((dayOfWeekOf y m d =? 0) || (dayOfWeekOf y m d =? 6)) with false
      by (symmetry; apply orb_false_iff; split; apply Z.eqb_neq; lia).
    replace ((h <? 9) || (18 <=? h)) with false
      by (symmetry; apply orb_false_iff; rewrite Z.ltb_ge, Z.leb_gt; lia).
    cbn [JSDate.toISOString].
    assert (Hclip : JSDate.TimeClip (instant JSDate.kolkata y m d h mi + 30 * 60000)
                    = Some (instant JSDate.kolkata y m d h mi + 30 * 60000)).
    { unfold JSDate.TimeClip.
      pose proof (MakeDay_bounds y m d ltac:(lia) Hm Hd) as Hb.
      unfold instant, JSDate.UTC, JSDate.LocalTZA, JSDate.MakeDate, JSDate.MakeTime,
        JSDate.msPerDay, JSDate.msPerHour, JSDate.msPerMinute, JSDate.msPerSecond,
        JSDate.kolkata in *.
      destruct (Z.abs _ <=? _) eqn:E; [reflexivity|]. lia. }
    rewrite Hclip. cbn [JSDate.toISOString].
    destruct (createTeamsMeeting env _ _ _ _ _) as [meeting|e]; [|split; reflexivity].
    destruct (addBookedSlot now (isoDate y m d) (time24 h mi) w) as [r w1].
    split; reflexivity.
Qed.

(** Against C6 as stated: with Tuesday 2025-09-09, 10:00 booked, a request for
    that slot is answered with 200; the provider is called and creates a
    second meeting for the slot. *)
Lemma booked_slot_is_booked_again :
  booked reserved "2025-09-09" "10:00" = true
  /\ status (reply (scheduleDiscoveryCall working 1 request reserved)) = 200
  /\ head (effects (scheduleDiscoveryCall working 1 request reserved))
     = Some (CreateTeamsMeeting "Discovery Call - Thrive" 1757392200000 1757394000000
               ["john.doe@example.com"] "admin@thrivebrands.ai")
  /\ body (reply (scheduleDiscoveryCall working 1 request reserved))
     = Scheduled "Discovery call scheduled successfully" teamsMeeting true
         [Result "john.doe@example.com" true None None;
          Result "admin@thrivebrands.ai" true None (Some "organizer_notification")].
Proof. repeat split; vm_compute; reflexivity. Qed.

(** On a Sunday and outside the hours. *)
Example booking_samples :
  reply (scheduleDiscoveryCall working 1
           {| selectedDate := Some "2025-09-07"; selectedTime := Some "10:00";
              userDetails := Some caller; guestEmails := None; organizerEmail := None |}
           start)
  = {| status := 400; body := NotAWeekday weekdaysOnly "2025-09-07" (Some "Sunday") |}
  /\ reply (scheduleDiscoveryCall working 1
              {| selectedDate := Some "2025-09-09"; selectedTime := Some "6:00 PM";
                 userDetails := Some caller; guestEmails := None; organizerEmail := None |}
              start)
     = {| status := 400;
          body := OutsideBusinessHours businessHoursOnly "6:00 PM" (Some 18)
                    "9:00 AM - 6:00 PM (Asia/Kolkata timezone)" |}.
Proof. repeat split; vm_compute; reflexivity. Qed.

End ApiFacts.

(** ** The store: listing, release and round trips *)

Module ReadsFacts.
Import JS Store Samples StoreFacts Reads.

Lemma find_matches_time (d t : string) (l : list BookedSlot) :
  List.find (matches d t) l <> None
  <-> In t (map time (filter (fun doc => String.eqb (date doc) d = true) l)).
Proof.
  induction l as [|x l IH]; simpl.
  - split; [congruence | intros []].
  - rewrite filter_cons.
    destruct (decide (String.eqb (date x) d = true)) as [Hd|Hd]; unfold matches at 1.
    + rewrite Hd. simpl. destruct (String.eqb (time x) t) eqn:Et.
      * apply String.eqb_eq in Et. split; [auto | congruence].
      * apply String.eqb_neq in Et. rewrite IH. split; [auto | intros [H|H]; congruence].
    + apply not_true_is_false in Hd. rewrite Hd. simpl. exact IH.
Qed.

Lemma getBookedSlots_booked (d t : string) (w : World) :
  In t (fst (getBookedSlots d w)) <-> booked w d t = true.
Proof.
  unfold getBookedSlots, booked, isSlotBooked, find.
  destruct (bookedSlotsCollection w) as [c|]; cbn [fst].
  - unfold findOne. rewrite <- find_matches_time.
    destruct (List.find (matches d t) (docs c)); split; congruence.
  - destruct (ensureMap w !! d) as [s|]; [|split; [intros [] | discriminate]].
    rewrite <- list_elem_of_In, elem_of_elements, bool_decide_eq_true. reflexivity.
Qed.

Lemma getBookedSlots_settle (d : string) (w : World) : snd (getBookedSlots d w) = settle w.
Proof.
  unfold getBookedSlots, settle. destruct (bookedSlotsCollection w); reflexivity.
Qed.

(** [getBookedSlots] and [isSlotBooked] read the same store: a time is among
    the times listed for a date exactly when the slot is booked, and listing
    changes no answer of either. *)
Theorem listed_iff_booked (d t : string) (w : World) :
  (In t (fst (getBookedSlots d w)) <-> booked w d t = true)
  /\ (forall d' t', booked (snd (getBookedSlots d w)) d' t' = booked w d' t')
  /\ (forall d', fst (getBookedSlots d' (snd (getBookedSlots d w)))
                 = fst (getBookedSlots d' w)).
Proof.
  split; [apply getBookedSlots_booked|]. rewrite getBookedSlots_settle. split.
  - intros d' t'. apply booked_settle.
  - intros d'. unfold getBookedSlots, settle.
    destruct (bookedSlotsCollection w) as [c|] eqn:Ec; [rewrite Ec; reflexivity|].
    cbn [bookedSlotsCollection setBookedSlots]. rewrite Ec. reflexivity.
Qed.

Lemma distinct_times (d : string) (l : list BookedSlot) :
  distinctKeys l = true ->
  NoDup (map time (filter (fun doc => String.eqb (date doc) d = true) l)).
Proof.
  induction l as [|x l IH]; simpl; [constructor|].
  intros [Hx Hl]%andb_true_iff. rewrite filter_cons.
  destruct (decide (String.eqb (date x) d = true)) as [Hd|Hd]; [|exact (IH Hl)].
  simpl. apply NoDup_cons. split; [|exact (IH Hl)].
  rewrite list_elem_of_In. intros Hin. apply String.eqb_eq in Hd. subst d.
  apply find_matches_time in Hin. apply negb_true_iff in Hx.
  destruct (List.find (matches (date x) (time x)) l) as [y|] eqn:Ef; [|congruence].
  apply find_some in Ef as [Hy Hm].
  assert (existsb (matches (date x) (time x)) l = true)
    by (apply existsb_exists; eauto).
  congruence.
Qed.

(** In a sound store no time is listed twice. *)
Theorem listed_once (d : string) (w : World) :
  sound w -> NoDup (fst (getBookedSlots d w)).
Proof.
  unfold sound, getBookedSlots, find. destruct (bookedSlotsCollection w) as [c|]; cbn [fst].
  - intros [_ Hd]. apply distinct_times, Hd.
  - intros _. destruct (ensureMap w !! d); [apply NoDup_elements | constructor].
Qed.

Lemma listed_once_witness : NoDup (fst (getBookedSlots "2025-09-09" reserved)).
Proof. apply (listed_once "2025-09-09" reserved). split; reflexivity. Defined.

Lemma removeFirst_gone (d t : string) (l : list BookedSlot) :
  distinctKeys l = true -> existsb (matches d t) (removeFirst (matches d t) l) = false.
Proof.
  induction l as [|x l IH]; simpl; [reflexivity|].
  intros [Hx Hl]%andb_true_iff. destruct (matches d t x) eqn:Em.
  - apply matches_key in Em. unfold key in Em. injection Em as <- <-.
    apply negb_true_iff, Hx.
  - simpl. rewrite Em. apply IH, Hl.
Qed.

Lemma find_existsb (p : BookedSlot -> bool) (l : list BookedSlot) :
  existsb p l = false -> List.find p l = None.
Proof.
  induction l as [|x l IH]; simpl; [reflexivity|].
  destruct (p x); simpl; [discriminate | exact IH].
Qed.

Lemma booked_after_remove (d t : string) (w : World) :
  sound w -> booked (snd (removeBookedSlot d t w)) d t = false.
Proof.
  unfold sound, booked, isSlotBooked, removeBookedSlot.
  destruct (bookedSlotsCollection w) as [c|] eqn:Ec.
  - intros [_ Hd]. simpl. unfold findOne. simpl.
    rewrite find_existsb; [reflexivity | apply removeFirst_gone, Hd].
  - intros _. unfold ensureMap. destruct (bookedSlots w) as [m|] eqn:Eg; simpl.
    + destruct (m !! d) as [s|] eqn:Em; simpl; rewrite Ec; simpl; rewrite ?Eg.
      * rewrite lookup_alter_eq, Em. simpl. apply bool_decide_eq_false.
        rewrite elem_of_difference, elem_of_singleton. tauto.
      * rewrite Em. reflexivity.
    + rewrite Ec, Eg. reflexivity.
Qed.

(** In a store that is sound, a release frees the slot and no other, leaves
    the store sound, and a second release of the same slot changes no
    answer. *)
Theorem release_frees (d t : string) (w : World) :
  sound w ->
  booked (snd (removeBookedSlot d t w)) d t = false
  /\ (forall d' t', (d, t) <> (d', t') ->
        booked (snd (removeBookedSlot d t w)) d' t' = booked w d' t')
  /\ sound (snd (removeBookedSlot d t w))
  /\ (forall d' t',
        booked (snd (removeBookedSlot d t (snd (removeBookedSlot d t w)))) d' t'
        = booked (snd (removeBookedSlot d t w)) d' t').
Proof.
  intros Hs. pose proof (sound_run (Release d t) w Hs) as Hs'. cbn [run] in Hs'.
  split; [apply booked_after_remove, Hs|]. split; [|split; [exact Hs'|]].
  - intros d' t' Hne. apply booked_remove_other, Hne.
  - intros d' t'. destruct (decide ((d, t) = (d', t'))) as [[= <- <-] | Hne].
    + rewrite !booked_after_remove by assumption. reflexivity.
    + apply booked_remove_other, Hne.
Qed.

Lemma release_frees_witness :
  booked (snd (removeBookedSlot "2025-09-09" "10:00" reserved)) "2025-09-09" "10:00" = false.
Proof.
  destruct (release_frees "2025-09-09" "10:00" reserved) as [H _]; [split; reflexivity|].
  exact H.
Defined.

End ReadsFacts.

(** ** The store: what an operation changes *)

Module StoreChanges.
Import JS Store Samples StoreFacts Reads ReadsFacts.

Lemma booked_view (w w' : World) (d t : string) :
  view w = view w' -> booked w d t = booked w' d t.
Proof.
  unfold view, booked, isSlotBooked. intros [= Hc Hm]. rewrite Hc.
  destruct (bookedSlotsCollection w'); cbn [fst]; [reflexivity|].
  rewrite Hm. reflexivity.
Qed.

Lemma view_log (l : LogLine) (w : World) : view (log l w) = view w.
Proof. reflexivity. Qed.

Lemma view_query (d t : string) (w : World) : view (run (Query d t) w) = view w.
Proof.
  unfold run, isSlotBooked, view. destruct (bookedSlotsCollection w) eqn:E; simpl; rewrite E;
    reflexivity.
Qed.

Lemma removeBookedSlot_view (d t : string) (w : World) :
  view (snd (removeBookedSlot d t w))
  = (option_map (fun c => deleteOne c d t) (bookedSlotsCollection w),
     match bookedSlotsCollection w with
     | Some _ => ensureMap w
     | None => alter (fun s => s ∖ {[t]}) d (ensureMap w)
     end).
Proof.
  unfold removeBookedSlot, view. destruct (bookedSlotsCollection w) as [c|] eqn:Ec; simpl.
  - reflexivity.
  - unfold ensureMap. destruct (bookedSlots w) as [m|] eqn:Em; simpl.
    + destruct (m !! d) as [s|] eqn:Ed; simpl; rewrite Ec; simpl; rewrite ?Em; [reflexivity|].
      apply (f_equal (pair None)). symmetry. apply map_eq. intros k. destruct (decide (d = k)) as [<-|Hk].
      * rewrite lookup_alter_eq, Ed. reflexivity.
      * rewrite lookup_alter_ne by exact Hk. reflexivity.
    + rewrite Ec, Em. apply (f_equal (pair None)). symmetry. apply map_eq. intros k.
      destruct (decide (d = k)) as [<-|Hk].
      * rewrite lookup_alter_eq, lookup_empty. reflexivity.
      * rewrite lookup_alter_ne by exact Hk. reflexivity.
Qed.

Lemma addBookedSlot_view (now : Z) (d t : string) (w : World) :
  view (snd (addBookedSlot now d t w))
  = match bookedSlotsCollection w with
    | Some c =>
        (Some (match insertOne c {| date := d; time := t; createdAt := now;
                                    updatedAt := now |} with
               | Normal c' => c'
               | Throw _ => c
               end), ensureMap w)
    | None =>
        (None, alter (fun s => {[t]} ∪ s) d
                 (match ensureMap w !! d with
                  | Some _ => ensureMap w
                  | None => <[d := ∅]> (ensureMap w)
                  end))
    end.
Proof.
  unfold addBookedSlot, view. destruct (bookedSlotsCollection w) as [c|] eqn:Ec.
  - destruct (insertOne c _); simpl; rewrite ?Ec; reflexivity.
  - simpl. rewrite Ec. reflexivity.
Qed.

Lemma run_view (o : op) (w w' : World) : view w = view w' -> view (run o w) = view (run o w').
Proof.
  intros H. destruct o as [now d t|d t|d t].
  - unfold run. rewrite !addBookedSlot_view. injection H as Hc Hm. rewrite Hc, Hm. reflexivity.
  - unfold run. rewrite !removeBookedSlot_view. injection H as Hc Hm. rewrite Hc, Hm.
    reflexivity.
  - rewrite !view_query. exact H.
Qed.

Lemma runAll_updates (os : list op) (w w' : World) :
  view w = view w' -> view (runAll os w) = view (runAll (updates os) w').
Proof.
  unfold runAll, updates. revert w w'. induction os as [|o os IH]; intros w w' H; simpl.
  - exact H.
  - rewrite filter_cons. destruct (decide (isQuery o = false)) as [Hq|Hq].
    + simpl. apply IH, run_view, H.
    + destruct o as [now d t|d t|d t]; try (exfalso; apply Hq; reflexivity).
      apply IH. rewrite view_query. exact H.
Qed.

(** Queries never change what the store answers: wherever they stand in a
    sequence of operations, the answers at the end are those of the sequence
    without them. *)
Theorem queries_change_no_answer (os : list op) (w : World) (d t : string) :
  booked (runAll os w) d t = booked (runAll (updates os) w) d t.
Proof. apply booked_view, runAll_updates. reflexivity. Qed.

Lemma removeFirst_snoc_fresh (p : BookedSlot -> bool) (l : list BookedSlot) (x : BookedSlot) :
  existsb p l = false -> p x = true -> removeFirst p (l ++ [x]) = l.
Proof.
  intros Hl Hx. induction l as [|a l IH]; simpl.
  - rewrite Hx. reflexivity.
  - simpl in Hl. apply orb_false_iff in Hl as [Ha Hl]. rewrite Ha. f_equal. apply IH, Hl.
Qed.

Lemma find_none_existsb (p : BookedSlot -> bool) (l : list BookedSlot) :
  List.find p l = None -> existsb p l = false.
Proof.
  induction l as [|x l IH]; simpl; [reflexivity|].
  destruct (p x); simpl; [discriminate | exact IH].
Qed.

Lemma booked_by_view (w : World) (d t : string) :
  booked w d t
  = match view w with
    | (Some c, _) => match findOne c d t with Some _ => true | None => false end
    | (None, m) => match m !! d with Some s => bool_decide (t ∈ s) | None => false end
    end.
Proof.
  unfold booked, isSlotBooked, view. destruct (bookedSlotsCollection w); reflexivity.
Qed.

(** Reserving a free slot and releasing it again gives back the answers the
    store gave before, for every slot. *)
Theorem reserve_release_round_trip (now : Z) (d t d' t' : string) (w : World) :
  booked w d t = false ->
  booked (snd (removeBookedSlot d t (snd (addBookedSlot now d t w)))) d' t' = booked w d' t'.
Proof.
  intros Hfree. destruct (decide ((d, t) = (d', t'))) as [[= <- <-]|Hne].
  - rewrite Hfree. rewrite booked_by_view, removeBookedSlot_view.
    pose proof (addBookedSlot_view now d t w) as Hv. unfold view in Hv at 1.
    rewrite booked_by_view in Hfree. unfold view in Hfree.
    destruct (bookedSlotsCollection w) as [c|] eqn:Ec; injection Hv as Hc Hm; rewrite Hc, Hm;
      cbn [option_map].
    + unfold findOne in *.
      destruct (List.find (matches d t) (docs c)) eqn:Ef; [discriminate|].
      apply find_none_existsb in Ef.
      unfold insertOne. cbn [date time]. rewrite Ef, andb_false_r. cbn [deleteOne docs].
      rewrite removeFirst_snoc_fresh;
        [ | exact Ef
          | apply (matches_self {| date := d; time := t; createdAt := now; updatedAt := now |})].
      rewrite find_existsb by exact Ef. reflexivity.
    + rewrite !lookup_alter_eq.
      destruct (ensureMap w !! d) as [s|] eqn:Em.
      * rewrite Em. simpl. apply bool_decide_eq_false.
        rewrite elem_of_difference, elem_of_singleton. tauto.
      * rewrite lookup_insert_eq. simpl. apply bool_decide_eq_false.
        rewrite elem_of_difference, elem_of_singleton. tauto.
  - rewrite booked_remove_other, booked_add_other by exact Hne. reflexivity.
Qed.

Lemma reserve_release_round_trip_witness :
  booked (snd (removeBookedSlot "2025-09-09" "11:00"
                 (snd (addBookedSlot 5 "2025-09-09" "11:00" reserved))))
    "2025-09-09" "10:00"
  = booked reserved "2025-09-09" "10:00".
Proof.
  apply (reserve_release_round_trip 5 "2025-09-09" "11:00" "2025-09-09" "10:00" reserved).
  reflexivity.
Defined.

Lemma alter_add_member (m : gmap string (gset string)) (d t : string) (s : gset string) :
  m !! d = Some s -> t ∈ s -> alter (fun s => {[t]} ∪ s) d m = m.
Proof.
  intros Hm Ht. apply map_eq. intros k. destruct (decide (d = k)) as [<-|Hk].
  - rewrite lookup_alter_eq, Hm. simpl. f_equal. apply leibniz_equiv. intros x.
    rewrite elem_of_union, elem_of_singleton. split; [intros [->|H]; assumption | auto].
  - rewrite lookup_alter_ne by exact Hk. reflexivity.
Qed.

(** In a sound store, reserving a slot that is booked leaves the stored data
    as it is: only a line is written to the console. *)
Theorem reserve_of_booked_keeps_data (now : Z) (d t : string) (w : World) :
  sound w -> booked w d t = true -> view (snd (addBookedSlot now d t w)) = view w.
Proof.
  unfold sound, booked, isSlotBooked. rewrite addBookedSlot_view. unfold view.
  destruct (bookedSlotsCollection w) as [c|]; cbn [fst].
  - intros [Hu _] Hb. unfold insertOne, findOne in *. cbn [date time]. rewrite Hu. simpl.
    destruct (List.find (matches d t) (docs c)) as [x|] eqn:Ef; [|discriminate].
    apply find_some in Ef as [Hin Hx].
    assert (H : existsb (matches d t) (docs c) = true) by (apply existsb_exists; eauto).
    rewrite H. reflexivity.
  - intros _ Hb. destruct (ensureMap w !! d) as [s|] eqn:Em; [|discriminate].
    apply bool_decide_eq_true in Hb. f_equal. apply (alter_add_member _ _ _ s); assumption.
Qed.

Lemma reserve_of_booked_keeps_data_witness :
  view (snd (addBookedSlot 7 "2025-09-09" "10:00" reserved)) = view reserved.
Proof.
  apply (reserve_of_booked_keeps_data 7 "2025-09-09" "10:00" reserved);
    [split; reflexivity | reflexivity].
Defined.

End StoreChanges.

(** ** Start-up against a collection with collisions *)

Module StartupFacts.
Import JS Store Samples StoreFacts Reads ReadsFacts StoreChanges Cases.

Lemma count_snoc (d t : string) (l : list BookedSlot) (x : BookedSlot) :
  matches d t x = true ->
  length (filter (fun doc => matches d t doc = true) (l ++ [x])%list)
  = S (length (filter (fun doc => matches d t doc = true) l)).
Proof.
  intros Hx. rewrite filter_app, length_app, filter_cons, decide_True by exact Hx.
  simpl. lia.
Qed.

Lemma add_without_index (now : Z) (d t : string) (w : World) (c : Collection) :
  bookedSlotsCollection w = Some c -> uniqueDateTime c = false ->
  bookedSlotsCollection (snd (addBookedSlot now d t w))
  = Some {| docs := (docs c ++ [{| date := d; time := t; createdAt := now;
                                   updatedAt := now |}])%list;
            uniqueDateTime := false |}.
Proof.
  intros Hc Hu. unfold addBookedSlot, insertOne. rewrite Hc, Hu. reflexivity.
Qed.

Lemma existsb_removeFirst_two (p : BookedSlot -> bool) (l : list BookedSlot)
  (x y : BookedSlot) :
  p x = true -> p y = true -> existsb p (removeFirst p ((l ++ [x]) ++ [y])%list) = true.
Proof.
  intros Hx Hy. induction l as [|a l IH]; simpl.
  - rewrite Hx. simpl. rewrite Hy. reflexivity.
  - destruct (p a) eqn:Ea.
    + rewrite !existsb_app. simpl. rewrite Hx. apply orb_true_iff. left.
      apply orb_true_iff. right. reflexivity.
    + simpl. rewrite Ea. exact IH.
Qed.

(** When the collection already holds colliding documents, the index cannot
    be built: the console announces the fallback, yet the collection stays in
    use, without the index.  A slot reserved twice is then recorded twice, and
    one release does not free it. *)
Theorem failed_index_keeps_the_collection (srv : Server) (now now' : Z) (d t : string) :
  accepts srv = true -> uniqueDateTime (stored srv) = false ->
  distinctKeys (docs (stored srv)) = false ->
  bookedSlotsCollection (connectToMongoDB srv start) = Some (stored srv)
  /\ last (console (connectToMongoDB srv start)) = Some FallingBack
  /\ records (snd (addBookedSlot now' d t
                     (snd (addBookedSlot now d t (connectToMongoDB srv start))))) d t
     = (2 + records (connectToMongoDB srv start) d t)%nat
  /\ booked (snd (removeBookedSlot d t
                    (snd (addBookedSlot now' d t
                            (snd (addBookedSlot now d t (connectToMongoDB srv start)))))))
       d t = true.
Proof.
  intros Ha Hu Hd.
  assert (Hc : bookedSlotsCollection (connectToMongoDB srv start) = Some (stored srv))
    by (unfold connectToMongoDB, createIndex; rewrite Ha, Hd; reflexivity).
  assert (Hl : last (console (connectToMongoDB srv start)) = Some FallingBack)
    by (unfold connectToMongoDB, createIndex; rewrite Ha, Hd; reflexivity).
  split; [exact Hc|]. split; [exact Hl|].
  generalize dependent (connectToMongoDB srv start). intros w Hc _.
  assert (Hx : forall n, matches d t {| date := d; time := t; createdAt := n; updatedAt := n |}
                         = true)
    by (intros n; apply (matches_self {| date := d; time := t; createdAt := n;
                                         updatedAt := n |})).
  pose proof (add_without_index now d t w _ Hc Hu) as H1.
  pose proof (add_without_index now' d t _ _ H1 eq_refl) as H2. simpl in H2.
  split.
  - unfold records at 1. rewrite H2. unfold records. rewrite Hc. simpl.
    rewrite !count_snoc by apply Hx. reflexivity.
  - unfold booked, isSlotBooked, removeBookedSlot. rewrite H2. simpl.
    unfold findOne, deleteOne. simpl.
    destruct (List.find _ _) eqn:Ef; [reflexivity|]. exfalso.
    apply find_none_existsb in Ef.
    rewrite existsb_removeFirst_two in Ef by apply Hx. discriminate.
Qed.

Lemma failed_index_keeps_the_collection_witness :
  bookedSlotsCollection (connectToMongoDB collided start) = Some (stored collided)
  /\ last (console (connectToMongoDB collided start)) = Some FallingBack.
Proof.
  destruct (failed_index_keeps_the_collection collided 3 4 "2025-09-10" "11:00")
    as (H1 & H2 & _); [reflexivity.. |].
  split; assumption.
Defined.

End StartupFacts.

(** ** The two implementations of the store *)

Module StoreAgreement.
Import JS Store Samples StoreFacts Reads ReadsFacts StoreChanges.

Lemma run_answers (o : op) (w1 w2 : World) :
  sound w1 -> sound w2 -> (forall d t, booked w1 d t = booked w2 d t) ->
  forall d t, booked (run o w1) d t = booked (run o w2) d t.
Proof.
  intros H1 H2 Hsame d t. destruct o as [now d0 t0 | d0 t0 | d0 t0]; cbn [run].
  - destruct (decide ((d0, t0) = (d, t))) as [[= <- <-] | Hne].
    + rewrite !booked_after_add. reflexivity.
    + rewrite !booked_add_other by exact Hne. apply Hsame.
  - destruct (decide ((d0, t0) = (d, t))) as [[= <- <-] | Hne].
    + rewrite !booked_after_remove by assumption. reflexivity.
    + rewrite !booked_remove_other by exact Hne. apply Hsame.
  - rewrite !isSlotBooked_settle. cbn [snd]. rewrite !booked_settle. apply Hsame.
Qed.

(** What a sound store answers after any sequence of reserves, releases and
    queries depends only on what it answered before: two sound stores that
    agree on every slot, one in the collection with its index and one in the
    in-memory fallback for instance, agree on every slot after the same
    operations. *)
Theorem stores_answer_alike (os : list op) (w1 w2 : World) :
  sound w1 -> sound w2 -> (forall d t, booked w1 d t = booked w2 d t) ->
  forall d t, booked (runAll os w1) d t = booked (runAll os w2) d t.
Proof.
  unfold runAll. revert w1 w2. induction os as [|o os IH]; intros w1 w2 H1 H2 Hsame.
  - exact Hsame.
  - cbn [fold_left]. apply IH.
    + apply sound_run, H1.
    + apply sound_run, H2.
    + apply run_answers; assumption.
Qed.

(** The collection of [connected] against the fallback of [start]. *)
Lemma stores_answer_alike_witness :
  booked (runAll [Reserve 1 "2025-09-09" "10:00"; Release "2025-09-09" "10:00";
                  Reserve 2 "2025-09-10" "11:30"] connected) "2025-09-10" "11:30"
  = booked (runAll [Reserve 1 "2025-09-09" "10:00"; Release "2025-09-09" "10:00";
                    Reserve 2 "2025-09-10" "11:30"] start) "2025-09-10" "11:30".
Proof.
  apply (stores_answer_alike _ connected start).
  - split; reflexivity.
  - exact I.
  - intros d t. reflexivity.
Defined.

End StoreAgreement.

(** ** The two queries *)

Module QueryFacts.
Import JS Api Samples StoreFacts DateFacts NormaliserFacts ApiFacts Reads ReadsFacts StoreChanges.

Lemma records_settle (w : World) (d t : string) : records (settle w) d t = records w d t.
Proof.
  unfold records, settle. destruct (bookedSlotsCollection w) eqn:E; [rewrite E; reflexivity|].
  cbn [bookedSlotsCollection setBookedSlots]. rewrite E. reflexivity.
Qed.

Lemma checkAvailability_world
  (tz : Z) (legacy : string -> jsnum) (now : Z) (date time : option string) (w : World) :
  snd (checkAvailability tz legacy now date time w) = w
  \/ snd (checkAvailability tz legacy now date time w) = settle w.
Proof.
  unfold checkAvailability. destruct date as [date|], time as [time|]; auto.
  destruct (negb (truthy (Some date)) || negb (truthy (Some time))); auto.
  rewrite isSlotBooked_settle. right. reflexivity.
Qed.

Lemma checkAvailability_settle
  (tz : Z) (legacy : string -> jsnum) (now : Z) (date time : option string) (w : World) :
  fst (checkAvailability tz legacy now date time (settle w))
  = fst (checkAvailability tz legacy now date time w).
Proof.
  unfold checkAvailability. destruct date as [date|], time as [time|]; auto.
  destruct (negb (truthy (Some date)) || negb (truthy (Some time))); auto.
  rewrite !isSlotBooked_settle, booked_settle. reflexivity.
Qed.

Lemma slotAt_settle
  (tz : Z) (legacy : string -> jsnum) (now : Z) (date : string) (hm : Z * Z) (w : World) :
  slotAt tz legacy now date hm w = (fst (slotAt tz legacy now date hm w), settle w)
  /\ fst (slotAt tz legacy now date hm (settle w)) = fst (slotAt tz legacy now date hm w).
Proof.
  destruct hm as [h mi]. unfold slotAt.
  rewrite !isSlotBooked_settle, booked_settle. split; reflexivity.
Qed.

Lemma forEach_slotAt_any
  (tz : Z) (legacy : string -> jsnum) (now : Z) (date : string) (l : list (Z * Z))
  (w : World) :
  forEach (slotAt tz legacy now date) l w
  = (map (fun hm => fst (slotAt tz legacy now date hm w)) l,
     match l with [] => w | _ => settle w end).
Proof.
  revert w. induction l as [|hm l IH]; intros w; [reflexivity|].
  cbn [forEach]. destruct (slotAt_settle tz legacy now date hm w) as [-> _].
  rewrite IH. cbn [map]. f_equal.
  - f_equal. apply map_ext. intros hm'. apply slotAt_settle.
  - destruct l; [reflexivity | apply settle_idem].
Qed.

Lemma availableSlots_world
  (tz : Z) (legacy : string -> jsnum) (now : Z) (date : option string) (w : World) :
  snd (availableSlots tz legacy now date w) = w
  \/ snd (availableSlots tz legacy now date w) = settle w.
Proof.
  unfold availableSlots. destruct date as [date|]; auto.
  destruct (negb (truthy (Some date))); auto.
  destruct (strictEq _ 0 || strictEq _ 6); auto.
  rewrite forEach_slotAt_any. right. reflexivity.
Qed.

Lemma availableSlots_settle
  (tz : Z) (legacy : string -> jsnum) (now : Z) (date : option string) (w : World) :
  fst (availableSlots tz legacy now date (settle w))
  = fst (availableSlots tz legacy now date w).
Proof.
  unfold availableSlots. destruct date as [date|]; auto.
  destruct (negb (truthy (Some date))); auto.
  destruct (strictEq _ 0 || strictEq _ 6); auto.
  rewrite !forEach_slotAt_any.
  assert (E : map (fun hm => fst (slotAt tz legacy now date hm (settle w)))
                (hour ← countUp 9 18 1; minute ← countUp 0 60 30; [(hour, minute)])
              = map (fun hm => fst (slotAt tz legacy now date hm w))
                  (hour ← countUp 9 18 1; minute ← countUp 0 60 30; [(hour, minute)]))
    by (apply map_ext; intros hm; apply slotAt_settle).
  cbn [fst]. rewrite E. reflexivity.
Qed.

(** An availability query only reads: whatever was asked and whatever the
    answer, the store holds the same bookings and records afterwards, and any
    later availability query or slot listing is answered as if the query had
    not been made. *)
Theorem check_availability_only_reads
  (tz : Z) (legacy : string -> jsnum) (now : Z) (date time : option string) (w : World) :
  (forall d t, booked (snd (checkAvailability tz legacy now date time w)) d t = booked w d t)
  /\ (forall d t, records (snd (checkAvailability tz legacy now date time w)) d t
                  = records w d t)
  /\ (forall tz' legacy' now' date' time',
         fst (checkAvailability tz' legacy' now' date' time'
                (snd (checkAvailability tz legacy now date time w)))
         = fst (checkAvailability tz' legacy' now' date' time' w))
  /\ (forall tz' legacy' now' date',
         fst (availableSlots tz' legacy' now' date'
                (snd (checkAvailability tz legacy now date time w)))
         = fst (availableSlots tz' legacy' now' date' w)).
Proof.
  destruct (checkAvailability_world tz legacy now date time w) as [-> | ->].
  - repeat split.
  - repeat split; intros.
    + apply booked_settle.
    + apply records_settle.
    + apply checkAvailability_settle.
    + apply availableSlots_settle.
Qed.

(** The slot listing only reads as well: after it the store holds the same
    bookings and records, and later listings and availability queries are
    answered as if it had not been made. *)
Theorem available_slots_only_reads
  (tz : Z) (legacy : string -> jsnum) (now : Z) (date : option string) (w : World) :
  (forall d t, booked (snd (availableSlots tz legacy now date w)) d t = booked w d t)
  /\ (forall d t, records (snd (availableSlots tz legacy now date w)) d t = records w d t)
  /\ (forall tz' legacy' now' date',
         fst (availableSlots tz' legacy' now' date'
                (snd (availableSlots tz legacy now date w)))
         = fst (availableSlots tz' legacy' now' date' w))
  /\ (forall tz' legacy' now' date' time',
         fst (checkAvailability tz' legacy' now' date' time'
                (snd (availableSlots tz legacy now date w)))
         = fst (checkAvailability tz' legacy' now' date' time' w)).
Proof.
  destruct (availableSlots_world tz legacy now date w) as [-> | ->].
  - repeat split.
  - repeat split; intros.
    + apply booked_settle.
    + apply records_settle.
    + apply availableSlots_settle.
    + apply checkAvailability_settle.
Qed.

(** What an availability query answers for a date and a time of the calendar. *)
Lemma checkAvailability_civil
  (tz : Z) (legacy : string -> jsnum) (now y m d h mi : Z) (w : World) :
  zone tz -> civil y m d -> 0 <= h <= 23 -> 0 <= mi <= 59 ->
  exists message,
    fst (checkAvailability tz legacy now (Some (isoDate y m d)) (Some (time24 h mi)) w)
    = {| status := 200;
         body := Checked
                   (((1 <=? dayOfWeekOf y m d) && (dayOfWeekOf y m d <=? 5))
                    && ((9 <=? h) && (h <? 18))
                    && (now <? instant tz y m d h mi)
                    && negb (booked w (isoDate y m d) (time24 h mi)))
                   message (isoDate y m d) (time24 h mi) noidaTimezone
                   "9:00 AM - 6:00 PM (Monday-Friday)"
                   (dayName (Some (dayOfWeekOf y m d))) (Some h)
                   ((1 <=? dayOfWeekOf y m d) && (dayOfWeekOf y m d <=? 5))
                   ((9 <=? h) && (h <? 18))
                   (now <? instant tz y m d h mi) |}.
Proof.
  intros Hz Hc Hh Hmi. pose proof (civil_day y m d Hc) as Hd. destruct Hc as (Hy & Hm & _).
  unfold checkAvailability.
  rewrite truthy_isoDate, truthy_time24. cbn [negb orb].
  rewrite convertTo24Hour_24 by lia.
  rewrite midnight_text, !parse_local, getDay_midnight, getHours_instant by (auto; lia).
  rewrite isSlotBooked_settle.
  eexists. reflexivity.
Qed.

(** On a host whose clocks are not ahead of Noida's, the slot listing and the
    availability query agree: for a Monday to Friday of the calendar, each of
    the eighteen half hours has a slot in the listing under its 24-hour time,
    and the slot is marked available exactly when the availability query for
    that date and time answers available. *)
Theorem listing_agrees_with_check
  (tz : Z) (legacy : string -> jsnum) (now y m d h mi : Z) (w : World) :
  notAheadOfNoida tz -> civil y m d -> 1 <= dayOfWeekOf y m d <= 5 ->
  In (h, mi) halfHours ->
  exists slots s answer message dayOfWeek hour isWeekday isBusinessHours isFuture,
    slotsOf (body (fst (availableSlots tz legacy now (Some (isoDate y m d)) w))) = Some slots
    /\ In s slots /\ time s = time24 h mi
    /\ fst (checkAvailability tz legacy now (Some (isoDate y m d)) (Some (time s)) w)
       = {| status := 200;
            body := Checked answer message (isoDate y m d) (time s) noidaTimezone
                      "9:00 AM - 6:00 PM (Monday-Friday)" dayOfWeek hour
                      isWeekday isBusinessHours isFuture |}
    /\ available s = answer.
Proof.
  intros Hz Hc Hw Hin.
  assert (Hr : 9 <= h < 18 /\ 0 <= mi <= 59).
  { unfold halfHours in Hin. apply in_map_iff in Hin as (k & [= <- <-] & Hk).
    apply list_elem_of_In, elem_of_seqZ in Hk. dlia. }
  destruct Hr as [Hh Hmi].
  destruct (checkAvailability_civil tz legacy now y m d h mi w) as (msg & Hq);
    auto using notAhead_zone; try lia.
  unfold availableSlots. rewrite truthy_isoDate. cbn [negb].
  rewrite listing_dayOfWeek by assumption.
  replace (strictEq (Some (dayOfWeekOf y m d)) 0 || strictEq (Some (dayOfWeekOf y m d)) 6)
    with false
    by (unfold strictEq; symmetry; apply orb_false_iff; split; apply Z.eqb_neq; lia).
  change (hour ← countUp 9 18 1; minute ← countUp 0 60 30; [(hour, minute)])
    with halfHours.
  rewrite forEach_slotAt; auto using notAhead_zone.
  2:{ unfold halfHours. rewrite Forall_fmap. apply Forall_forall. intros k Hk.
      apply elem_of_seqZ in Hk. cbn [compose fst snd]. dlia. }
  cbn [fst body slotsOf].
  exists (slotFor tz now y m d w <$> halfHours), (slotFor tz now y m d w (h, mi)).
  do 7 eexists. split; [reflexivity|]. split; [|split; [reflexivity|]].
  - apply in_map. exact Hin.
  - split.
    + cbn [slotFor time]. exact Hq.
    + cbn [slotFor available].
      replace ((1 <=? dayOfWeekOf y m d) && (dayOfWeekOf y m d <=? 5)) with true
        by (symmetry; apply andb_true_iff; rewrite !Z.leb_le; lia).
      replace ((9 <=? h) && (h <? 18)) with true
        by (symmetry; apply andb_true_iff; rewrite Z.leb_le, Z.ltb_lt; lia).
      cbn [andb]. f_equal.
      destruct (Z.leb_spec (instant tz y m d h mi) now);
        destruct (Z.ltb_spec now (instant tz y m d h mi)); try lia; reflexivity.
Qed.

(** The theorem for Monday 2025-09-08 at 10:00, asked in Noida. *)
Lemma listing_agrees_with_check_witness :
  exists slots s,
    slotsOf (body (fst (availableSlots 330 strict 0 (Some "2025-09-08") start))) = Some slots
    /\ In s slots /\ time s = "10:00"
    /\ exists message dayOfWeek hour isWeekday isBusinessHours isFuture,
        fst (checkAvailability 330 strict 0 (Some "2025-09-08") (Some (time s)) start)
        = {| status := 200;
             body := Checked (available s) message "2025-09-08" (time s) noidaTimezone
                       "9:00 AM - 6:00 PM (Monday-Friday)" dayOfWeek hour
                       isWeekday isBusinessHours isFuture |}.
Proof.
  destruct (listing_agrees_with_check 330 strict 0 2025 9 8 10 0 start)
    as (slots & s & answer & message & dayOfWeek & hour & isWeekday & isBusinessHours
        & isFuture & Hl & Hin & Ht & Hq & Ha).
  - unfold notAheadOfNoida, JSDate.kolkata. lia.
  - unfold civil, daysInMonth. lia.
  - change (dayOfWeekOf 2025 9 8) with 1. lia.
  - vm_compute. tauto.
  - exists slots, s. split; [exact Hl|]. split; [exact Hin|]. split; [exact Ht|].
    exists message, dayOfWeek, hour, isWeekday, isBusinessHours, isFuture.
    rewrite Ha. exact Hq.
Defined.

End QueryFacts.

(** ** The booking handler: what a booking does *)

Module BookingFacts.
Import JS Api Samples StoreFacts DateFacts NormaliserFacts ApiFacts Reads ReadsFacts StoreChanges.
Import QueryFacts Bookings Cases.

Lemma TimeClip_some (t e : Z) : JSDate.TimeClip t = Some e -> e = t.
Proof. unfold JSDate.TimeClip. destruct (Z.abs t <=? _); congruence. Qed.

Lemma recipient_mailed (rcpt : string) (ty : option string) (r : completion bool) :
  recipient (mailed rcpt ty r) = rcpt.
Proof. destruct r; reflexivity. Qed.

(** The path of the booking handler that answers 200. *)
Lemma booking_scheduled (env : Env) (now : Z) (req : Booking) (w : World) :
  status (reply (scheduleDiscoveryCall env now req w)) = 200 ->
  exists sd st ud begins meeting results,
    selectedDate req = Some sd /\ selectedTime req = Some st /\ userDetails req = Some ud
    /\ truthy (Some sd) = true
    /\ JSDate.parse (tz env) (legacyParse env)
         (sd +:+ "T" +:+ convertTo24Hour st +:+ ":00+05:30") = Some begins
    /\ createTeamsMeeting env "Discovery Call - Thrive" begins (begins + 30 * 60000)
         (email ud :: guestsOf req) (organizerOf env) = Normal meeting
    /\ world (scheduleDiscoveryCall env now req w)
       = snd (addBookedSlot now sd (convertTo24Hour st) w)
    /\ effects (scheduleDiscoveryCall env now req w)
       = CreateTeamsMeeting "Discovery Call - Thrive" begins (begins + 30 * 60000)
           (email ud :: guestsOf req) (organizerOf env)
         :: AddBookedSlot sd (convertTo24Hour st)
         :: map (fun r => SendMail (recipient r)) results
    /\ body (reply (scheduleDiscoveryCall env now req w))
       = Scheduled "Discovery call scheduled successfully" meeting
           (existsb succeeded results) results
    /\ map recipient results
       = (email ud
          :: filter (fun a => String.eqb a (email ud) = false)
               (distinct [] ((email ud :: guestsOf req) ++ [email ud]))
          ++ organizerOf env
          :: (if String.eqb (adminOf env) (organizerOf env) then [] else [adminOf env]))%list.
Proof.
  unfold scheduleDiscoveryCall. fold (guestsOf req). fold (organizerOf env).
  fold (adminOf env).
  destruct (selectedDate req) as [sd|], (selectedTime req) as [st|], (userDetails req) as [ud|];
    cbn [reply world effects body status]; try discriminate.
  destruct (truthy (Some sd)) eqn:Hsd; cbn [negb orb reply status]; [|discriminate].
  destruct (negb (truthy (Some st)) || negb (truthy _));
    cbn [reply world effects body status]; [discriminate|].
  destruct (strictEq _ 0 || strictEq _ 6); cbn [reply world effects body status];
    [discriminate|].
  destruct (lt _ (Some 9) || ge _ (Some 18)); cbn [reply world effects body status];
    [discriminate|].
  destruct (JSDate.parse _ _ (sd +:+ "T" +:+ convertTo24Hour st +:+ ":00+05:30"))
    as [begins|] eqn:Hb; cbn [JSDate.toISOString reply status]; [|discriminate].
  destruct (JSDate.TimeClip (begins + 30 * 60000)) as [ends|] eqn:He;
    cbn [JSDate.toISOString reply status]; [|discriminate].
  apply TimeClip_some in He. subst ends.
  destruct (createTeamsMeeting env _ _ _ _ _) as [meeting|e] eqn:Ecreate;
    cbn [reply world effects body status]; [|discriminate].
  destruct (addBookedSlot now sd (convertTo24Hour st) w) as [r w1] eqn:Eadd.
  cbn [reply world effects body status]. intros _.
  exists sd, st, ud, begins, meeting. eexists.
  do 3 (split; [reflexivity|]). split; [exact Hsd|]. split; [exact Hb|].
  split; [exact Ecreate|]. split; [rewrite Eadd; reflexivity|].
  split; [cbn [app]; f_equal; f_equal; apply map_ext; intros [? ? ? ?]; reflexivity|].
  split; [reflexivity|].
  cbn [app map]. rewrite recipient_mailed. f_equal.
  rewrite map_app. cbn [map]. rewrite recipient_mailed. f_equal.
  - rewrite map_map. rewrite <- (map_id (filter _ _)) at 2. apply map_ext.
    intros a. apply recipient_mailed.
  - f_equal. destruct (String.eqb (adminOf env) (organizerOf env)); [reflexivity|].
    cbn [map]. rewrite recipient_mailed. reflexivity.
Qed.


Lemma existsb_eqb_In (x : string) (l : list string) :
  existsb (String.eqb x) l = true <-> In x l.
Proof.
  rewrite existsb_exists. split.
  - intros (y & Hy & ->%String.eqb_eq). exact Hy.
  - intros H. exists x. split; [exact H | apply String.eqb_refl].
Qed.

Lemma distinct_In (seen l : list string) (x : string) :
  In x (distinct seen l) <-> In x l /\ ~ In x seen.
Proof.
  revert seen. induction l as [|a l IH]; intros seen; cbn [distinct].
  - simpl. tauto.
  - destruct (existsb (String.eqb a) seen) eqn:E.
    + apply existsb_eqb_In in E. rewrite IH. simpl. split.
      * tauto.
      * intros [[<- | H] Hn]; [contradiction | tauto].
    + assert (Ha : ~ In a seen) by (rewrite <- existsb_eqb_In, E; discriminate).
      simpl. rewrite IH. simpl. destruct (string_dec a x) as [<- | Hne]; tauto.
Qed.

Lemma distinct_NoDup (seen l : list string) : NoDup (distinct seen l).
Proof.
  revert seen. induction l as [|a l IH]; intros seen; cbn [distinct].
  - apply NoDup_nil_2.
  - destruct (existsb (String.eqb a) seen); [apply IH|].
    apply NoDup_cons. split; [|apply IH].
    rewrite list_elem_of_In, distinct_In. simpl. tauto.
Qed.

(** A booking answered with 200 books the slot under the date as sent and the
    time in 24-hour form, and no other slot.  From then on an availability
    query for that date, with the time written in any way that normalises to
    the same 24-hour time, is answered with [available = false], whatever the
    host's zone and clock. *)
Theorem booking_books_the_normalised_slot (env : Env) (now : Z) (req : Booking) (w : World) :
  status (reply (scheduleDiscoveryCall env now req w)) = 200 ->
  exists sd st,
    selectedDate req = Some sd /\ selectedTime req = Some st
    /\ booked (world (scheduleDiscoveryCall env now req w)) sd (convertTo24Hour st) = true
    /\ (forall d t, (sd, convertTo24Hour st) <> (d, t) ->
          booked (world (scheduleDiscoveryCall env now req w)) d t = booked w d t)
    /\ (forall tz legacy now' time,
          time <> EmptyString -> convertTo24Hour time = convertTo24Hour st ->
          exists message dayOfWeek hour isWeekday isBusinessHours isFuture,
            fst (checkAvailability tz legacy now' (Some sd) (Some time)
                   (world (scheduleDiscoveryCall env now req w)))
            = {| status := 200;
                 body := Checked false message sd time noidaTimezone
                           "9:00 AM - 6:00 PM (Monday-Friday)" dayOfWeek hour
                           isWeekday isBusinessHours isFuture |}).
Proof.
  intros H. destruct (booking_scheduled env now req w H)
    as (sd & st & ud & begins & meeting & results & Hd & Ht & _ & Hsd & _ & _ & Hw & _).
  exists sd, st. rewrite Hw. split; [exact Hd|]. split; [exact Ht|].
  split; [apply booked_after_add|]. split; [intros d t Hne; apply booked_add_other, Hne|].
  intros tz legacy now' time Hne Hsame. unfold checkAvailability.
  rewrite Hsd, (truthy_nonempty time Hne). cbn [negb orb].
  rewrite isSlotBooked_settle, Hsame, booked_after_add. cbn [negb fst].
  rewrite andb_false_r. do 6 eexists. reflexivity.
Qed.

Lemma booking_books_the_normalised_slot_witness :
  exists sd st,
    selectedDate request = Some sd /\ selectedTime request = Some st
    /\ booked (world (scheduleDiscoveryCall working 1 request start)) sd (convertTo24Hour st)
       = true.
Proof.
  destruct (booking_books_the_normalised_slot working 1 request start)
    as (sd & st & Hd & Ht & Hb & _); [vm_compute; reflexivity|].
  exists sd, st. repeat split; assumption.
Defined.

(** The mails of a booking answered with 200 go, in this order, to the
    requester, to each guest address other than the requester's once, however
    often it was given, to the organizer of the environment, and to the
    administrator when that is another address. *)
Theorem mail_recipients
  (env : Env) (now : Z) (req : Booking) (w : World) :
  status (reply (scheduleDiscoveryCall env now req w)) = 200 ->
  exists ud meeting sent results others,
    userDetails req = Some ud
    /\ body (reply (scheduleDiscoveryCall env now req w))
       = Scheduled "Discovery call scheduled successfully" meeting sent results
    /\ map recipient results
       = (email ud :: others ++ organizerOf env
          :: (if String.eqb (adminOf env) (organizerOf env) then [] else [adminOf env]))%list
    /\ NoDup others
    /\ (forall g, In g others <-> In g (guestsOf req) /\ g <> email ud).
Proof.
  intros H. destruct (booking_scheduled env now req w H)
    as (sd & st & ud & begins & meeting & results & _ & _ & Hu & _ & _ & _ & _ & _ & Hb & Hr).
  exists ud, meeting, (existsb succeeded results), results. eexists.
  split; [exact Hu|]. split; [exact Hb|]. split; [exact Hr|]. split.
  - apply NoDup_filter, distinct_NoDup.
  - intros g. rewrite <- list_elem_of_In, list_elem_of_filter, list_elem_of_In.
    rewrite distinct_In. cbn [app]. cbn [In]. rewrite in_app_iff. cbn [In].
    rewrite <- not_true_iff_false, String.eqb_eq. split.
    + intros (Hne & [Hg | [Hg | [Hg | []]]] & _); try (symmetry in Hg; contradiction).
      split; assumption.
    + intros [Hg Hne]. split; [exact Hne|]. split; [right; left; exact Hg | tauto].
Qed.

Lemma mail_recipients_witness :
  exists results,
    (exists meeting sent,
        body (reply (scheduleDiscoveryCall working 1 crowded start))
        = Scheduled "Discovery call scheduled successfully" meeting sent results)
    /\ map recipient results
       = ["john.doe@example.com"; "ann@example.com"; "admin@thrivebrands.ai"].
Proof.
  destruct (mail_recipients working 1 crowded start)
    as (ud & meeting & sent & results & others & Hu & Hb & Hr & _);
    [vm_compute; reflexivity|].
  exists results. split; [exists meeting, sent; exact Hb|]. clear Hr.
  vm_compute in Hb. injection Hb as _ _ <-. reflexivity.
Defined.

End BookingFacts.

(** ** The booking handler: clock, meeting window, unreadable dates *)

Module BookingEdges.
Import JS Api Samples StoreFacts DateFacts NormaliserFacts ApiFacts Reads ReadsFacts StoreChanges.
Import QueryFacts Bookings Cases BookingFacts.

Lemma booked_add_clock (now now' : Z) (d t d' t' : string) (w : World) :
  booked (snd (addBookedSlot now d t w)) d' t'
  = booked (snd (addBookedSlot now' d t w)) d' t'.
Proof.
  destruct (decide ((d, t) = (d', t'))) as [[= <- <-] | Hne].
  - rewrite !booked_after_add. reflexivity.
  - rewrite !booked_add_other by exact Hne. reflexivity.
Qed.

(** The booking handler reads the clock for the time stamps of the record
    only: at any two moments the same request gets the same reply, makes the
    same calls and leaves the same slots booked.  A request for a time that
    has passed is booked like any other. *)
Theorem booking_ignores_the_clock (env : Env) (now now' : Z) (req : Booking) (w : World) :
  reply (scheduleDiscoveryCall env now req w) = reply (scheduleDiscoveryCall env now' req w)
  /\ effects (scheduleDiscoveryCall env now req w)
     = effects (scheduleDiscoveryCall env now' req w)
  /\ (forall d t, booked (world (scheduleDiscoveryCall env now req w)) d t
                  = booked (world (scheduleDiscoveryCall env now' req w)) d t).
Proof.
  unfold scheduleDiscoveryCall.
  destruct (selectedDate req) as [sd|], (selectedTime req) as [st|], (userDetails req) as [ud|];
    cbn [reply world effects body status]; try (repeat split; fail).
  destruct (negb (truthy (Some sd)) || negb (truthy (Some st)) || negb (truthy _));
    cbn [reply world effects body status]; [repeat split|].
  destruct (strictEq _ 0 || strictEq _ 6); cbn [reply world effects body status];
    [repeat split|].
  destruct (lt _ (Some 9) || ge _ (Some 18)); cbn [reply world effects body status];
    [repeat split|].
  destruct (JSDate.toISOString _) as [startTime|e]; cbn [reply world effects body status];
    [|repeat split].
  destruct (JSDate.toISOString (JSDate.TimeClip _)) as [endTime|e];
    cbn [reply world effects body status]; [|repeat split].
  destruct (createTeamsMeeting env _ _ _ _ _) as [meeting|e];
    cbn [reply world effects body status]; [|repeat split].
  pose proof (fun d t => booked_add_clock now now' sd (convertTo24Hour st) d t w) as Hb.
  destruct (addBookedSlot now sd (convertTo24Hour st) w) as [r w1].
  destruct (addBookedSlot now' sd (convertTo24Hour st) w) as [r' w1'].
  cbn [reply world effects body status]. repeat split. exact Hb.
Qed.

(** A booking for a Monday to Friday of the calendar, at an hour from 9 to
    17, calls the meeting provider once and first, for the half hour that
    starts when the clocks of Noida read the requested time, with the
    requester and then the guests as attendees, and with the organizer of the
    environment whichever organizer the request names.  The hour check reads
    the requested time on the host's clocks: on a host [tz] minutes east of
    UTC the meeting starts [tz - 330] minutes after the instant it checked. *)
Theorem meeting_window
  (env : Env) (now y m d h mi : Z) (ud : UserDetails) (guests : list string)
  (organizer : option string) (w : World) :
  zone (tz env) -> civil y m d -> 1 <= dayOfWeekOf y m d <= 5 ->
  9 <= h < 18 -> 0 <= mi <= 59 -> organizer <> Some EmptyString ->
  exists rest,
    effects (scheduleDiscoveryCall env now
               {| selectedDate := Some (isoDate y m d); selectedTime := Some (time24 h mi);
                  userDetails := Some ud; guestEmails := Some guests;
                  organizerEmail := organizer |} w)
    = CreateTeamsMeeting "Discovery Call - Thrive" (instant JSDate.kolkata y m d h mi)
        (instant JSDate.kolkata y m d h mi + 30 * 60000) (email ud :: guests)
        (organizerOf env) :: rest
    /\ (forall subject startTime endTime attendees by_,
           ~ In (CreateTeamsMeeting subject startTime endTime attendees by_) rest)
    /\ instant JSDate.kolkata y m d h mi
       = instant (tz env) y m d h mi + (tz env - 330) * 60000.
Proof.
  intros Hz Hc Hw Hh Hmi Horg. pose proof (civil_day y m d Hc) as Hd.
  pose proof Hc as (Hy & Hm & _).
  unfold scheduleDiscoveryCall. fold (organizerOf env).
  cbn [selectedDate selectedTime userDetails guestEmails organizerEmail].
  rewrite truthy_isoDate, truthy_time24. cbn [negb orb].
  replace (truthy match organizer with
                  | Some e => Some e
                  | None => orElse (ORGANIZER_EMAIL env)
                              (Some "Swati.Nawani@thrivebrands.ai")
                  end) with true
    by (destruct organizer as [[|c e]|];
        [congruence | reflexivity | symmetry; apply orElse_truthy; discriminate]).
  cbn [negb].
  rewrite convertTo24Hour_24 by lia.
  rewrite midnight_text, !parse_local, getDay_midnight, getHours_instant by (auto; lia).
  rewrite parse_noida by (auto; lia).
  unfold strictEq, lt, ge, le.
  replace ((dayOfWeekOf y m d =? 0) || (dayOfWeekOf y m d =? 6)) with false
    by (symmetry; apply orb_false_iff; split; apply Z.eqb_neq; lia).
  replace ((h <? 9) || (18 <=? h)) with false
    by (symmetry; apply orb_false_iff; rewrite Z.ltb_ge, Z.leb_gt; lia).
  cbn [JSDate.toISOString].
  assert (Hclip : JSDate.TimeClip (instant JSDate.kolkata y m d h mi + 30 * 60000)
                  = Some (instant JSDate.kolkata y m d h mi + 30 * 60000)).
  { unfold JSDate.TimeClip.
    pose proof (MakeDay_bounds y m d ltac:(lia) Hm Hd) as Hb.
    unfold instant, JSDate.UTC, JSDate.LocalTZA, JSDate.MakeDate, JSDate.MakeTime,
      JSDate.msPerDay, JSDate.msPerHour, JSDate.msPerMinute, JSDate.msPerSecond,
      JSDate.kolkata in *.
    destruct (Z.abs _ <=? _) eqn:E; [reflexivity|]. lia. }
  rewrite Hclip. cbn [JSDate.toISOString].
  assert (Hzone : instant JSDate.kolkata y m d h mi
                  = instant (tz env) y m d h mi + (tz env - 330) * 60000).
  { unfold instant, JSDate.UTC, JSDate.LocalTZA, JSDate.msPerMinute, JSDate.kolkata. lia. }
  destruct (createTeamsMeeting env _ _ _ _ _) as [meeting|e].
  - destruct (addBookedSlot now (isoDate y m d) (time24 h mi) w) as [r w1].
    cbn [effects app]. eexists. split; [reflexivity|]. split; [|exact Hzone].
    intros subject startTime endTime attendees by_ [Hin | Hin]; [discriminate|].
    apply in_map_iff in Hin as ([rcpt ok err ty] & Hin & _). discriminate.
  - cbn [effects]. eexists. split; [reflexivity|]. split; [|exact Hzone].
    intros subject startTime endTime attendees by_ [].
Qed.

(** The theorem for the sample request of Tuesday 2025-09-09, 10:00, on a
    host in Noida. *)
Lemma meeting_window_witness :
  exists rest,
    effects (scheduleDiscoveryCall working 1
               {| selectedDate := Some "2025-09-09"; selectedTime := Some "10:00";
                  userDetails := Some caller; guestEmails := Some [];
                  organizerEmail := Some "someone@example.com" |} start)
    = CreateTeamsMeeting "Discovery Call - Thrive" 1757392200000 1757394000000
        ["john.doe@example.com"] "admin@thrivebrands.ai" :: rest.
Proof.
  destruct (meeting_window working 1 2025 9 9 10 0 caller [] (Some "someone@example.com")
              start) as (rest & H & _).
  - unfold zone. cbn. lia.
  - unfold civil, daysInMonth. lia.
  - change (dayOfWeekOf 2025 9 9) with 2. lia.
  - lia.
  - lia.
  - discriminate.
  - exists rest. exact H.
Defined.

(** A request whose date the engine cannot read, whatever follows it, passes
    the weekday and the hour checks, both comparisons with an invalid date
    being false, and fails when the start is written out: the answer is 500
    with the message of the [RangeError], and nothing is called or reserved. *)
Theorem unreadable_date_is_a_server_error
  (env : Env) (now : Z) (sd st : string) (ud : UserDetails) (guests : option (list string))
  (w : World) :
  sd <> EmptyString -> st <> EmptyString ->
  (forall suffix, JSDate.parse (tz env) (legacyParse env) (sd +:+ suffix) = None) ->
  scheduleDiscoveryCall env now
    {| selectedDate := Some sd; selectedTime := Some st; userDetails := Some ud;
       guestEmails := guests; organizerEmail := None |} w
  = {| reply := {| status := 500; body := ServerError "Invalid time value" |};
       world := w; effects := [] |}.
Proof.
  intros Hsd Hst Hparse. unfold scheduleDiscoveryCall.
  cbn [selectedDate selectedTime userDetails guestEmails organizerEmail].
  rewrite (truthy_nonempty sd Hsd), (truthy_nonempty st Hst), orElse_truthy by discriminate.
  cbn [negb orb]. rewrite !Hparse. reflexivity.
Qed.

Lemma unreadable_date_is_a_server_error_witness :
  scheduleDiscoveryCall working 1 someday start
  = {| reply := {| status := 500; body := ServerError "Invalid time value" |};
       world := start; effects := [] |}.
Proof.
  apply (unreadable_date_is_a_server_error working 1 "someday" "10:00" caller None start).
  - discriminate.
  - discriminate.
  - intros suffix. reflexivity.
Defined.

(** The queries answer 200 for such a date.  The listing shows the eighteen
    half hours of a working day, none of them past, with "Invalid Date" as
    display time and no name for the day of the week; the availability query
    answers that meetings are on weekdays only. *)
Theorem unreadable_date_is_listed
  (tz : Z) (legacy : string -> jsnum) (now : Z) (date time : string) (w : World) :
  date <> EmptyString -> time <> EmptyString ->
  (forall suffix, JSDate.parse tz legacy (date +:+ suffix) = None) ->
  fst (availableSlots tz legacy now (Some date) w)
  = {| status := 200;
       body := Listing date noidaTimezone None "9:00 AM - 6:00 PM (Monday-Friday)" 18
                 (Z.of_nat (length (filter (fun hm => booked w date (time24 hm.1 hm.2) = false)
                                      halfHours)))
                 (map (fun hm =>
                         {| Api.time := time24 hm.1 hm.2; displayTime := "Invalid Date";
                            available := negb (booked w date (time24 hm.1 hm.2));
                            reason := if booked w date (time24 hm.1 hm.2)
                                      then "Already booked" else "Available" |})
                    halfHours) |}
  /\ fst (checkAvailability tz legacy now (Some date) (Some time) w)
     = {| status := 200;
          body := Checked false weekdaysOnly date time noidaTimezone
                    "9:00 AM - 6:00 PM (Monday-Friday)" None None false false false |}.
Proof.
  intros Hd Ht Hparse. split.
  - unfold availableSlots. rewrite (truthy_nonempty date Hd). cbn [negb].
    rewrite Hparse. cbn [JSDate.relocate JSDate.getDay option_map mbind option_bind strictEq orb].
    change (hour ← countUp 9 18 1; minute ← countUp 0 60 30; [(hour, minute)])
      with halfHours.
    rewrite forEach_slotAt_any. cbn [fst].
    assert (E : map (fun hm => fst (slotAt tz legacy now date hm w)) halfHours
                = map (fun hm =>
                         {| Api.time := time24 hm.1 hm.2; displayTime := "Invalid Date";
                            available := negb (booked w date (time24 hm.1 hm.2));
                            reason := if booked w date (time24 hm.1 hm.2)
                                      then "Already booked" else "Available" |})
                    halfHours).
    { apply map_ext_in. intros [h mi] Hin.
      assert (Hr : 0 <= h <= 99 /\ 0 <= mi <= 99).
      { unfold halfHours in Hin. apply in_map_iff in Hin as (k & [= <- <-] & Hk).
        apply list_elem_of_In, elem_of_seqZ in Hk. dlia. }
      unfold slotAt. rewrite !padStart_pad2 by lia. fold (time24 h mi).
      rewrite Hparse, isSlotBooked_settle. reflexivity. }
    rewrite E. f_equal. f_equal. f_equal. clear E.
    induction halfHours as [|hm l IH]; [reflexivity|].
    cbn [map]. rewrite !filter_cons. cbn [available].
    destruct (booked w date (time24 hm.1 hm.2)); cbn [negb].
    + rewrite decide_False by discriminate. rewrite decide_False by discriminate. exact IH.
    + rewrite decide_True by reflexivity. rewrite decide_True by reflexivity.
      cbn [length]. rewrite IH. reflexivity.
  - unfold checkAvailability.
    rewrite (truthy_nonempty date Hd), (truthy_nonempty time Ht). cbn [negb orb].
    rewrite !Hparse, isSlotBooked_settle. reflexivity.
Qed.

Lemma unreadable_date_is_listed_witness :
  fst (checkAvailability 330 strict 0 (Some "someday") (Some "10:00") start)
  = {| status := 200;
       body := Checked false weekdaysOnly "someday" "10:00" noidaTimezone
                 "9:00 AM - 6:00 PM (Monday-Friday)" None None false false false |}.
Proof.
  apply (unreadable_date_is_listed 330 strict 0 "someday" "10:00" start).
  - discriminate.
  - discriminate.
  - intros suffix. reflexivity.
Defined.

End BookingEdges.

(** ** The listing of booked slots; the times shown *)

Module BookedSlotsFacts.
Import JS Api Samples StoreFacts DateFacts NormaliserFacts ApiFacts Reads ReadsFacts StoreChanges.
Import QueryFacts Bookings Cases BookingFacts BookedSlotsApi.

Lemma length_append (s1 s2 : string) :
  String.length (s1 +:+ s2) = (String.length s1 + String.length s2)%nat.
Proof.
  induction s1 as [|a s1 IH]; [reflexivity|].
  change (String a s1 +:+ s2) with (String a (s1 +:+ s2)).
  cbn [String.length Nat.add]. rewrite IH. reflexivity.
Qed.

Lemma dateRegex_truthy (s : string) : dateRegex s = true -> truthy (Some s) = true.
Proof. destruct s; [discriminate | reflexivity]. Qed.

(** What the listing of the booked times answers for a well-formed date. *)
Lemma listBookedSlots_ok (date : string) (w : World) :
  dateRegex date = true ->
  listBookedSlots (Some date) w
  = ({| status := 200;
        body := BookedOn date "Asia/Kolkata"
                  (map (fun t => Slot t (formatTimeForEmail t) true)
                     (fst (getBookedSlots date w)))
                  (Z.of_nat (length (fst (getBookedSlots date w))))
                  (if 0 <? Z.of_nat (length (fst (getBookedSlots date w)))
                   then numToString (Some (Z.of_nat (length (fst (getBookedSlots date w)))))
                        +:+ " slot(s) are already booked for this date"
                   else "No slots are booked for this date") |}, settle w).
Proof.
  intros Hre. unfold listBookedSlots.
  rewrite (dateRegex_truthy date Hre), Hre. cbn [negb].
  rewrite <- getBookedSlots_settle with (d := date).
  destruct (getBookedSlots date w) as [l w1]. reflexivity.
Qed.

(** For a date written as four digits, two digits and two digits with dashes
    between, the listing of booked slots answers 200 with one entry for each
    booked time of that date and no other: the entry carries the time as
    stored, the same time in 12-hour notation and [booked = true].  The total
    is the number of entries, the message says that no slots are booked
    exactly when there is no entry, and the listing only reads. *)
Theorem booked_slots_lists_the_booked_times (date : string) (w : World) :
  dateRegex date = true ->
  exists entries message w',
    listBookedSlots (Some date) w
    = ({| status := 200;
          body := BookedOn date "Asia/Kolkata" entries (Z.of_nat (length entries))
                    message |}, w')
    /\ (forall t shown b,
           In (Slot t shown b) entries
           <-> booked w date t = true /\ shown = formatTimeForEmail t /\ b = true)
    /\ (entries = [] <-> message = "No slots are booked for this date")
    /\ (forall d t, booked w' d t = booked w d t).
Proof.
  intros Hre. rewrite (listBookedSlots_ok date w Hre).
  exists (map (fun t => Slot t (formatTimeForEmail t) true) (fst (getBookedSlots date w))).
  do 2 eexists. split; [rewrite length_map; reflexivity|]. split; [|split].
  - intros t shown b. rewrite in_map_iff. rewrite <- getBookedSlots_booked. split.
    + intros (t' & [= <- <- <-] & Hin). auto.
    + intros (Hin & -> & ->). exists t. auto.
  - destruct (fst (getBookedSlots date w)) as [|t l]; cbn [map length].
    + split; reflexivity.
    + split; [discriminate|].
      replace (0 <? Z.of_nat (S (length l))) with true by (symmetry; apply Z.ltb_lt; lia).
      intros H. exfalso. revert H.
      generalize (numToString (Some (Z.of_nat (S (length l))))). intros s H.
      apply (f_equal (fun x => String.length x)) in H.
      rewrite length_append in H. cbn in H. lia.
  - intros d t. apply booked_settle.
Qed.


(** The theorem for the store with Tuesday 2025-09-09, 10:00 booked. *)
Lemma booked_slots_lists_the_booked_times_witness :
  exists entries message w',
    listBookedSlots (Some "2025-09-09") reserved
    = ({| status := 200;
          body := BookedOn "2025-09-09" "Asia/Kolkata" entries (Z.of_nat (length entries))
                    message |}, w')
    /\ In (Slot "10:00" "10:00 AM" true) entries.
Proof.
  destruct (booked_slots_lists_the_booked_times "2025-09-09" reserved)
    as (entries & message & w' & H & Hin & _); [reflexivity|].
  exists entries, message, w'. split; [exact H|].
  apply Hin. repeat split; reflexivity.
Defined.

Lemma isDigit_digitChar (d : Z) : 0 <= d <= 9 -> isDigit (digitChar d) = true.
Proof. intros H. unfold isDigit. rewrite digitVal_digitChar by exact H. reflexivity. Qed.

(** The format check of the listing looks at the characters only: every
    rendering of three numbers as [YYYY-MM-DD] passes, also for a month or a
    day that no calendar has, and is answered with 200; a date that fails the
    check is answered with 400 and the store is not read. *)
Theorem booked_slots_checks_the_format_only (y m d : Z) (other : string) (w : World) :
  0 <= y <= 9999 -> 0 <= m <= 99 -> 0 <= d <= 99 -> dateRegex other = false ->
  dateRegex (isoDate y m d) = true
  /\ status (fst (listBookedSlots (Some (isoDate y m d)) w)) = 200
  /\ status (fst (listBookedSlots (Some other) w)) = 400
  /\ snd (listBookedSlots (Some other) w) = w.
Proof.
  intros Hy Hm Hd Ho.
  assert (Hre : dateRegex (isoDate y m d) = true).
  { unfold isoDate, pad4, pad2. cbv [String.append]. unfold dateRegex.
    rewrite !isDigit_digitChar by dlia. reflexivity. }
  split; [exact Hre|]. split; [rewrite (listBookedSlots_ok _ w Hre); reflexivity|].
  unfold listBookedSlots. rewrite Ho.
  destruct (negb (truthy (Some other))); split; reflexivity.
Qed.

Lemma booked_slots_checks_the_format_only_witness :
  dateRegex "2025-13-45" = true
  /\ status (fst (listBookedSlots (Some "2025-13-45") start)) = 200
  /\ status (fst (listBookedSlots (Some "09/09/2025") start)) = 400.
Proof.
  destruct (booked_slots_checks_the_format_only 2025 13 45 "09/09/2025" start)
    as (H1 & H2 & H3 & _); [lia | lia | lia | reflexivity |].
  repeat split; assumption.
Defined.

(** After a booking answered with 200, the listing of booked slots for the
    date of the request, when that is written [YYYY-MM-DD], has an entry for
    the time in 24-hour form, shown as the mails show it. *)
Theorem booking_shows_in_booked_slots (env : Env) (now : Z) (req : Booking) (w : World) :
  status (reply (scheduleDiscoveryCall env now req w)) = 200 ->
  exists sd st,
    selectedDate req = Some sd /\ selectedTime req = Some st
    /\ (dateRegex sd = true ->
        exists entries total message w',
          listBookedSlots (Some sd) (world (scheduleDiscoveryCall env now req w))
          = ({| status := 200;
                body := BookedOn sd "Asia/Kolkata" entries total message |}, w')
          /\ In (Slot (convertTo24Hour st) (formatTimeForEmail (convertTo24Hour st)) true)
               entries
          /\ 1 <= total).
Proof.
  intros H. destruct (booking_scheduled env now req w H)
    as (sd & st & ud & begins & meeting & results & Hd & Ht & _ & _ & _ & _ & Hw & _).
  exists sd, st. split; [exact Hd|]. split; [exact Ht|]. intros Hre.
  rewrite (listBookedSlots_ok sd _ Hre). do 4 eexists. split; [reflexivity|].
  assert (Hin : In (convertTo24Hour st)
                  (fst (getBookedSlots sd (world (scheduleDiscoveryCall env now req w))))).
  { apply getBookedSlots_booked. rewrite Hw. apply booked_after_add. }
  split.
  - apply in_map_iff. exists (convertTo24Hour st). split; [reflexivity | exact Hin].
  - destruct (fst (getBookedSlots sd _)) as [|t l]; [destruct Hin|].
    cbn [length]. lia.
Qed.

Lemma booking_shows_in_booked_slots_witness :
  exists entries total message w',
    listBookedSlots (Some "2025-09-09") (world (scheduleDiscoveryCall working 1 request start))
    = ({| status := 200;
          body := BookedOn "2025-09-09" "Asia/Kolkata" entries total message |}, w')
    /\ In (Slot "10:00" "10:00 AM" true) entries.
Proof.
  destruct (booking_shows_in_booked_slots working 1 request start)
    as (sd & st & Hd & Ht & H); [vm_compute; reflexivity|].
  injection Hd as <-. injection Ht as <-.
  destruct (H eq_refl) as (entries & total & message & w' & Hl & Hin & _).
  exists entries, total, message, w'. split; [exact Hl | exact Hin].
Defined.

End BookedSlotsFacts.

Module ClockFacts.
Import JS NormaliserFacts.

(** [formatTimeForEmail] writes a time of the day in the 12-hour notation
    without a leading zero, hour 0 as 12 AM and hour 12 as 12 PM, and
    [convertTo24Hour] reads what it wrote back as the time it was given. *)
Theorem mail_time_reads_back (h mi : Z) :
  0 <= h < 24 -> 0 <= mi < 60 ->
  formatTimeForEmail (time24 h mi) = time12 false (hour12 h) mi (12 <=? h)
  /\ convertTo24Hour (formatTimeForEmail (time24 h mi)) = time24 h mi.
Proof.
  intros Hh Hmi. split; [|apply convertTo24Hour_formatTimeForEmail; assumption].
  apply String.eqb_eq. change (shown12 h mi = true).
  assert (Hall : forallb (fun h => forallb (shown12 h) (seqZ 0 60)) (seqZ 0 24) = true)
    by (vm_compute; reflexivity).
  apply (forallb_seqZ (shown12 h) 0 60); [|lia].
  apply (forallb_seqZ (fun h => forallb (shown12 h) (seqZ 0 60)) 0 24 Hall); lia.
Qed.

Lemma mail_time_reads_back_witness :
  formatTimeForEmail "14:30" = "2:30 PM" /\ convertTo24Hour (formatTimeForEmail "14:30") = "14:30".
Proof. apply (mail_time_reads_back 14 30); lia. Defined.

(** The normaliser of the first server.js is the later one without the test
    for AM and PM: the two agree on every input that contains one of these.
    On the 12-hour writings of a time it gives the 24-hour time; a time
    already written [HH:MM] it gives back, except in the hour after noon,
    which it moves to the hour after midnight. *)
Theorem earlier_convertTo24Hour (h mi : Z) (s : string) :
  0 <= h < 24 -> 0 <= mi < 60 ->
  (includes s "AM" || includes s "PM" = true -> Earlier.convertTo24Hour s = convertTo24Hour s)
  /\ (forall padded h12 pm,
         1 <= h12 <= 12 -> hour24 h12 pm = h ->
         Earlier.convertTo24Hour (time12 padded h12 mi pm) = time24 h mi)
  /\ Earlier.convertTo24Hour (time24 h mi) = time24 (if h =? 12 then 0 else h) mi.
Proof.
  intros Hh Hmi. split; [|split].
  - intros Hs. unfold convertTo24Hour.
    apply orb_true_iff in Hs. 
    destruct (includes s "AM"), (includes s "PM"); cbn [negb andb];
      try reflexivity. destruct Hs; discriminate.
  - intros padded h12 pm H12 <-. apply String.eqb_eq.
    change (Earlier.read12 padded pm h12 mi = true).
    assert (Hall : forallb (fun p => forallb (fun q =>
              forallb (fun h => forallb (Earlier.read12 p q h) (seqZ 0 60)) (seqZ 1 12))
              [true; false]) [true; false] = true)
      by (vm_compute; reflexivity).
    rewrite forallb_forall in Hall.
    specialize (Hall padded ltac:(destruct padded; simpl; auto)).
    rewrite forallb_forall in Hall.
    specialize (Hall pm ltac:(destruct pm; simpl; auto)).
    apply (forallb_seqZ (Earlier.read12 padded pm h12) 0 60); [|lia].
    apply (forallb_seqZ (fun h => forallb (Earlier.read12 padded pm h) (seqZ 0 60)) 1 12 Hall);
      lia.
  - apply String.eqb_eq. change (Earlier.kept24 h mi = true).
    assert (Hall : forallb (fun h => forallb (Earlier.kept24 h) (seqZ 0 60)) (seqZ 0 24) = true)
      by (vm_compute; reflexivity).
    apply (forallb_seqZ (Earlier.kept24 h) 0 60); [|lia].
    apply (forallb_seqZ (fun h => forallb (Earlier.kept24 h) (seqZ 0 60)) 0 24 Hall); lia.
Qed.

Lemma earlier_convertTo24Hour_witness :
  Earlier.convertTo24Hour "2:30 PM" = "14:30" /\ Earlier.convertTo24Hour "12:30" = "00:30".
Proof.
  destruct (earlier_convertTo24Hour 14 30 "2:30 PM") as (_ & H12 & _); [lia | lia |].
  destruct (earlier_convertTo24Hour 12 30 "12:30") as (_ & _ & H24); [lia | lia |].
  split; [exact (H12 false 2 true ltac:(lia) eq_refl) | exact H24].
Defined.

End ClockFacts.
